(** * MT103 to JSON: a shallow embedding of [mt103_json.py]

    The Python module decodes a SWIFT MT103 message with a series of regular
    expression searches.  This development embeds

    - Python [str] values as lists of characters ([str]), a character being a
      code point in the range 0..255;
    - the fragment of Python's [re] the module uses, as a backtracking
      matcher over a small regular expression syntax ([regex], [rmatch],
      [re_match], [re_search], [re_finditer]);
    - the documents the module builds (nested [dict]s, lists, strings) as the
      type [value], a [dict] being an association list in insertion order;
    - exceptions as the error monad [result].

    Each decoder of the module is then transcribed under its own name. *)

From Stdlib Require Import String Ascii List ZArith Lia Bool Arith DecimalString Sorted.
Import ListNotations.

Set Warnings "-register-all".

Local Open Scope string_scope.
Local Open Scope list_scope.
Local Open Scope nat_scope.

(** ** Python strings *)

Definition str := list ascii.

(** [txt "abc"] is the Python literal ['abc']. *)
Definition txt (x : string) : str := list_ascii_of_string x.

Definition nl : ascii := ascii_of_nat 10.

Definition code (c : ascii) : nat := nat_of_ascii c.

Definition in_range (lo hi : nat) (c : ascii) : bool :=
  (lo <=? code c) && (code c <=? hi).

Definition chr_eqb (a b : ascii) : bool := Ascii.eqb a b.

(** [\d]: among the code points below 256 only the ASCII digits are decimal
    digits. *)
Definition is_digit (c : ascii) : bool := in_range 48 57 c.

(** [[A-Z]] *)
Definition is_upper (c : ascii) : bool := in_range 65 90 c.

(** [[A-Z0-9]] *)
Definition is_upper_or_digit (c : ascii) : bool := is_upper c || is_digit c.

(** [\s] and [str.isspace]: tab, line feed, vertical tab, form feed, carriage
    return, the four separators 28..31, space, NEL (133) and the no-break
    space (160). *)
Definition is_space (c : ascii) : bool :=
  in_range 9 13 c || in_range 28 32 c || (code c =? 133) || (code c =? 160).

(** [.] under [re.DOTALL] *)
Definition any_char (c : ascii) : bool := true.

(** A one-character literal under a quantifier, and [[^x]]. *)
Definition is_chr (x c : ascii) : bool := chr_eqb c x.
Definition is_not (x c : ascii) : bool := negb (chr_eqb c x).

(** [[^\s:]] *)
Definition not_space_or_colon (c : ascii) : bool :=
  negb (is_space c || chr_eqb c ":").

(** [[\d,]] *)
Definition digit_or_comma (c : ascii) : bool := is_digit c || chr_eqb c ",".

(** [[+-]] *)
Definition plus_or_minus (c : ascii) : bool := chr_eqb c "+" || chr_eqb c "-".

(** [strip_prefix p s] is [Some r] when [s = p ++ r]. *)
Fixpoint strip_prefix (p s : str) : option str :=
  match p with
  | [] => Some s
  | x :: p' =>
      match s with
      | y :: s' => if chr_eqb x y then strip_prefix p' s' else None
      | [] => None
      end
  end.

(** [s.startswith(p)] *)
Definition startswith (s p : str) : bool :=
  match strip_prefix p s with Some _ => true | None => false end.

(** [p in s] *)
Fixpoint contains (p s : str) : bool :=
  startswith s p ||
  match s with
  | [] => false
  | _ :: s' => contains p s'
  end.

Fixpoint lstrip (s : str) : str :=
  match s with
  | c :: s' => if is_space c then lstrip s' else s
  | [] => []
  end.

Definition rstrip (s : str) : str := rev (lstrip (rev s)).

(** [s.strip()] *)
Definition strip (s : str) : str := rstrip (lstrip s).

(** [s.split('\n')]: never empty, [''.split('\n')] is [['']]. *)
Fixpoint split_lines (s : str) : list str :=
  match s with
  | [] => [[]]
  | c :: s' =>
      if chr_eqb c nl then [] :: split_lines s'
      else match split_lines s' with
           | l :: ls => (c :: l) :: ls
           | [] => [[c]]
           end
  end.

(** [s.split('\n', 1)]: at most one cut, at the first line feed. *)
Fixpoint split_first_line (s : str) : list str :=
  match s with
  | [] => [[]]
  | c :: s' =>
      if chr_eqb c nl then [[]; s']
      else match split_first_line s' with
           | l :: ls => (c :: l) :: ls
           | [] => [[c]]
           end
  end.

(** ['\n'.join(ls)] *)
Fixpoint join_lines (ls : list str) : str :=
  match ls with
  | [] => []
  | [l] => l
  | l :: ls' => l ++ nl :: join_lines ls'
  end.

(** [s.replace(old, new)] for a non-empty [old]: occurrences are replaced
    from left to right and do not overlap.  [skip] counts the characters of
    the occurrence just replaced that are still to be passed over. *)
Fixpoint replace_from (old new : str) (skip : nat) (s : str) : str :=
  match s with
  | [] => []
  | c :: s' =>
      match skip with
      | S n => replace_from old new n s'
      | O =>
          if startswith s old
          then new ++ replace_from old new (length old - 1) s'
          else c :: replace_from old new 0 s'
      end
  end.

Definition replace (s old new : str) : str := replace_from old new 0 s.

(** ** Exceptions *)

Inductive exn := ValueError | TypeError | AttributeError | IndexError.

Inductive result (A : Type) :=
| Ok (a : A)
| Raise (e : exn).
Arguments Ok {A} a.
Arguments Raise {A} e.

Definition bind {A B} (m : result A) (f : A -> result B) : result B :=
  match m with
  | Ok a => f a
  | Raise e => Raise e
  end.

Notation "x <- m ;; f" := (bind m (fun x => f))
  (at level 61, m at next level, right associativity).

(** [int(s)] in base 10: surrounding white space is dropped, one sign is
    allowed, and single underscores may separate digits. *)
Definition digit_val (c : ascii) : Z := Z.of_nat (code c - 48).

Fixpoint int_digits (acc : Z) (after_digit : bool) (s : str) : option Z :=
  match s with
  | [] => if after_digit then Some acc else None
  | c :: s' =>
      if is_digit c then int_digits (10 * acc + digit_val c) true s'
      else if chr_eqb c "_" && after_digit then
        match s' with
        | d :: _ => if is_digit d then int_digits acc false s' else None
        | [] => None
        end
      else None
  end.

Definition py_int (s : str) : result Z :=
  let body := strip s in
  let parsed :=
    match body with
    | c :: r =>
        if chr_eqb c "-" then option_map Z.opp (int_digits 0 false r)
        else if chr_eqb c "+" then int_digits 0 false r
        else int_digits 0 false body
    | [] => None
    end in
  match parsed with
  | Some z => Ok z
  | None => Raise ValueError
  end.

(** [str(n)], also what an f-string does with an [int]. *)
Definition py_str_of_int (z : Z) : str :=
  txt (NilZero.string_of_int (Z.to_int z)).

(** ** Documents *)

Inductive value :=
| VNone
| VStr (v : str)
| VDict (d : list (string * value))
| VList (l : list value).

Definition dict := list (string * value).

(** [d[k]] as a lookup *)
Fixpoint dict_get (k : string) (d : dict) : option value :=
  match d with
  | [] => None
  | (k', v) :: d' => if String.eqb k k' then Some v else dict_get k d'
  end.

(** [d[k] = v]: an existing key keeps its place. *)
Fixpoint dict_set (k : string) (v : value) (d : dict) : dict :=
  match d with
  | [] => [(k, v)]
  | (k', v') :: d' =>
      if String.eqb k k' then (k, v) :: d' else (k', v') :: dict_set k v d'
  end.

(** [d.update(e)] *)
Definition dict_update (d e : dict) : dict :=
  fold_left (fun acc kv => dict_set (fst kv) (snd kv) acc) e d.

(** [k in d] *)
Definition dict_mem (k : string) (d : dict) : bool :=
  match dict_get k d with Some _ => true | None => false end.

(** A path of keys through nested dictionaries. *)
Fixpoint at_path (p : list string) (v : value) : option value :=
  match p with
  | [] => Some v
  | k :: p' =>
      match v with
      | VDict d =>
          match dict_get k d with
          | Some v' => at_path p' v'
          | None => None
          end
      | _ => None
      end
  end.

(** ** Regular expressions

    The patterns of the module use literals, one-character classes,
    quantifiers applied to one-character classes (greedy or lazy), sequence,
    alternation, capturing groups, a positive lookahead and [$].  [rmatch] is
    the backtracking matcher of Python's [re] on that fragment, written in
    continuation-passing style: the continuation is the rest of the pattern,
    and a [None] from it makes the matcher try its next choice. *)

Inductive regex :=
| Lit (l : str)
| Cls (p : ascii -> bool)
| Rep (greedy : bool) (lo : nat) (hi : option nat) (p : ascii -> bool)
| Cat (a b : regex)
| Alt (a b : regex)
| Grp (n : nat) (a : regex)
| Ahead (a : regex)
| Dollar.

Notation "a >> b" := (Cat a b) (at level 60, right associativity).

(** [p{n}], [p+], [p+?], [p*], [p?] *)
Definition exactly (n : nat) (p : ascii -> bool) : regex := Rep true n (Some n) p.
Definition plus (p : ascii -> bool) : regex := Rep true 1 None p.
Definition lazy_plus (p : ascii -> bool) : regex := Rep false 1 None p.
Definition star (p : ascii -> bool) : regex := Rep true 0 None p.
Definition opt (p : ascii -> bool) : regex := Rep true 0 (Some 1) p.

(** Captured groups, by group number. *)
Definition caps := list (nat * str).

Fixpoint cap_get (n : nat) (c : caps) : option str :=
  match c with
  | [] => None
  | (m, v) :: c' => if n =? m then Some v else cap_get n c'
  end.

Definition cap_set (n : nat) (v : str) (c : caps) : caps := (n, v) :: c.

Definition or_else {R} (a : option R) (b : unit -> option R) : option R :=
  match a with
  | Some x => Some x
  | None => b tt
  end.

Definition may_repeat (hi : option nat) : bool :=
  match hi with
  | Some O => false
  | _ => true
  end.

(** A quantified class: a greedy quantifier first tries one more character,
    a lazy one first tries to stop. *)
Fixpoint rep {R} (greedy : bool) (p : ascii -> bool) (lo : nat) (hi : option nat)
    (s : str) (k : str -> option R) {struct s} : option R :=
  let stop := fun _ : unit =>
    match lo with
    | O => k s
    | S _ => None
    end in
  let more := fun _ : unit =>
    match s with
    | x :: s' =>
        if may_repeat hi && p x
        then rep greedy p (pred lo) (option_map pred hi) s' k
        else None
    | [] => None
    end in
  if greedy then or_else (more tt) stop else or_else (stop tt) more.

(** [$] without [re.MULTILINE]: at the end, or just before a final line feed. *)
Definition at_end (s : str) : bool :=
  match s with
  | [] => true
  | [c] => chr_eqb c nl
  | _ => false
  end.

Fixpoint rmatch {R : Type} (r : regex) (s : str) (c : caps)
    (k : str -> caps -> option R) {struct r} : option R :=
  match r with
  | Lit l =>
      match strip_prefix l s with
      | Some s' => k s' c
      | None => None
      end
  | Cls p =>
      match s with
      | x :: s' => if p x then k s' c else None
      | [] => None
      end
  | Rep g lo hi p => rep g p lo hi s (fun s' => k s' c)
  | Cat a b => rmatch a s c (fun s' c' => rmatch b s' c' k)
  | Alt a b => or_else (rmatch a s c k) (fun _ => rmatch b s c k)
  | Grp n a =>
      rmatch a s c
        (fun s' c' => k s' (cap_set n (firstn (length s - length s') s) c'))
  | Ahead a =>
      match rmatch a s c (fun _ c' => Some c') with
      | Some c' => k s c'
      | None => None
      end
  | Dollar => if at_end s then k s c else None
  end.

(** A match object: where the match starts and ends in the searched string,
    and its groups. *)
Record Match := mkMatch { m_start : nat; m_end : nat; m_groups : caps }.

(** [m.group(n)]: [None] for a group that took no part in the match. *)
Definition group (m : Match) (n : nat) : option str := cap_get n (m_groups m).

(** The pattern tried at the head of [s], which is at offset [pos]. *)
Definition match_here (r : regex) (pos : nat) (s : str) : option Match :=
  rmatch r s []
    (fun s' c => Some (mkMatch pos (pos + (length s - length s')) c)).

(** [re.match(r, s)] *)
Definition re_match (r : regex) (s : str) : option Match := match_here r 0 s.

(** [re.search(r, s)]: the match at the leftmost offset that has one. *)
Fixpoint search_from (r : regex) (pos : nat) (s : str) : option Match :=
  match match_here r pos s with
  | Some m => Some m
  | None =>
      match s with
      | [] => None
      | _ :: s' => search_from r (S pos) s'
      end
  end.

Definition re_search (r : regex) (s : str) : option Match := search_from r 0 s.

(** [re.finditer(r, s)] for a pattern that matches no empty string: the
    search resumes where the previous match ended.  [skip] counts the offsets
    still covered by the previous match. *)
Fixpoint finditer_from (r : regex) (skip pos : nat) (s : str) : list Match :=
  match skip with
  | S n =>
      match s with
      | [] => []
      | _ :: s' => finditer_from r n (S pos) s'
      end
  | O =>
      match match_here r pos s with
      | Some m =>
          m :: match s with
               | [] => []
               | _ :: s' => finditer_from r (m_end m - pos - 1) (S pos) s'
               end
      | None =>
          match s with
          | [] => []
          | _ :: s' => finditer_from r 0 (S pos) s'
          end
      end
  end.

Definition re_finditer (r : regex) (s : str) : list Match := finditer_from r 0 0 s.

(** ** The decoders of [mt103_json.py] *)

(** A group stored as it is: a group that took no part is Python's [None]. *)
Definition group_value (m : Match) (n : nat) : value :=
  match group m n with
  | Some v => VStr v
  | None => VNone
  end.

(** A group used as a string: on [None] the method call or the slice
    raises. *)
Definition group_str (e : exn) (m : Match) (n : nat) : result str :=
  match group m n with
  | Some v => Ok v
  | None => Raise e
  end.

(** [s[lo:hi]] for [lo <= hi] within or beyond the string *)
Definition slice (lo hi : nat) (s : str) : str := firstn (hi - lo) (skipn lo s).

(** [F(?P<app_id>\d{2})(?P<lt_address>[A-Z0-9]{12})(?P<session>\d{4})(?P<sequence>\d{6})] *)
Definition basic_header_pattern : regex :=
  Lit (txt "F") >> Grp 1 (exactly 2 is_digit) >> Grp 2 (exactly 12 is_upper_or_digit)
  >> Grp 3 (exactly 4 is_digit) >> Grp 4 (exactly 6 is_digit).

Definition parse_basic_header (header : str) : dict :=
  match re_match basic_header_pattern header with
  | Some m =>
      [ ("Application_Id", VStr (txt "F"));
        ("Service_Id", group_value m 1);
        ("LT_Address", group_value m 2);
        ("Session", group_value m 3);
        ("Sequence_No", group_value m 4) ]
  | None => []
  end.

(** [I(?P<mt>\d{3})(?P<recipient>[A-Z0-9]{12})(?P<priority>[A-Z])] *)
Definition input_header_pattern : regex :=
  Lit (txt "I") >> Grp 1 (exactly 3 is_digit) >> Grp 2 (exactly 12 is_upper_or_digit)
  >> Grp 3 (Cls is_upper).

(** [O(?P<mt>\d{3})(?P<input_time>\d{10})(?P<mir>[A-Z0-9]{28})(?P<priority>[A-Z])] *)
Definition output_header_pattern : regex :=
  Lit (txt "O") >> Grp 1 (exactly 3 is_digit) >> Grp 2 (exactly 10 is_digit)
  >> Grp 3 (exactly 28 is_upper_or_digit) >> Grp 4 (Cls is_upper).

Definition parse_application_header (header : str) : dict :=
  if startswith header (txt "I") then
    match re_match input_header_pattern header with
    | Some m =>
        [ ("IO_ID", VStr (txt "I"));
          ("MT", group_value m 1);
          ("Recipient", group_value m 2);
          ("Message_Priority", group_value m 3) ]
    | None => []
    end
  else if startswith header (txt "O") then
    match re_match output_header_pattern header with
    | Some m =>
        [ ("IO_ID", VStr (txt "O"));
          ("MT", group_value m 1);
          ("Input_Time", group_value m 2);
          ("MIR", group_value m 3);
          ("Message_Priority", group_value m 4) ]
    | None => []
    end
  else [].

(** [{108:([^}]+)}] and its three siblings *)
Definition sub_tag_pattern (tag : string) : regex :=
  Lit (txt ("{" ++ tag ++ ":")) >> Grp 1 (plus (is_not "}")) >> Lit (txt "}").

Definition user_sub_tag (tag key : string) (header : str) (result : dict) : dict :=
  match re_search (sub_tag_pattern tag) header with
  | Some m => dict_set key (group_value m 1) result
  | None => result
  end.

Definition parse_user_header (header : str) : dict :=
  let result := [] in
  let result := user_sub_tag "108" "MUR" header result in
  let result := user_sub_tag "113" "Bank_Priority_Code" header result in
  let result := user_sub_tag "111" "Service_Type_Identifier" header result in
  let result := user_sub_tag "121" "UniqueEndToEndTransactionReference_121" header result in
  result.

(** [:13C:/(?P<code>[^/]+)/(?P<time>\d{4})(?P<sign>[+-])(?P<offset>\d{4})] *)
Definition field_13c_pattern : regex :=
  Lit (txt ":13C:/") >> Grp 1 (plus (is_not "/")) >> Lit (txt "/")
  >> Grp 2 (exactly 4 is_digit) >> Grp 3 (Cls plus_or_minus) >> Grp 4 (exactly 4 is_digit).

(** [f"{t[:2]}:{t[2:]}:00"] *)
Definition clock (t : str) : str := firstn 2 t ++ txt ":" ++ skipn 2 t ++ txt ":00".

Definition time_indication (m : Match) : result value :=
  time_str <- group_str TypeError m 2 ;;
  offset_str <- group_str TypeError m 4 ;;
  Ok (VDict [ ("F13C_Code", group_value m 1);
              ("F13C_Time", VStr (clock time_str));
              ("F13C_Sign", group_value m 3);
              ("F13C_Offset", VStr (clock offset_str)) ]).

(** The loop bodies of the module append to a list; the first body that
    raises ends the loop. *)
Fixpoint for_each {A B} (f : A -> result B) (l : list A) : result (list B) :=
  match l with
  | [] => Ok []
  | x :: l' => y <- f x ;; ys <- for_each f l' ;; Ok (y :: ys)
  end.

Definition parse_field_13c (text : str) : result (list value) :=
  for_each time_indication (re_finditer field_13c_pattern text).

Definition parse_field_50f (value : str) : dict :=
  let lines := split_lines (strip value) in
  let result := [] in
  let result :=
    match lines with
    | l0 :: _ => dict_set "F50F_PartyIdentifier" (VStr l0) result
    | [] => result
    end in
  let result :=
    if 1 <? length lines
    then dict_set "F50F_NameAddr" (VStr (join_lines (skipn 1 lines))) result
    else result in
  result.

Definition parse_amount (amount_str : str) : str :=
  replace amount_str (txt ",") (txt ".").

Definition parse_date (date_str : str) : result str :=
  if length date_str =? 6 then
    year <- py_int (slice 0 2 date_str) ;;
    let year := if (year <=? 50)%Z then (2000 + year)%Z else (1900 + year)%Z in
    let month := slice 2 4 date_str in
    let day := slice 4 6 date_str in
    Ok (py_str_of_int year ++ txt "-" ++ month ++ txt "-" ++ day)
  else Ok date_str.

(** *** Block 4

    [parse_text_block] fills [result["A"]] field by field; each stanza of the
    function is transcribed as a step from the dictionary [A] before it to
    the dictionary after it. *)

(** [(?=:\d{2}[A-Z]?:|$)] *)
Definition next_tag_or_end : regex :=
  Ahead (Alt (Lit (txt ":") >> exactly 2 is_digit >> opt is_upper >> Lit (txt ":")) Dollar).

(** [<tag>(.+?)(?=:\d{2}[A-Z]?:|$)] under [re.DOTALL], [tag] being the
    pattern of the tag's marker *)
Definition span_pattern (tag : regex) : regex :=
  tag >> Grp 1 (lazy_plus any_char) >> next_tag_or_end.

(** [<tag>([^:]+)] *)
Definition upto_colon_pattern (tag : string) : regex :=
  Lit (txt tag) >> Grp 1 (plus (is_not ":")).

(** [<tag>([^\s:]+)] *)
Definition token_pattern (tag : string) : regex :=
  Lit (txt tag) >> Grp 1 (plus not_space_or_colon).

(** [result["A"][key] = {sub: match.group(1).strip()}] *)
Definition set_stripped (key sub : string) (m : Match) (A : dict) : result dict :=
  g <- group_str AttributeError m 1 ;;
  Ok (dict_set key (VDict [(sub, VStr (strip g))]) A).

Definition field_20 (text : str) (A : dict) : result dict :=
  match re_search (token_pattern ":20:") text with
  | Some m => set_stripped "F20" "F20_TRN" m A
  | None => Ok A
  end.

Definition field_13C (text : str) (A : dict) : result dict :=
  time_indications <- parse_field_13c text ;;
  match time_indications with
  | [] => Ok A
  | [one] => Ok (dict_set "A1" (VDict [("F13C", one)]) A)
  | _ => Ok (dict_set "A1" (VDict [("F13C", VList time_indications)]) A)
  end.

Definition field_23B (text : str) (A : dict) : result dict :=
  match re_search (token_pattern ":23B:") text with
  | Some m => set_stripped "F23B" "F23B_BankOpCode" m A
  | None => Ok A
  end.

Definition field_23E (text : str) (A : dict) : result dict :=
  match re_search (upto_colon_pattern ":23E:") text with
  | Some m => set_stripped "F23E" "F23E_InstructionCode" m A
  | None => Ok A
  end.

Definition field_26T (text : str) (A : dict) : result dict :=
  match re_search (upto_colon_pattern ":26T:") text with
  | Some m => set_stripped "F26T" "F26T_TransType" m A
  | None => Ok A
  end.

(** [:32A:(\d{6})([A-Z]{3})([\d,]+)] *)
Definition field_32A_pattern : regex :=
  Lit (txt ":32A:") >> Grp 1 (exactly 6 is_digit) >> Grp 2 (exactly 3 is_upper)
  >> Grp 3 (plus digit_or_comma).

Definition field_32A (text : str) (A : dict) : result dict :=
  match re_search field_32A_pattern text with
  | Some m =>
      g1 <- group_str TypeError m 1 ;;
      date <- parse_date g1 ;;
      g3 <- group_str AttributeError m 3 ;;
      Ok (dict_set "F32A"
            (VDict [ ("F32A_Date", VStr date);
                     ("F32A_Curr", group_value m 2);
                     ("F32A_Amount", VStr (parse_amount g3)) ]) A)
  | None => Ok A
  end.

(** [:33B:([A-Z]{3})([\d,]+)] *)
Definition currency_amount_pattern (tag : string) : regex :=
  Lit (txt tag) >> Grp 1 (exactly 3 is_upper) >> Grp 2 (plus digit_or_comma).

Definition field_33B (text : str) (A : dict) : result dict :=
  match re_search (currency_amount_pattern ":33B:") text with
  | Some m =>
      g2 <- group_str AttributeError m 2 ;;
      Ok (dict_set "F33B"
            (VDict [ ("F33B_Curr", group_value m 1);
                     ("F33B_Amount", VStr (parse_amount g2)) ]) A)
  | None => Ok A
  end.

Definition field_36 (text : str) (A : dict) : result dict :=
  match re_search (upto_colon_pattern ":36:") text with
  | Some m => set_stripped "F36" "F36_ExchangeRate" m A
  | None => Ok A
  end.

Definition field_50F (text : str) (A : dict) : result dict :=
  match re_search (span_pattern (Lit (txt ":50F:"))) text with
  | Some m =>
      g <- group_str AttributeError m 1 ;;
      Ok (dict_set "F50F" (VDict (parse_field_50f g)) A)
  | None => Ok A
  end.

Definition field_50K (text : str) (A : dict) : result dict :=
  if negb (contains (txt ":50F:") text) then
    match re_search (span_pattern (Lit (txt ":50K:"))) text with
    | Some m => set_stripped "F50K" "F50K_OrderingCustomer" m A
    | None => Ok A
    end
  else Ok A.

Definition field_51A (text : str) (A : dict) : result dict :=
  match re_search (upto_colon_pattern ":51A:") text with
  | Some m => set_stripped "F51A" "F51A_SendingInstitution" m A
  | None => Ok A
  end.

(** The account line split shared by the stanzas of 52D, 54A and 59:
    [lines = match.group(1).strip().split('\n', 1)], then the test on
    [lines[0]].  [whole] is what the final [else] branch stores. *)
Definition account_split (acc rest : string) (whole : str -> list str -> result str)
    (g : str) : result dict :=
  let lines := split_first_line (strip g) in
  match lines with
  | [] => Raise IndexError
  | l0 :: more =>
      if startswith l0 (txt "/") then
        let field_data := dict_set acc (VStr l0) [] in
        match more with
        | l1 :: _ => Ok (dict_set rest (VStr l1) field_data)
        | [] => Ok field_data
        end
      else
        w <- whole g lines ;;
        Ok (dict_set rest (VStr w) [])
  end.

Definition whole_stripped (g : str) (lines : list str) : result str := Ok (strip g).

Definition first_line (g : str) (lines : list str) : result str :=
  match lines with
  | l0 :: _ => Ok l0
  | [] => Raise IndexError
  end.

Definition field_52D (text : str) (A : dict) : result dict :=
  match re_search (span_pattern (Lit (txt ":52D:"))) text with
  | Some m =>
      g <- group_str AttributeError m 1 ;;
      field_data <- account_split "F52D_AccountId" "F52D_NameAddr" whole_stripped g ;;
      Ok (dict_set "F52D" (VDict field_data) A)
  | None => Ok A
  end.

Definition field_52A (text : str) (A : dict) : result dict :=
  match re_search (upto_colon_pattern ":52A:") text with
  | Some m => set_stripped "F52A" "F52A_BIC" m A
  | None => Ok A
  end.

Definition field_53B (text : str) (A : dict) : result dict :=
  match re_search (upto_colon_pattern ":53B:") text with
  | Some m => set_stripped "F53B" "F53B_Account" m A
  | None => Ok A
  end.

Definition field_54A (text : str) (A : dict) : result dict :=
  match re_search (span_pattern (Lit (txt ":54A:"))) text with
  | Some m =>
      g <- group_str AttributeError m 1 ;;
      field_data <- account_split "F54A_AccountId" "F54A_BIC" first_line g ;;
      Ok (dict_set "F54A" (VDict field_data) A)
  | None => Ok A
  end.

(** [for suffix in ['A', 'C', 'D']: ... if match: ...; break] *)
Fixpoint field_56 (suffixes : list string) (text : str) (A : dict) : result dict :=
  match suffixes with
  | [] => Ok A
  | suffix :: later =>
      match re_search (span_pattern (Lit (txt (":56" ++ suffix ++ ":")))) text with
      | Some m =>
          set_stripped ("F56" ++ suffix) ("F56" ++ suffix ++ "_Intermediary") m A
      | None => field_56 later text A
      end
  end.

(** [for suffix in ['A', 'B', 'C', 'D']: ... if match: ...; break] *)
Fixpoint field_57 (suffixes : list string) (text : str) (A : dict) : result dict :=
  match suffixes with
  | [] => Ok A
  | suffix :: later =>
      match re_search (span_pattern (Lit (txt (":57" ++ suffix ++ ":")))) text with
      | Some m =>
          set_stripped ("F57" ++ suffix) ("F57" ++ suffix ++ "_AccountWithInstitution") m A
      | None => field_57 later text A
      end
  end.

(** [:59A?:(.+?)(?=:\d{2}[A-Z]?:|$)] *)
Definition field_59 (text : str) (A : dict) : result dict :=
  match re_search (span_pattern (Lit (txt ":59") >> opt (is_chr "A") >> Lit (txt ":"))) text with
  | Some m =>
      g <- group_str AttributeError m 1 ;;
      field_data <- account_split "F59_ACC_ID_Party" "F59_Name_addr_Party" whole_stripped g ;;
      Ok (dict_set "F59" (VDict field_data) A)
  | None => Ok A
  end.

Definition field_70 (text : str) (A : dict) : result dict :=
  match re_search (span_pattern (Lit (txt ":70:"))) text with
  | Some m => set_stripped "F70" "F70_PaymentDetails" m A
  | None => Ok A
  end.

Definition field_71A (text : str) (A : dict) : result dict :=
  match re_search (upto_colon_pattern ":71A:") text with
  | Some m => set_stripped "F71A" "F71A_ChargesCode" m A
  | None => Ok A
  end.

Definition charge (m : Match) : result value :=
  g2 <- group_str AttributeError m 2 ;;
  Ok (VDict [ ("F71F_Curr", group_value m 1);
              ("F71F_Amount", VStr (parse_amount g2)) ]).

Definition field_71F (text : str) (A : dict) : result dict :=
  charges <- for_each charge (re_finditer (currency_amount_pattern ":71F:") text) ;;
  match charges with
  | [] => Ok A
  | [one] => Ok (dict_set "A3" (VDict [("F71F", one)]) A)
  | _ => Ok (dict_set "A3" (VDict [("F71F", VList charges)]) A)
  end.

Definition field_71G (text : str) (A : dict) : result dict :=
  match re_search (upto_colon_pattern ":71G:") text with
  | Some m => set_stripped "F71G" "F71G_ReceiverCharges" m A
  | None => Ok A
  end.

Definition field_72 (text : str) (A : dict) : result dict :=
  match re_search (span_pattern (Lit (txt ":72:"))) text with
  | Some m => set_stripped "F72" "F72_General" m A
  | None => Ok A
  end.

Definition field_77B (text : str) (A : dict) : result dict :=
  match re_search (span_pattern (Lit (txt ":77B:"))) text with
  | Some m => set_stripped "F77B" "F77B_Narrative" m A
  | None => Ok A
  end.

(** Straight-line code over [result["A"]]: each step runs on the dictionary
    the previous one left, and an exception ends the run. *)
Fixpoint run_steps (steps : list (dict -> result dict)) (A : dict) : result dict :=
  match steps with
  | [] => Ok A
  | f :: later => A' <- f A ;; run_steps later A'
  end.

(** The stanzas in the order of the source (52D comes before 52A there). *)
Definition stanzas (text : str) : list (dict -> result dict) :=
  [ field_20 text; field_13C text; field_23B text; field_23E text;
    field_26T text; field_32A text; field_33B text; field_36 text;
    field_50F text; field_50K text; field_51A text; field_52D text;
    field_52A text; field_53B text; field_54A text;
    field_56 ["A"; "C"; "D"] text; field_57 ["A"; "B"; "C"; "D"] text;
    field_59 text; field_70 text; field_71A text; field_71F text;
    field_71G text; field_72 text; field_77B text ].

Definition parse_text_block (text : str) : result dict :=
  A <- run_steps (stanzas text) [] ;;
  Ok [("A", VDict A)].

(** *** The whole message *)

(** [{n:([^}]+)}] *)
Definition block_pattern (n : string) : regex :=
  Lit (txt ("{" ++ n ++ ":")) >> Grp 1 (plus (is_not "}")) >> Lit (txt "}").

(** [{4:\s*(.+?)\s*-}] under [re.DOTALL] *)
Definition block4_pattern : regex :=
  Lit (txt "{4:") >> star is_space >> Grp 1 (lazy_plus any_char) >> star is_space
  >> Lit (txt "-}").

Definition block_1 (message : str) (doc : dict) : result dict :=
  match re_search (block_pattern "1") message with
  | Some m =>
      b <- group_str TypeError m 1 ;;
      Ok (dict_update doc (parse_basic_header b))
  | None => Ok doc
  end.

Definition block_2 (message : str) (doc : dict) : result dict :=
  match re_search (block_pattern "2") message with
  | Some m =>
      b <- group_str AttributeError m 1 ;;
      Ok (dict_update doc (parse_application_header b))
  | None => Ok doc
  end.

Definition block_3 (message : str) (doc : dict) : result dict :=
  match re_search (block_pattern "3") message with
  | Some m =>
      b <- group_str TypeError m 1 ;;
      Ok (dict_update doc (parse_user_header b))
  | None => Ok doc
  end.

Definition block_4 (message : str) (doc : dict) : result dict :=
  match re_search block4_pattern message with
  | Some m =>
      b <- group_str TypeError m 1 ;;
      text_data <- parse_text_block b ;;
      Ok (dict_update doc text_data)
  | None => Ok doc
  end.

Definition block_5 (message : str) (doc : dict) : result dict :=
  match re_search (block_pattern "5") message with
  | Some m => Ok (dict_set "Trailer" (group_value m 1) doc)
  | None => Ok doc
  end.

Definition mt103_to_json (mt103_message : str) : result dict :=
  let mt103_message := strip mt103_message in
  doc <- block_1 mt103_message [] ;;
  doc <- block_2 mt103_message doc ;;
  doc <- block_3 mt103_message doc ;;
  doc <- block_4 mt103_message doc ;;
  doc <- block_5 mt103_message doc ;;
  Ok [("MT103", VDict doc)].

(** ** The reading of the specification used for comparison

    Section 4.3 of the specification describes the segmentation of block 4
    in words; the definitions below follow those words, to be compared with
    what the searches of the module compute. *)

(** "two-digit-number plus optional uppercase letter, surrounded by
    field-delimiter characters" *)
Definition tag_delimiter_at (s : str) : bool :=
  match s with
  | c0 :: d1 :: d2 :: r =>
      chr_eqb c0 ":" && is_digit d1 && is_digit d2 &&
      match r with
      | x :: r' =>
          chr_eqb x ":" ||
          (is_upper x && match r' with y :: _ => chr_eqb y ":" | [] => false end)
      | [] => false
      end
  | _ => false
  end.

(** "everything from just after that delimiter up to (but excluding) the next
    such delimiter match or the end of the body" *)
Fixpoint spec_raw_value (s : str) : str :=
  match s with
  | [] => []
  | c :: s' => if tag_delimiter_at s then [] else c :: spec_raw_value s'
  end.

(** The text after the first occurrence of a tag marker. *)
Fixpoint after_first (tag s : str) : option str :=
  match strip_prefix tag s with
  | Some r => Some r
  | None =>
      match s with
      | [] => None
      | _ :: s' => after_first tag s'
      end
  end.

Definition spec_span (tag text : str) : option str :=
  option_map spec_raw_value (after_first tag text).

(** What the module takes as the raw span of a multi-line tag: group 1 of
    the search for the tag's span pattern. *)
Definition raw_span (tag : regex) (text : str) : option str :=
  match re_search (span_pattern tag) text with
  | Some m => group m 1
  | None => None
  end.

(** Where a span may stop: at a tag delimiter, at the end, or before a final
    line feed. *)
Definition boundary (s : str) : bool := tag_delimiter_at s || at_end s.

(** The keys each block decoder may write at the top of the document. *)
Definition basic_header_keys : list string :=
  ["Application_Id"; "Service_Id"; "LT_Address"; "Session"; "Sequence_No"].

Definition application_header_keys : list string :=
  ["IO_ID"; "MT"; "Recipient"; "Input_Time"; "MIR"; "Message_Priority"].

Definition user_header_keys : list string :=
  ["MUR"; "Bank_Priority_Code"; "Service_Type_Identifier";
   "UniqueEndToEndTransactionReference_121"].

(** The fixed-width layouts of blocks 1 and 2: a header conforms when it
    starts with the fields of the layout, each of its width and made of the
    characters of its class. *)
Fixpoint fixed_width (fields : list (nat * (ascii -> bool))) (s : str) : bool :=
  match fields with
  | [] => true
  | (n, p) :: later =>
      (n <=? length s) && forallb p (firstn n s) && fixed_width later (skipn n s)
  end.

Definition total_width (fields : list (nat * (ascii -> bool))) : nat :=
  fold_right (fun f acc => fst f + acc) 0 fields.

Definition basic_header_fields : list (nat * (ascii -> bool)) :=
  [ (1, is_chr "F"); (2, is_digit); (12, is_upper_or_digit); (4, is_digit); (6, is_digit) ].

Definition input_header_fields : list (nat * (ascii -> bool)) :=
  [ (1, is_chr "I"); (3, is_digit); (12, is_upper_or_digit); (1, is_upper) ].

Definition output_header_fields : list (nat * (ascii -> bool)) :=
  [ (1, is_chr "O"); (3, is_digit); (10, is_digit); (28, is_upper_or_digit); (1, is_upper) ].

Definition basic_header_layout (h : str) : bool := fixed_width basic_header_fields h.

Definition application_header_layout (h : str) : bool :=
  fixed_width input_header_fields h || fixed_width output_header_fields h.

(** What the block splitter hands to a decoder. *)
Definition block_content (n : string) (mt103_message : str) : option str :=
  match re_search (block_pattern n) (strip mt103_message) with
  | Some m => group m 1
  | None => None
  end.

Definition block4_content (mt103_message : str) : option str :=
  match re_search block4_pattern (strip mt103_message) with
  | Some m => group m 1
  | None => None
  end.

(** The grammar searched for each key of block 4 that comes from a single
    search. *)
Definition field_grammars : list (string * regex) :=
  [ ("F20", token_pattern ":20:"); ("F23B", token_pattern ":23B:");
    ("F23E", upto_colon_pattern ":23E:"); ("F26T", upto_colon_pattern ":26T:");
    ("F32A", field_32A_pattern); ("F33B", currency_amount_pattern ":33B:");
    ("F36", upto_colon_pattern ":36:");
    ("F50F", span_pattern (Lit (txt ":50F:"))); ("F50K", span_pattern (Lit (txt ":50K:")));
    ("F51A", upto_colon_pattern ":51A:"); ("F52D", span_pattern (Lit (txt ":52D:")));
    ("F52A", upto_colon_pattern ":52A:"); ("F53B", upto_colon_pattern ":53B:");
    ("F54A", span_pattern (Lit (txt ":54A:")));
    ("F59", span_pattern (Lit (txt ":59") >> opt (is_chr "A") >> Lit (txt ":")));
    ("F70", span_pattern (Lit (txt ":70:"))); ("F71A", upto_colon_pattern ":71A:");
    ("F71G", upto_colon_pattern ":71G:"); ("F72", span_pattern (Lit (txt ":72:")));
    ("F77B", span_pattern (Lit (txt ":77B:"))) ].

(** The reading of "a header of the wrong length yields no header fields":
    whenever the content of block 1 is not 25 characters long, the document
    has none of the basic header keys. *)
Definition wrong_length_drops_header : Prop :=
  forall (mt103_message h : str) (doc : dict),
    block_content "1" mt103_message = Some h ->
    length h <> 25 ->
    mt103_to_json mt103_message = Ok [("MT103", VDict doc)] ->
    forall k, In k basic_header_keys -> dict_get k doc = None.

(** A message whose block 1 has one character too many, one whose block 1
    has one too few, and one with a lower-case letter in its block 2. *)
Definition overlong_block1_message : str := txt "{1:F01TESTBANK0XXX0001000001X}".

Definition short_block1_message : str :=
  txt "{1:F01TESTBANK0XXX000100000}{2:I103TESTBANK1XXXN}{4:
:20:TEST-001
-}".

Definition bad_block2_message : str :=
  txt "{1:F01TESTBANK0XXX0001000001}{2:I103testBANK1XXXN}{4:
:20:TEST-001
:32A:24-01-01USD10000
-}".

(** The keys each stanza of block 4 may write in [result["A"]], in the order
    of [stanzas]. *)
Definition stanza_keys : list (list string) :=
  [ ["F20"]; ["A1"]; ["F23B"]; ["F23E"]; ["F26T"]; ["F32A"]; ["F33B"]; ["F36"];
    ["F50F"]; ["F50K"]; ["F51A"]; ["F52D"]; ["F52A"]; ["F53B"]; ["F54A"];
    ["F56A"; "F56C"; "F56D"]; ["F57A"; "F57B"; "F57C"; "F57D"];
    ["F59"]; ["F70"]; ["F71A"]; ["A3"]; ["F71G"]; ["F72"]; ["F77B"] ].

(** ** What a successful match says

    [matches r s c s' c'] reads: [r] can consume the prefix of [s] that
    leaves [s'], turning the groups [c] into [c'].  It is the declarative
    counterpart of [rmatch], without the order in which choices are tried. *)

Definition within (hi : option nat) (n : nat) : Prop :=
  match hi with
  | Some h => n <= h
  | None => True
  end.

Fixpoint matches (r : regex) (s : str) (c : caps) (s' : str) (c' : caps) : Prop :=
  match r with
  | Lit l => s = l ++ s' /\ c' = c
  | Cls p => exists x, s = x :: s' /\ p x = true /\ c' = c
  | Rep _ lo hi p =>
      exists w, s = w ++ s' /\ forallb p w = true /\ lo <= length w /\
                within hi (length w) /\ c' = c
  | Cat a b => exists s1 c1, matches a s c s1 c1 /\ matches b s1 c1 s' c'
  | Alt a b => matches a s c s' c' \/ matches b s c s' c'
  | Grp n a =>
      exists c1, matches a s c s' c1 /\
                 c' = cap_set n (firstn (length s - length s') s) c1
  | Ahead a => s' = s /\ exists s2, matches a s c s2 c'
  | Dollar => s' = s /\ c' = c /\ at_end s = true
  end.

(** The groups a pattern sets on every match. *)
Fixpoint binds (r : regex) (n : nat) : bool :=
  match r with
  | Cat a b => binds a n || binds b n
  | Alt a b => binds a n && binds b n
  | Grp m a => (n =? m) || binds a n
  | Ahead a => binds a n
  | _ => false
  end.

(** A step that either leaves the dictionary as it is or assigns one of
    [keys] in it; in both cases it returns. *)
Definition assigns (keys : list string) (f : dict -> result dict) : Prop :=
  forall A, f A = Ok A \/ exists k v, In k keys /\ f A = Ok (dict_set k v A).

(** ** Sample messages *)

(** The end-to-end scenario of the specification: blocks 1, 2 and 4 only. *)
Definition scenario_message : str :=
  txt "{1:F01TESTBANK0XXX0001000001}{2:I103TESTBANK1XXXN}{4:
:20:TEST-001
:23B:CRED
:32A:240101USD10000,00
:59:/123456
BEN NAME
:71A:SHA
-}".

Definition scenario_document : dict :=
  [ ("MT103", VDict
      [ ("Application_Id", VStr (txt "F"));
        ("Service_Id", VStr (txt "01"));
        ("LT_Address", VStr (txt "TESTBANK0XXX"));
        ("Session", VStr (txt "0001"));
        ("Sequence_No", VStr (txt "000001"));
        ("IO_ID", VStr (txt "I"));
        ("MT", VStr (txt "103"));
        ("Recipient", VStr (txt "TESTBANK1XXX"));
        ("Message_Priority", VStr (txt "N"));
        ("A", VDict
          [ ("F20", VDict [("F20_TRN", VStr (txt "TEST-001"))]);
            ("F23B", VDict [("F23B_BankOpCode", VStr (txt "CRED"))]);
            ("F32A", VDict [ ("F32A_Date", VStr (txt "2024-01-01"));
                             ("F32A_Curr", VStr (txt "USD"));
                             ("F32A_Amount", VStr (txt "10000.00")) ]);
            ("F59", VDict [ ("F59_ACC_ID_Party", VStr (txt "/123456"));
                            ("F59_Name_addr_Party", VStr (txt "BEN NAME")) ]);
            ("F71A", VDict [("F71A_ChargesCode", VStr (txt "SHA"))]) ]) ]) ].

(** One and two time indications, as in the tests of the module. *)
Definition one_13c : str := txt ":13C:/CLSTIME/0945+0100".
Definition two_13c : str := txt ":13C:/CLSTIME/0945+0100:13C:/RNCTIME/1030-0500".

Definition clstime : value :=
  VDict [ ("F13C_Code", VStr (txt "CLSTIME")); ("F13C_Time", VStr (txt "09:45:00"));
          ("F13C_Sign", VStr (txt "+")); ("F13C_Offset", VStr (txt "01:00:00")) ].

Definition rnctime : value :=
  VDict [ ("F13C_Code", VStr (txt "RNCTIME")); ("F13C_Time", VStr (txt "10:30:00"));
          ("F13C_Sign", VStr (txt "-")); ("F13C_Offset", VStr (txt "05:00:00")) ].

(** Matches listed in the order of their offsets in the text. *)
Definition in_encounter_order (ms : list Match) : Prop :=
  StronglySorted (fun a b => m_start a < m_start b) ms.

(** Bodies for the 50F/50K and the 56 precedence scenarios. *)
Definition marker_50F_without_value : str := txt ":50K:/987654
TEST CUSTOMER
:50F:".

Definition both_50F_and_50K : str := txt ":50F:/123456
1/Customer Name
:50K:/987654
TEST CUSTOMER".

Definition both_56A_and_56D : str := txt ":20:REF
:56D:SOME BANK
SOME CITY
:56A:BANKDEFF
:71A:SHA".

(** [:56A:] etc. as the module builds them in its loops *)
Definition suffixed (family suffix : string) : regex :=
  Lit (txt (":" ++ family ++ suffix ++ ":")).

(** A step that returns and leaves every key outside [keys] as it was. *)
Definition frames (keys : list string) (f : dict -> result dict) : Prop :=
  forall d, exists d', f d = Ok d' /\
                       forall k, ~ In k keys -> dict_get k d' = dict_get k d.

(** A message whose block 3 holds two sub-tags, and the sample message of
    [tests_json.py] ([TestMT103ToJSON.setUp]). *)
Definition nested_block3_message : str := txt "{3:{108:X}{121:Y}}".

Definition test_suite_message : str :=
  txt "{1:F01TESTBANK0XXX0001000001}{2:I103TESTBANK1XXXN}{3:{108:TEST-REF-001}{121:aaaaaaaa-bbbb-4ccc-8ddd-eeeeeeeeeeee}}{4:
:20:TEST-001
:23B:CRED
:32A:240101USD10000,00
:50K:/987654
TEST CUSTOMER
NEW YORK
:59:/123456
BENEFICIARY NAME
LONDON
:71A:SHA
-}".

(** ** Multi-line tags *)

(** The rest of the text from its first boundary on. *)
Fixpoint first_boundary (s : str) : str :=
  if boundary s then s
  else match s with
       | [] => []
       | _ :: s' => first_boundary s'
       end.

(** A tag marker pattern together with the function that cuts the marker
    off the head of a text: the pattern matches where the function answers,
    and leaves what the function leaves. *)
Definition marker (tag : regex) (cut : str -> option str) : Prop :=
  forall (R : Type) (s : str) (c : caps) (k : str -> caps -> option R),
    rmatch tag s c k =
    match cut s with
    | Some s' => k s' c
    | None => None
    end.

(** [:59A?:] cuts [:59A:] or [:59:]. *)
Definition cut_59 (s : str) : option str :=
  match strip_prefix (txt ":59A:") s with
  | Some r => Some r
  | None => strip_prefix (txt ":59:") s
  end.

Definition literal_tag (tag : string) : regex * (str -> option str) :=
  (Lit (txt tag), strip_prefix (txt tag)).

(** The tags whose stanza searches a span pattern. *)
Definition multi_line_tags : list (regex * (str -> option str)) :=
  [ literal_tag ":50F:"; literal_tag ":50K:"; literal_tag ":52D:"; literal_tag ":54A:";
    literal_tag ":56A:"; literal_tag ":56C:"; literal_tag ":56D:";
    literal_tag ":57A:"; literal_tag ":57B:"; literal_tag ":57C:"; literal_tag ":57D:";
    (Lit (txt ":59") >> opt (is_chr "A") >> Lit (txt ":"), cut_59);
    literal_tag ":70:"; literal_tag ":72:"; literal_tag ":77B:" ].

(** The span as the specification words it: it stops immediately before the
    next tag delimiter, so no tag delimiter starts inside it. *)
Definition stops_before_next_tag (tag text : str) : Prop :=
  forall sp, raw_span (Lit tag) text = Some sp ->
    exists pre post,
      text = pre ++ tag ++ sp ++ post /\
      forall a b, sp = a ++ b -> b <> [] -> tag_delimiter_at (b ++ post) = false.

(** A body whose tag 70 has no value, and one with an address over several
    lines. *)
Definition empty_70 : str := txt ":70::71A:SHA".

Definition address_59 : str := txt ":20:REF
:59:/123456
BEN NAME
12 HIGH STREET
:71A:SHA".

(** ** Shapes of decoded values *)

(** A decoded time indication: a code without slash, a time and an offset
    written hh:mm:00 from four digits each, and a sign. *)
Definition time_indication_shape (v : value) : Prop :=
  exists code hh mm sign oh om,
    v = VDict [ ("F13C_Code", VStr code);
                ("F13C_Time", VStr (hh ++ txt ":" ++ mm ++ txt ":00"));
                ("F13C_Sign", VStr [sign]);
                ("F13C_Offset", VStr (oh ++ txt ":" ++ om ++ txt ":00")) ] /\
    code <> [] /\ ~ In "/"%char code /\
    length hh = 2 /\ length mm = 2 /\ forallb is_digit (hh ++ mm) = true /\
    (sign = "+"%char \/ sign = "-"%char) /\
    length oh = 2 /\ length om = 2 /\ forallb is_digit (oh ++ om) = true.

(** The longest prefix of characters of a class, and what follows it. *)
Fixpoint take_while (p : ascii -> bool) (s : str) : str :=
  match s with
  | c :: s' => if p c then c :: take_while p s' else []
  | [] => []
  end.

Fixpoint drop_while (p : ascii -> bool) (s : str) : str :=
  match s with
  | c :: s' => if p c then drop_while p s' else s
  | [] => []
  end.

(** The tags decoded by one search for [<tag>(<class>+)] and stored
    stripped: key, inner key, marker and class. *)
Definition scalar_fields : list (string * string * string * (ascii -> bool)) :=
  [ ("F20", "F20_TRN", ":20:", not_space_or_colon);
    ("F23B", "F23B_BankOpCode", ":23B:", not_space_or_colon);
    ("F23E", "F23E_InstructionCode", ":23E:", is_not ":");
    ("F26T", "F26T_TransType", ":26T:", is_not ":");
    ("F36", "F36_ExchangeRate", ":36:", is_not ":");
    ("F51A", "F51A_SendingInstitution", ":51A:", is_not ":");
    ("F52A", "F52A_BIC", ":52A:", is_not ":");
    ("F53B", "F53B_Account", ":53B:", is_not ":");
    ("F71A", "F71A_ChargesCode", ":71A:", is_not ":");
    ("F71G", "F71G_ReceiverCharges", ":71G:", is_not ":") ].

(** [<tag>(<class>+)] *)
Definition scalar_pattern (tag : string) (p : ascii -> bool) : regex :=
  Lit (txt tag) >> Grp 1 (plus p).

(** A decoded amount is made of digits and dots. *)
Definition digit_or_dot (c : ascii) : bool := is_digit c || chr_eqb c ".".

(** Bodies for the scalar fields. *)
Definition charges_after_reference : str := txt ":20:R
:71A:SHA
:72:/INS/X".



(** The tags decoded as an account line and a name: key, the two inner keys
    and the marker pattern. *)
Definition account_fields : list (string * string * string * regex) :=
  [ ("F52D", "F52D_AccountId", "F52D_NameAddr", Lit (txt ":52D:"));
    ("F59", "F59_ACC_ID_Party", "F59_Name_addr_Party",
     Lit (txt ":59") >> opt (is_chr "A") >> Lit (txt ":")) ].

Definition beneficiary_body : str := txt ":20:R
:59:/123456
JOHN DOE
1 MAIN STREET
:71A:SHA".

Definition correspondent_body : str := txt ":54A:BANKDEFF
SECOND LINE
:71A:SHA".

(** A decoded currency and amount under the keys [kc] and [ka]: three
    capital letters, and a non-empty run of digits and dots. *)
Definition currency_amount_shape (kc ka : string) (v : value) : Prop :=
  exists cur amount,
    v = VDict [ (kc, VStr cur); (ka, VStr amount) ] /\
    length cur = 3 /\ forallb is_upper cur = true /\
    amount <> [] /\ forallb digit_or_dot amount = true.

(** A body with an instructed amount and two sender's charges. *)
Definition instructed_and_charged : str := txt ":20:R
:33B:EUR1000,50
:71F:USD10,
:71F:EUR5,25".

(** ** Files

    [convert_file] reads one file and writes one.  The files are a map from
    paths to contents: two paths name two files, opening for reading a path
    that the map does not have raises, and opening for writing succeeds and
    gives the path its new content.  [json.dump] is the standard library's:
    what it writes for a document is a parameter. *)

(** [s.endswith(suffix)] *)
Definition endswith (s suffix : str) : bool :=
  startswith (skipn (length s - length suffix) s) suffix.

Fixpoint same_path (a b : str) : bool :=
  match a, b with
  | [], [] => true
  | x :: a', y :: b' => chr_eqb x y && same_path a' b'
  | _, _ => false
  end.

Definition files := str -> option str.

Definition write_file (path content : str) (fs : files) : files :=
  fun p => if same_path p path then Some content else fs p.

Inductive io_exn := FileNotFoundError | Raised (e : exn).

Inductive outcome (A : Type) :=
| Returned (a : A)
| Failed (e : io_exn).
Arguments Returned {A} a.
Arguments Failed {A} e.

Section ConvertFile.

Variable dump : dict -> str.

Definition convert_file (fs : files) (input_path : str) (output_path : option str)
  : outcome (files * str) :=
  let output_path :=
    match output_path with
    | None =>
        if endswith input_path (txt ".txt")
        then firstn (length input_path - 4) input_path ++ txt ".json"
        else input_path ++ txt ".json"
    | Some given => given
    end in
  match fs input_path with
  | None => Failed FileNotFoundError
  | Some mt103_content =>
      match mt103_to_json mt103_content with
      | Raise e => Failed (Raised e)
      | Ok json_data =>
          Returned (write_file output_path (dump json_data) fs, output_path)
      end
  end.

End ConvertFile.

(** * Properties *)

(** ** Characters, strings and dictionaries *)

Lemma chr_eqb_eq (a b : ascii) : chr_eqb a b = true <-> a = b.
Proof. apply Ascii.eqb_eq. Qed.

Lemma chr_eqb_refl (a : ascii) : chr_eqb a a = true.
Proof. apply Ascii.eqb_refl. Qed.

Lemma strip_prefix_Some (p s r : str) : strip_prefix p s = Some r <-> s = p ++ r.
Proof.
  revert s; induction p as [|x p IH]; intros s; simpl.
  - split; [intros [= ->] | intros ->]; reflexivity.
  - destruct s as [|y s]; [split; discriminate|].
    destruct (chr_eqb x y) eqn:E.
    + apply chr_eqb_eq in E; subst y. rewrite IH.
      split; [intros -> | intros [= ->]]; reflexivity.
    + split; [discriminate|]. intros [= <- _]. now rewrite chr_eqb_refl in E.
Qed.

Lemma firstn_consumed (w r : str) : firstn (length (w ++ r) - length r) (w ++ r) = w.
Proof.
  rewrite length_app, Nat.add_sub. rewrite firstn_app, Nat.sub_diag, firstn_all.
  simpl; apply app_nil_r.
Qed.

Lemma dict_get_set_same (k : string) (v : value) (d : dict) :
  dict_get k (dict_set k v d) = Some v.
Proof.
  induction d as [|[k' v'] d IH]; simpl.
  - now rewrite String.eqb_refl.
  - destruct (String.eqb k k') eqn:E; simpl; rewrite ?String.eqb_refl, ?E; auto.
Qed.

Lemma dict_get_set_other (k k' : string) (v : value) (d : dict) :
  k <> k' -> dict_get k (dict_set k' v d) = dict_get k d.
Proof.
  intros Hne. induction d as [|[k0 v0] d IH]; simpl.
  - destruct (String.eqb k k') eqn:E; [apply String.eqb_eq in E; contradiction | reflexivity].
  - destruct (String.eqb k' k0) eqn:E; simpl.
    + apply String.eqb_eq in E; subst k0.
      destruct (String.eqb k k') eqn:E'; [apply String.eqb_eq in E'; contradiction | reflexivity].
    + now rewrite IH.
Qed.

Lemma dict_get_update_other (k : string) (d e : dict) :
  ~ In k (map fst e) -> dict_get k (dict_update d e) = dict_get k d.
Proof.
  unfold dict_update. revert d; induction e as [|[k' v'] e IH]; intros d Hn; simpl.
  - reflexivity.
  - rewrite IH by (intros H; apply Hn; now right).
    apply dict_get_set_other. intros ->. apply Hn; now left.
Qed.

(** ** The matcher *)

Lemma or_else_Some {R} (a : option R) (b : unit -> option R) (x : R) :
  or_else a b = Some x -> a = Some x \/ (a = None /\ b tt = Some x).
Proof. destruct a; simpl; auto. Qed.

(** A quantifier with equal bounds takes exactly that many characters. *)
Lemma rep_exactly {R} (g : bool) (p : ascii -> bool) (n : nat) (s : str)
    (k : str -> option R) :
  rep g p n (Some n) s k =
  if (n <=? length s) && forallb p (firstn n s) then k (skipn n s) else None.
Proof.
  revert s; induction n as [|n IH]; intros s.
  - destruct s, g; simpl; try reflexivity; now destruct (k _).
  - destruct s as [|x s].
    + now destruct g.
    + assert (E : rep g p (S n) (Some (S n)) (x :: s) k =
                  if p x then rep g p n (Some n) s k else None).
      { destruct g; simpl; destruct (p x); simpl; try reflexivity.
        now destruct (rep true p n (Some n) s k). }
      rewrite E, IH. simpl. destruct (p x); simpl; [reflexivity|].
      now rewrite andb_false_r.
Qed.

Lemma rep_sound {R} (g : bool) (p : ascii -> bool) (s : str) :
  forall (lo : nat) (hi : option nat) (k : str -> option R) (x : R),
    rep g p lo hi s k = Some x ->
    exists w s', s = w ++ s' /\ forallb p w = true /\ lo <= length w /\
                 within hi (length w) /\ k s' = Some x.
Proof.
  induction s as [|a s IH]; intros lo hi k x H.
  - assert (E : lo = 0 /\ k [] = Some x).
    { destruct g, lo; simpl in H; try discriminate; auto.
      destruct (k []); [auto | discriminate]. }
    destruct E as [-> E]. exists [], []. repeat split; auto.
    destruct hi; simpl; lia.
  - assert (E : (lo = 0 /\ k (a :: s) = Some x) \/
                (may_repeat hi = true /\ p a = true /\
                 rep g p (pred lo) (option_map pred hi) s k = Some x)).
    { destruct g; simpl in H; apply or_else_Some in H.
      - destruct H as [H|[_ H]].
        + right. destruct (may_repeat hi), (p a); simpl in H; try discriminate; auto.
        + left. destruct lo; [auto | discriminate].
      - destruct H as [H|[_ H]].
        + left. destruct lo; [auto | discriminate].
        + right. destruct (may_repeat hi), (p a); simpl in H; try discriminate; auto. }
    destruct E as [[-> E]|(Hr & Hp & E)].
    + exists [], (a :: s). repeat split; auto. destruct hi; simpl; lia.
    + apply IH in E. destruct E as (w & s' & -> & Hw & Hlo & Hhi & Hk).
      exists (a :: w), s'. simpl. rewrite Hp, Hw. repeat split; auto; [lia|].
      destruct hi as [[|h]|]; simpl in *; try discriminate; auto; lia.
Qed.

Lemma rmatch_sound (r : regex) :
  forall (R : Type) (s : str) (c : caps) (k : str -> caps -> option R) (x : R),
    rmatch r s c k = Some x ->
    exists s' c', matches r s c s' c' /\ k s' c' = Some x.
Proof.
  induction r as [l|p|g lo hi p|a IHa b IHb|a IHa b IHb|n a IHa|a IHa|];
    intros R s c k x H; simpl in H.
  - destruct (strip_prefix l s) as [s'|] eqn:E; [|discriminate].
    apply strip_prefix_Some in E. exists s', c. simpl; auto.
  - destruct s as [|y s]; [discriminate|]. destruct (p y) eqn:E; [|discriminate].
    exists s, c. simpl; eauto.
  - apply rep_sound in H. destruct H as (w & s' & Hs & Hw & Hlo & Hhi & Hk).
    exists s', c. simpl; split; [exists w|]; auto.
  - apply IHa in H. destruct H as (s1 & c1 & Ha & H).
    apply IHb in H. destruct H as (s2 & c2 & Hb & H).
    exists s2, c2. simpl; eauto.
  - apply or_else_Some in H. destruct H as [H|[_ H]].
    + apply IHa in H. destruct H as (s' & c' & Ha & H). exists s', c'. simpl; auto.
    + apply IHb in H. destruct H as (s' & c' & Hb & H). exists s', c'. simpl; auto.
  - apply IHa in H. destruct H as (s' & c' & Ha & H).
    eexists s', _. simpl; split; [exists c'; split; [exact Ha | reflexivity] | exact H].
  - destruct (rmatch a s c (fun _ c' => Some c')) as [c1|] eqn:E; [|discriminate].
    apply IHa in E. destruct E as (s2 & c2 & Ha & [= ->]).
    exists s, c1. simpl; eauto.
  - destruct (at_end s) eqn:E; [|discriminate]. exists s, c. simpl; auto.
Qed.

(** Both ends of a match lie in the text. *)
Lemma matches_suffix (r : regex) :
  forall s c s' c', matches r s c s' c' -> exists w, s = w ++ s'.
Proof.
  induction r as [l|p|g lo hi p|a IHa b IHb|a IHa b IHb|n a IHa|a IHa|];
    simpl; intros s c s' c' H.
  - destruct H as [-> _]; eauto.
  - destruct H as (x & -> & _). now exists [x].
  - destruct H as (w & -> & _). eauto.
  - destruct H as (s1 & c1 & Ha & Hb).
    apply IHa in Ha; apply IHb in Hb. destruct Ha as [w1 ->], Hb as [w2 ->].
    exists (w1 ++ w2). now rewrite app_assoc.
  - destruct H as [H|H]; eauto.
  - destruct H as (c1 & H & _); eauto.
  - destruct H as [-> _]. now exists [].
  - destruct H as [-> _]. now exists [].
Qed.

(** Groups the pattern binds are set after a match; groups set before it
    stay set. *)
Lemma matches_binds (r : regex) (n : nat) :
  forall s c s' c', matches r s c s' c' ->
    binds r n = true \/ cap_get n c <> None -> cap_get n c' <> None.
Proof.
  induction r as [l|p|g lo hi p|a IHa b IHb|a IHa b IHb|m a IHa|a IHa|];
    simpl; intros s c s' c' H Hb.
  - destruct H as [_ ->]. destruct Hb; [discriminate | auto].
  - destruct H as (x & _ & _ & ->). destruct Hb; [discriminate | auto].
  - destruct H as (w & _ & _ & _ & _ & ->). destruct Hb; [discriminate | auto].
  - destruct H as (s1 & c1 & Ha & Hb').
    eapply IHb; [exact Hb'|].
    destruct Hb as [Hb|Hb].
    + apply orb_true_iff in Hb. destruct Hb as [Hb|Hb]; [right | now left].
      eapply IHa; [exact Ha | now left].
    + right. eapply IHa; [exact Ha | now right].
  - destruct Hb as [Hb|Hb].
    + apply andb_true_iff in Hb. destruct Hb as [H1 H2].
      destruct H as [H|H]; [eapply IHa | eapply IHb]; eauto.
    + destruct H as [H|H]; [eapply IHa | eapply IHb]; eauto.
  - destruct H as (c1 & Ha & ->). unfold cap_set; simpl.
    destruct (n =? m) eqn:E; [discriminate|].
    eapply IHa; [exact Ha|]. destruct Hb as [Hb|Hb]; auto.
  - destruct H as [_ [s2 Ha]]. eapply IHa; eauto.
  - destruct H as (_ & -> & _). destruct Hb; [discriminate | auto].
Qed.

Lemma match_here_sound (r : regex) (pos : nat) (s : str) (m : Match) :
  match_here r pos s = Some m ->
  exists w s' c', s = w ++ s' /\ matches r s [] s' c' /\
                  m = mkMatch pos (pos + length w) c'.
Proof.
  unfold match_here; intros H. apply rmatch_sound in H.
  destruct H as (s' & c' & Hm & [= <-]).
  destruct (matches_suffix _ _ _ _ _ Hm) as [w ->].
  exists w, s', c'. rewrite length_app, Nat.add_sub. auto.
Qed.

Lemma search_from_sound (r : regex) (s : str) :
  forall (pos : nat) (m : Match),
    search_from r pos s = Some m ->
    exists pre u, s = pre ++ u /\ match_here r (pos + length pre) u = Some m.
Proof.
  induction s as [|a s IH]; intros pos m H; simpl in H.
  - destruct (match_here r pos []) eqn:E; [|discriminate].
    exists [], []. simpl. now rewrite Nat.add_0_r, E.
  - destruct (match_here r pos (a :: s)) eqn:E.
    + exists [], (a :: s). simpl. now rewrite Nat.add_0_r, E.
    + apply IH in H. destruct H as (pre & u & -> & H).
      exists (a :: pre), u. simpl. now rewrite Nat.add_succ_r.
Qed.

Lemma re_search_sound (r : regex) (s : str) (m : Match) :
  re_search r s = Some m ->
  exists pre w s' c', s = pre ++ w ++ s' /\ matches r (w ++ s') [] s' c' /\
                      m = mkMatch (length pre) (length pre + length w) c'.
Proof.
  intros H. apply search_from_sound in H. destruct H as (pre & u & -> & H).
  apply match_here_sound in H. destruct H as (w & s' & c' & -> & Hm & ->).
  exists pre, w, s', c'. auto.
Qed.

Lemma match_here_binds (r : regex) (pos : nat) (s : str) (m : Match) (n : nat) :
  match_here r pos s = Some m -> binds r n = true -> exists g, group m n = Some g.
Proof.
  intros H Hb. apply match_here_sound in H.
  destruct H as (w & s' & c' & _ & Hm & ->).
  unfold group; simpl.
  destruct (cap_get n c') eqn:E; [eauto|].
  exfalso. eapply (matches_binds r n); [exact Hm | left; exact Hb | exact E].
Qed.

Lemma re_search_binds (r : regex) (s : str) (m : Match) (n : nat) :
  re_search r s = Some m -> binds r n = true -> exists g, group m n = Some g.
Proof.
  intros H Hb. apply search_from_sound in H. destruct H as (pre & u & _ & H).
  eapply match_here_binds; eauto.
Qed.

Lemma finditer_from_In (r : regex) (s : str) :
  forall (skip pos : nat) (m : Match),
    In m (finditer_from r skip pos s) ->
    exists pos' u, match_here r pos' u = Some m.
Proof.
  induction s as [|a s IH]; intros skip pos m H.
  - destruct skip; simpl in H; [|contradiction].
    destruct (match_here r pos []) eqn:E; simpl in H; [|contradiction].
    destruct H as [->|[]]. eauto.
  - destruct skip; simpl in H; [|eauto].
    destruct (match_here r pos (a :: s)) eqn:E; [|eauto].
    destruct H as [->|H]; eauto.
Qed.

(** The matches of [finditer] come in the order of their offsets. *)
Lemma finditer_from_starts (r : regex) (s : str) :
  forall (skip pos : nat),
    Forall (fun m => pos <= m_start m) (finditer_from r skip pos s) /\
    StronglySorted (fun a b => m_start a < m_start b) (finditer_from r skip pos s).
Proof.
  assert (Hhere : forall pos u m, match_here r pos u = Some m -> m_start m = pos).
  { intros pos u m H. apply match_here_sound in H.
    destruct H as (w & s' & c' & _ & _ & ->). reflexivity. }
  assert (Hmono : forall pos (l : list Match),
             Forall (fun m => S pos <= m_start m) l ->
             Forall (fun m => pos <= m_start m) l).
  { intros pos l H. eapply Forall_impl; [|exact H]. simpl; intros; lia. }
  induction s as [|a s IH]; intros skip pos.
  - destruct skip; simpl; [|split; constructor].
    destruct (match_here r pos []) eqn:E; [|split; constructor].
    apply Hhere in E. split; repeat constructor. lia.
  - destruct skip; simpl.
    + destruct (match_here r pos (a :: s)) eqn:E.
      * apply Hhere in E.
        destruct (IH (m_end m - pos - 1) (S pos)) as [H1 H2].
        split; constructor; auto; try lia.
        eapply Forall_impl; [|exact H1]. simpl; intros; lia.
      * destruct (IH 0 (S pos)) as [H1 H2]. auto.
    + destruct (IH skip (S pos)) as [H1 H2]. auto.
Qed.

Lemma for_each_total {A B} (f : A -> result B) (l : list A) :
  (forall x, In x l -> exists y, f x = Ok y) ->
  exists ys, for_each f l = Ok ys /\ Forall2 (fun x y => f x = Ok y) l ys.
Proof.
  induction l as [|x l IH]; intros H; simpl.
  - exists []. auto.
  - destruct (H x (or_introl eq_refl)) as [y Hy].
    destruct IH as (ys & Hys & HF); [intros; apply H; now right|].
    exists (y :: ys). rewrite Hy, Hys. simpl; auto.
Qed.

(** ** The stanzas of block 4 *)

Lemma set_stripped_Ok (key sub : string) (m : Match) (A : dict) (g : str) :
  group m 1 = Some g ->
  set_stripped key sub m A = Ok (dict_set key (VDict [(sub, VStr (strip g))]) A).
Proof. intros H. unfold set_stripped, group_str. now rewrite H. Qed.

Lemma set_stripped_assigns (r : regex) (key sub : string) (text : str) :
  binds r 1 = true ->
  assigns [key] (fun A => match re_search r text with
                          | Some m => set_stripped key sub m A
                          | None => Ok A
                          end).
Proof.
  intros Hb A. destruct (re_search r text) as [m|] eqn:E; [|now left].
  destruct (re_search_binds _ _ _ 1 E Hb) as [g Hg].
  right. exists key, (VDict [(sub, VStr (strip g))]). split; [now left|].
  now apply set_stripped_Ok.
Qed.

Lemma split_first_line_cons (s : str) : exists l ls, split_first_line s = l :: ls.
Proof.
  induction s as [|c s (l & ls & IH)]; simpl; eauto.
  destruct (chr_eqb c nl); eauto. rewrite IH; eauto.
Qed.

Lemma account_split_total (acc rest : string) (whole : str -> list str -> result str)
    (g : str) :
  (forall l ls, exists w, whole g (l :: ls) = Ok w) ->
  exists d, account_split acc rest whole g = Ok d.
Proof.
  intros Hw. unfold account_split.
  destruct (split_first_line_cons (strip g)) as (l & ls & ->).
  destruct (startswith l (txt "/")).
  - destruct ls; eauto.
  - destruct (Hw l ls) as [w ->]. simpl; eauto.
Qed.

Lemma account_stanza_assigns (tag : regex) (key acc rest : string)
    (whole : str -> list str -> result str) (text : str) :
  binds (span_pattern tag) 1 = true ->
  (forall g l ls, exists w, whole g (l :: ls) = Ok w) ->
  assigns [key] (fun A => match re_search (span_pattern tag) text with
                          | Some m =>
                              g <- group_str AttributeError m 1 ;;
                              field_data <- account_split acc rest whole g ;;
                              Ok (dict_set key (VDict field_data) A)
                          | None => Ok A
                          end).
Proof.
  intros Hb Hw A. destruct (re_search _ text) as [m|] eqn:E; [|now left].
  destruct (re_search_binds _ _ _ 1 E Hb) as [g Hg].
  destruct (account_split_total acc rest whole g (Hw g)) as [d Hd].
  right. exists key, (VDict d). split; [now left|].
  unfold group_str. rewrite Hg. simpl. now rewrite Hd.
Qed.

(** ** Dates and amounts *)

Lemma digit_cases (c : ascii) : is_digit c = true -> In c (txt "0123456789").
Proof.
  destruct c as [[] [] [] [] [] [] [] []]; intros H; vm_compute in H;
    try discriminate H; simpl; tauto.
Qed.

(** The century the module puts before a two-digit year. *)
Lemma parse_date_six_digits (d1 d2 d3 d4 d5 d6 : ascii) :
  is_digit d1 = true -> is_digit d2 = true ->
  let year := (10 * digit_val d1 + digit_val d2)%Z in
  parse_date [d1; d2; d3; d4; d5; d6] =
  Ok ((if (year <=? 50)%Z then txt "20" else txt "19")
        ++ [d1; d2] ++ txt "-" ++ [d3; d4] ++ txt "-" ++ [d5; d6]).
Proof.
  intros H1 H2. apply digit_cases in H1, H2. simpl in H1, H2.
  repeat (destruct H1 as [<-|H1]; [|]); try contradiction;
    repeat (destruct H2 as [<-|H2]; [|]); try contradiction; reflexivity.
Qed.

Lemma parse_date_total (g : str) :
  length g = 6 -> forallb is_digit g = true -> exists d, parse_date g = Ok d.
Proof.
  intros Hl Hd.
  destruct g as [|d1 [|d2 [|d3 [|d4 [|d5 [|d6 [|]]]]]]]; try discriminate Hl.
  simpl in Hd. apply andb_true_iff in Hd. destruct Hd as [H1 Hd].
  apply andb_true_iff in Hd. destruct Hd as [H2 _].
  rewrite parse_date_six_digits by assumption. eauto.
Qed.

Lemma replace_comma (s : str) :
  parse_amount s = map (fun c => if chr_eqb c "," then "."%char else c) s.
Proof.
  change (replace_from [","%char] ["."%char] 0 s =
          map (fun c => if chr_eqb c "," then "."%char else c) s).
  induction s as [|c s IH]; [reflexivity|].
  change (replace_from [","%char] ["."%char] 0 (c :: s)) with
    (if match (if chr_eqb "," c then Some s else None) with
        | Some _ => true
        | None => false
        end
     then "."%char :: replace_from [","%char] ["."%char] 0 s
     else c :: replace_from [","%char] ["."%char] 0 s).
  rewrite IH.
  assert (Hs : chr_eqb "," c = chr_eqb c ",") by apply Ascii.eqb_sym.
  rewrite Hs. rewrite map_cons. now destruct (chr_eqb c ",").
Qed.

Ltac break_matches :=
  repeat match goal with
         | H : exists _, _ |- _ => destruct H
         | H : _ /\ _ |- _ => destruct H
         end;
  subst; rewrite ?firstn_consumed in *.

Lemma field_32A_groups (text : str) (m : Match) :
  re_search field_32A_pattern text = Some m ->
  exists g1 g2 g3,
    group m 1 = Some g1 /\ group m 2 = Some g2 /\ group m 3 = Some g3 /\
    length g1 = 6 /\ forallb is_digit g1 = true.
Proof.
  intros H. apply re_search_sound in H.
  destruct H as (pre & w & s' & c' & _ & Hm & ->).
  unfold field_32A_pattern, exactly, plus in Hm. cbn [matches within] in Hm.
  break_matches. unfold group; simpl.
  do 3 eexists. repeat split; try reflexivity; [lia | assumption].
Qed.

Lemma field_20_assigns text : assigns ["F20"] (field_20 text).
Proof. now apply set_stripped_assigns. Qed.

Lemma field_23B_assigns text : assigns ["F23B"] (field_23B text).
Proof. now apply set_stripped_assigns. Qed.

Lemma field_23E_assigns text : assigns ["F23E"] (field_23E text).
Proof. now apply set_stripped_assigns. Qed.

Lemma field_26T_assigns text : assigns ["F26T"] (field_26T text).
Proof. now apply set_stripped_assigns. Qed.

Lemma field_36_assigns text : assigns ["F36"] (field_36 text).
Proof. now apply set_stripped_assigns. Qed.

Lemma field_51A_assigns text : assigns ["F51A"] (field_51A text).
Proof. now apply set_stripped_assigns. Qed.

Lemma field_52A_assigns text : assigns ["F52A"] (field_52A text).
Proof. now apply set_stripped_assigns. Qed.

Lemma field_53B_assigns text : assigns ["F53B"] (field_53B text).
Proof. now apply set_stripped_assigns. Qed.

Lemma field_70_assigns text : assigns ["F70"] (field_70 text).
Proof. now apply set_stripped_assigns. Qed.

Lemma field_71A_assigns text : assigns ["F71A"] (field_71A text).
Proof. now apply set_stripped_assigns. Qed.

Lemma field_71G_assigns text : assigns ["F71G"] (field_71G text).
Proof. now apply set_stripped_assigns. Qed.

Lemma field_72_assigns text : assigns ["F72"] (field_72 text).
Proof. now apply set_stripped_assigns. Qed.

Lemma field_77B_assigns text : assigns ["F77B"] (field_77B text).
Proof. now apply set_stripped_assigns. Qed.

Lemma field_50K_assigns text : assigns ["F50K"] (field_50K text).
Proof.
  unfold field_50K. destruct (negb _); [now apply set_stripped_assigns|].
  intros A; now left.
Qed.

Lemma field_50F_assigns text : assigns ["F50F"] (field_50F text).
Proof.
  intros A. unfold field_50F.
  destruct (re_search _ text) as [m|] eqn:E; [|now left].
  destruct (re_search_binds _ _ _ 1 E eq_refl) as [g Hg].
  right. exists "F50F", (VDict (parse_field_50f g)). split; [now left|].
  unfold group_str. now rewrite Hg.
Qed.

Lemma field_52D_assigns text : assigns ["F52D"] (field_52D text).
Proof. apply account_stanza_assigns; [reflexivity|]. intros; unfold whole_stripped; eauto. Qed.

Lemma field_54A_assigns text : assigns ["F54A"] (field_54A text).
Proof. apply account_stanza_assigns; [reflexivity|]. intros; simpl; eauto. Qed.

Lemma field_59_assigns text : assigns ["F59"] (field_59 text).
Proof. apply account_stanza_assigns; [reflexivity|]. intros; unfold whole_stripped; eauto. Qed.

Lemma field_32A_assigns text : assigns ["F32A"] (field_32A text).
Proof.
  intros A. unfold field_32A.
  destruct (re_search _ text) as [m|] eqn:E; [|now left].
  destruct (field_32A_groups _ _ E) as (g1 & g2 & g3 & H1 & H2 & H3 & Hl & Hd).
  destruct (parse_date_total g1 Hl Hd) as [d Hdate].
  right. eexists "F32A", _. split; [now left|].
  unfold group_str. rewrite H1. simpl. rewrite Hdate. simpl. rewrite H3. simpl.
  reflexivity.
Qed.

Lemma field_33B_assigns text : assigns ["F33B"] (field_33B text).
Proof.
  intros A. unfold field_33B.
  destruct (re_search _ text) as [m|] eqn:E; [|now left].
  destruct (re_search_binds _ _ _ 2 E eq_refl) as [g Hg].
  right. eexists "F33B", _. split; [now left|].
  unfold group_str. rewrite Hg. reflexivity.
Qed.

Lemma field_56_assigns (suffixes : list string) text :
  assigns (map (String.append "F56") suffixes) (field_56 suffixes text).
Proof.
  induction suffixes as [|x l IH]; intros A; simpl; [now left|].
  destruct (re_search _ text) as [m|] eqn:E.
  - destruct (re_search_binds _ _ _ 1 E eq_refl) as [g Hg].
    right. exists ("F56" ++ x)%string,
      (VDict [(("F56" ++ x ++ "_Intermediary")%string, VStr (strip g))]).
    split; [left; reflexivity|]. now apply set_stripped_Ok.
  - destruct (IH A) as [H|(k & v & Hk & H)]; [now left|].
    right. exists k, v. auto.
Qed.

Lemma field_57_assigns (suffixes : list string) text :
  assigns (map (String.append "F57") suffixes) (field_57 suffixes text).
Proof.
  induction suffixes as [|x l IH]; intros A; simpl; [now left|].
  destruct (re_search _ text) as [m|] eqn:E.
  - destruct (re_search_binds _ _ _ 1 E eq_refl) as [g Hg].
    right. exists ("F57" ++ x)%string,
      (VDict [(("F57" ++ x ++ "_AccountWithInstitution")%string, VStr (strip g))]).
    split; [left; reflexivity|]. now apply set_stripped_Ok.
  - destruct (IH A) as [H|(k & v & Hk & H)]; [now left|].
    right. exists k, v. auto.
Qed.

Lemma time_indication_total (pos : nat) (u : str) (m : Match) :
  match_here field_13c_pattern pos u = Some m ->
  exists d, time_indication m = Ok (VDict d).
Proof.
  intros H.
  destruct (match_here_binds _ _ _ _ 2 H eq_refl) as [g2 H2].
  destruct (match_here_binds _ _ _ _ 4 H eq_refl) as [g4 H4].
  unfold time_indication, group_str. rewrite H2, H4. simpl. eauto.
Qed.

Lemma charge_total (pos : nat) (u : str) (m : Match) :
  match_here (currency_amount_pattern ":71F:") pos u = Some m ->
  exists d, charge m = Ok (VDict d).
Proof.
  intros H.
  destruct (match_here_binds _ _ _ _ 2 H eq_refl) as [g2 H2].
  unfold charge, group_str. rewrite H2. simpl. eauto.
Qed.

Lemma parse_field_13c_total (text : str) :
  exists tis,
    parse_field_13c text = Ok tis /\
    Forall2 (fun m v => time_indication m = Ok v)
            (re_finditer field_13c_pattern text) tis.
Proof.
  apply for_each_total. intros m Hm.
  apply finditer_from_In in Hm. destruct Hm as (pos & u & Hm).
  destruct (time_indication_total _ _ _ Hm) as [d Hd]. eauto.
Qed.

Lemma charges_total (text : str) :
  exists chs,
    for_each charge (re_finditer (currency_amount_pattern ":71F:") text) = Ok chs /\
    Forall2 (fun m v => charge m = Ok v)
            (re_finditer (currency_amount_pattern ":71F:") text) chs.
Proof.
  apply for_each_total. intros m Hm.
  apply finditer_from_In in Hm. destruct Hm as (pos & u & Hm).
  destruct (charge_total _ _ _ Hm) as [d Hd]. eauto.
Qed.

Lemma field_13C_assigns text : assigns ["A1"] (field_13C text).
Proof.
  intros A. unfold field_13C.
  destruct (parse_field_13c_total text) as (tis & -> & _). simpl.
  destruct tis as [|one [|two more]]; [now left| |];
    right; eexists "A1", _; (split; [now left | reflexivity]).
Qed.

Lemma field_71F_assigns text : assigns ["A3"] (field_71F text).
Proof.
  intros A. unfold field_71F.
  destruct (charges_total text) as (chs & -> & _). simpl.
  destruct chs as [|one [|two more]]; [now left| |];
    right; eexists "A3", _; (split; [now left | reflexivity]).
Qed.

Lemma stanzas_assign (text : str) : Forall2 assigns stanza_keys (stanzas text).
Proof.
  unfold stanza_keys, stanzas.
  repeat (constructor;
          [ first [ apply field_20_assigns | apply field_13C_assigns
                  | apply field_23B_assigns | apply field_23E_assigns
                  | apply field_26T_assigns | apply field_32A_assigns
                  | apply field_33B_assigns | apply field_36_assigns
                  | apply field_50F_assigns | apply field_50K_assigns
                  | apply field_51A_assigns | apply field_52D_assigns
                  | apply field_52A_assigns | apply field_53B_assigns
                  | apply field_54A_assigns
                  | exact (field_56_assigns ["A"; "C"; "D"] text)
                  | exact (field_57_assigns ["A"; "B"; "C"; "D"] text)
                  | apply field_59_assigns | apply field_70_assigns
                  | apply field_71A_assigns | apply field_71F_assigns
                  | apply field_71G_assigns | apply field_72_assigns
                  | apply field_77B_assigns ] | ]).
  constructor.
Qed.

(** ** Runs of stanzas *)

Lemma assigns_frame (ks : list string) (f : dict -> result dict) (A : dict) :
  assigns ks f ->
  exists A', f A = Ok A' /\ forall k, ~ In k ks -> dict_get k A' = dict_get k A.
Proof.
  intros H. destruct (H A) as [E|(k0 & v & Hk & E)].
  - exists A. auto.
  - exists (dict_set k0 v A). split; [assumption|].
    intros k Hn. apply dict_get_set_other. intros ->. contradiction.
Qed.

Lemma run_steps_frame (kss : list (list string)) (fs : list (dict -> result dict)) :
  Forall2 assigns kss fs ->
  forall A, exists A',
    run_steps fs A = Ok A' /\
    forall k, ~ In k (concat kss) -> dict_get k A' = dict_get k A.
Proof.
  induction 1 as [|ks f kss fs Hf _ IH]; intros A; simpl.
  - exists A. auto.
  - destruct (assigns_frame ks f A Hf) as (A1 & -> & F1). simpl.
    destruct (IH A1) as (A2 & -> & F2).
    exists A2. split; [reflexivity|].
    intros k Hn. rewrite F2, F1; auto; intros Hin; apply Hn, in_or_app; auto.
Qed.

(** The run seen from one stanza: the dictionary it receives, the one it
    returns and the final one. *)
Lemma run_steps_focus (kss : list (list string)) (fs : list (dict -> result dict)) :
  Forall2 assigns kss fs ->
  forall (i : nat) (f : dict -> result dict) (A : dict),
    nth_error fs i = Some f ->
    exists A0 A1 A2,
      run_steps (firstn i fs) A = Ok A0 /\ f A0 = Ok A1 /\ run_steps fs A = Ok A2 /\
      (forall k, ~ In k (concat (firstn i kss)) -> dict_get k A0 = dict_get k A) /\
      (forall k, ~ In k (concat (skipn (S i) kss)) -> dict_get k A2 = dict_get k A1).
Proof.
  induction 1 as [|ks f0 kss fs Hf Hfs IH]; intros i f A Hn.
  - destruct i; discriminate.
  - destruct i as [|i]; simpl in Hn.
    + injection Hn as <-.
      destruct (assigns_frame ks f0 A Hf) as (A1 & E1 & _).
      destruct (run_steps_frame kss fs Hfs A1) as (A2 & E2 & F2).
      exists A, A1, A2. simpl. rewrite E1. simpl. auto.
    + destruct (assigns_frame ks f0 A Hf) as (Ah & Eh & Fh).
      destruct (IH i f Ah Hn) as (A0 & A1 & A2 & E0 & E1 & E2 & F0 & F2).
      exists A0, A1, A2. simpl. rewrite Eh. simpl.
      repeat split; auto.
      intros k Hk. rewrite F0, Fh; auto; intros Hin; apply Hk, in_or_app; auto.
Qed.

Lemma parse_text_block_focus (text : str) (i : nat) (f : dict -> result dict) :
  nth_error (stanzas text) i = Some f ->
  exists A0 A1 A,
    f A0 = Ok A1 /\ parse_text_block text = Ok [("A", VDict A)] /\
    (forall k, ~ In k (concat (firstn i stanza_keys)) -> dict_get k A0 = None) /\
    (forall k, ~ In k (concat (skipn (S i) stanza_keys)) ->
               dict_get k A = dict_get k A1).
Proof.
  intros Hn.
  destruct (run_steps_focus _ _ (stanzas_assign text) i f [] Hn)
    as (A0 & A1 & A2 & _ & E1 & E2 & F0 & F2).
  exists A0, A1, A2. unfold parse_text_block. rewrite E2. simpl.
  repeat split; auto.
Qed.

Lemma parse_text_block_total (text : str) :
  exists A, parse_text_block text = Ok [("A", VDict A)].
Proof.
  destruct (run_steps_frame _ _ (stanzas_assign text) []) as (A & E & _).
  exists A. unfold parse_text_block. now rewrite E.
Qed.

(** * The properties of the specification *)

(** C1. The end-to-end scenario: the message with blocks 1, 2 and 4 and no
    block 3 or 5 is decoded to the expected document; its transaction
    reference is TEST-001, its value date 2024-01-01, its currency USD, its
    amount 10000.00 and its charge code SHA, and the keys of blocks 1 and 2
    are there although no block 3 and no block 5 is found. *)
Theorem scenario_decoded :
  mt103_to_json scenario_message = Ok scenario_document /\
  re_search (block_pattern "3") (strip scenario_message) = None /\
  re_search (block_pattern "5") (strip scenario_message) = None /\
  at_path ["MT103"; "A"; "F20"; "F20_TRN"] (VDict scenario_document)
    = Some (VStr (txt "TEST-001")) /\
  at_path ["MT103"; "A"; "F32A"; "F32A_Date"] (VDict scenario_document)
    = Some (VStr (txt "2024-01-01")) /\
  at_path ["MT103"; "A"; "F32A"; "F32A_Curr"] (VDict scenario_document)
    = Some (VStr (txt "USD")) /\
  at_path ["MT103"; "A"; "F32A"; "F32A_Amount"] (VDict scenario_document)
    = Some (VStr (txt "10000.00")) /\
  at_path ["MT103"; "A"; "F71A"; "F71A_ChargesCode"] (VDict scenario_document)
    = Some (VStr (txt "SHA")) /\
  at_path ["MT103"; "LT_Address"] (VDict scenario_document)
    = Some (VStr (txt "TESTBANK0XXX")) /\
  at_path ["MT103"; "Recipient"] (VDict scenario_document)
    = Some (VStr (txt "TESTBANK1XXX")).
Proof. repeat split; vm_compute; reflexivity. Qed.

(** C5. The date decoder applies the century pivot to every string of six
    digits: the two-digit year [yy] becomes [20yy] when it is at most 50 and
    [19yy] otherwise, and month and day are kept, separated by dashes.  The
    four dates of the specification are instances. *)
Theorem date_century_pivot :
  (forall date_str : str,
     length date_str = 6 -> forallb is_digit date_str = true ->
     exists year : Z,
       py_int (slice 0 2 date_str) = Ok year /\ (0 <= year <= 99)%Z /\
       parse_date date_str =
       Ok ((if (year <=? 50)%Z then txt "20" else txt "19")
             ++ slice 0 2 date_str ++ txt "-" ++ slice 2 4 date_str
             ++ txt "-" ++ slice 4 6 date_str)) /\
  parse_date (txt "091120") = Ok (txt "2009-11-20") /\
  parse_date (txt "991231") = Ok (txt "1999-12-31") /\
  parse_date (txt "500101") = Ok (txt "2050-01-01") /\
  parse_date (txt "510101") = Ok (txt "1951-01-01").
Proof.
  split; [|repeat split; reflexivity].
  intros s Hl Hd.
  destruct s as [|d1 [|d2 [|d3 [|d4 [|d5 [|d6 [|]]]]]]]; try discriminate Hl.
  simpl in Hd. apply andb_true_iff in Hd. destruct Hd as [H1 Hd].
  apply andb_true_iff in Hd. destruct Hd as [H2 _].
  exists (10 * digit_val d1 + digit_val d2)%Z.
  rewrite parse_date_six_digits by assumption.
  apply digit_cases in H1, H2. simpl in H1, H2.
  repeat (destruct H1 as [<-|H1]; [|]); try contradiction;
    repeat (destruct H2 as [<-|H2]; [|]); try contradiction;
    (split; [reflexivity | split; [vm_compute; split; discriminate | reflexivity]]).
Qed.

Lemma date_century_pivot_witness :
  length (txt "240101") = 6 /\ forallb is_digit (txt "240101") = true /\
  parse_date (txt "240101") = Ok (txt "2024-01-01").
Proof.
  split; [reflexivity | split; [reflexivity|]].
  destruct (proj1 date_century_pivot (txt "240101") eq_refl eq_refl)
    as (year & Hy & _ & H).
  vm_compute in Hy. injection Hy as <-. exact H.
Defined.

(** C6. The amount decoder turns every comma into a dot and nothing else:
    the result has the length of the input, holds a dot where the input
    holds a comma and the input's character elsewhere; 15000,11 becomes
    15000.11 and 100,00 becomes 100.00, and the amounts of tags 32A, 33B and
    71F are stored that way. *)
Theorem amount_comma_to_dot :
  (forall amount_str : str,
     length (parse_amount amount_str) = length amount_str /\
     ~ In ","%char (parse_amount amount_str) /\
     forall i : nat,
       nth_error (parse_amount amount_str) i =
       option_map (fun c => if chr_eqb c "," then "."%char else c)
                  (nth_error amount_str i)) /\
  parse_amount (txt "15000,11") = txt "15000.11" /\
  parse_amount (txt "100,00") = txt "100.00" /\
  parse_text_block (txt ":32A:091120EUR15000,11
:33B:AUD16500,00
:71F:USD100,00") =
  Ok [("A", VDict
        [ ("F32A", VDict [ ("F32A_Date", VStr (txt "2009-11-20"));
                           ("F32A_Curr", VStr (txt "EUR"));
                           ("F32A_Amount", VStr (txt "15000.11")) ]);
          ("F33B", VDict [ ("F33B_Curr", VStr (txt "AUD"));
                           ("F33B_Amount", VStr (txt "16500.00")) ]);
          ("A3", VDict [("F71F", VDict [ ("F71F_Curr", VStr (txt "USD"));
                                         ("F71F_Amount", VStr (txt "100.00")) ])]) ])].
Proof.
  split; [|repeat split; vm_compute; reflexivity].
  intros s. rewrite replace_comma. split; [apply length_map|]. split.
  - intros H. apply in_map_iff in H. destruct H as (c & Hc & _).
    destruct (chr_eqb c ",") eqn:E; [discriminate|].
    subst c. now rewrite chr_eqb_refl in E.
  - intros i. apply nth_error_map.
Qed.

(** A key that is none of the listed ones. *)
Ltac absent_key :=
  let H := fresh "Hin" in
  intros H; vm_compute in H;
  repeat (destruct H as [H|H]; [discriminate H|]); exact H.

(** C2. Repeatable tags.  For every block-4 body the matches of 13C and of
    71F are decoded in the order of their offsets; one decoded occurrence is
    stored as that single object, two or more as the list of the decoded
    objects in that order, and none leaves the key out.  One 13C gives a
    single object, two give the list of the two in encounter order. *)
Theorem repeatable_cardinality :
  (forall text : str, exists (A : dict) (tis chs : list value),
     parse_text_block text = Ok [("A", VDict A)] /\
     Forall2 (fun m v => time_indication m = Ok v)
             (re_finditer field_13c_pattern text) tis /\
     Forall2 (fun m v => charge m = Ok v)
             (re_finditer (currency_amount_pattern ":71F:") text) chs /\
     in_encounter_order (re_finditer field_13c_pattern text) /\
     in_encounter_order (re_finditer (currency_amount_pattern ":71F:") text) /\
     (tis = [] -> dict_get "A1" A = None) /\
     (forall one, tis = [one] -> dict_get "A1" A = Some (VDict [("F13C", one)])) /\
     (2 <= length tis -> dict_get "A1" A = Some (VDict [("F13C", VList tis)])) /\
     (chs = [] -> dict_get "A3" A = None) /\
     (forall one, chs = [one] -> dict_get "A3" A = Some (VDict [("F71F", one)])) /\
     (2 <= length chs -> dict_get "A3" A = Some (VDict [("F71F", VList chs)]))) /\
  parse_text_block one_13c = Ok [("A", VDict [("A1", VDict [("F13C", clstime)])])] /\
  parse_text_block two_13c =
    Ok [("A", VDict [("A1", VDict [("F13C", VList [clstime; rnctime])])])].
Proof.
  split; [|split; vm_compute; reflexivity].
  intros text.
  destruct (parse_text_block_focus text 1 (field_13C text) eq_refl)
    as (A0 & A1 & A & E1 & EA & F0 & F1).
  destruct (parse_text_block_focus text 20 (field_71F text) eq_refl)
    as (B0 & B1 & B & E3 & EB & G0 & G1).
  rewrite EA in EB. injection EB as <-.
  destruct (parse_field_13c_total text) as (tis & Etis & Htis).
  destruct (charges_total text) as (chs & Echs & Hchs).
  unfold field_13C in E1. rewrite Etis in E1. simpl in E1.
  unfold field_71F in E3. rewrite Echs in E3. simpl in E3.
  assert (K1 : dict_get "A1" A = dict_get "A1" A1) by (apply F1; absent_key).
  assert (K0 : dict_get "A1" A0 = None) by (apply F0; absent_key).
  assert (L1 : dict_get "A3" A = dict_get "A3" B1) by (apply G1; absent_key).
  assert (L0 : dict_get "A3" B0 = None) by (apply G0; absent_key).
  exists A, tis, chs.
  split; [exact EA|]. split; [exact Htis|]. split; [exact Hchs|].
  split; [apply finditer_from_starts|]. split; [apply finditer_from_starts|].
  rewrite K1, L1. repeat split.
  - intros ->. injection E1 as <-. exact K0.
  - intros one ->. injection E1 as <-. apply dict_get_set_same.
  - intros Hl. destruct tis as [|a [|b l]]; simpl in Hl; try lia.
    injection E1 as <-. apply dict_get_set_same.
  - intros ->. injection E3 as <-. exact L0.
  - intros one ->. injection E3 as <-. apply dict_get_set_same.
  - intros Hl. destruct chs as [|a [|b l]]; simpl in Hl; try lia.
    injection E3 as <-. apply dict_get_set_same.
Qed.

Lemma repeatable_cardinality_witness :
  exists A : dict,
    parse_text_block two_13c = Ok [("A", VDict A)] /\
    dict_get "A1" A = Some (VDict [("F13C", VList [clstime; rnctime])]).
Proof.
  destruct (proj1 repeatable_cardinality two_13c)
    as (A & tis & chs & EA & Htis & _ & _ & _ & _ & _ & H2 & _).
  exists A. split; [exact EA|].
  assert (E : tis = [clstime; rnctime]).
  { vm_compute in Htis.
    inversion Htis as [|m1 v1 l1 l1' Hv1 Hrest]; subst.
    inversion Hrest as [|m2 v2 l2 l2' Hv2 Hnil]; subst.
    inversion Hnil; subst.
    injection Hv1 as <-. injection Hv2 as <-. reflexivity. }
  subst tis. apply H2. simpl. lia.
Defined.

(** ** Spans and the stanzas that use them *)

Lemma span_pattern_binds (tag : regex) : binds (span_pattern tag) 1 = true.
Proof. unfold span_pattern. simpl. apply orb_true_r. Qed.

Lemma raw_span_Some (tag : regex) (text g : str) :
  raw_span tag text = Some g ->
  exists m, re_search (span_pattern tag) text = Some m /\ group m 1 = Some g.
Proof.
  unfold raw_span. destruct (re_search _ text) as [m|]; [eauto | discriminate].
Qed.

Lemma raw_span_None (tag : regex) (text : str) :
  raw_span tag text = None -> re_search (span_pattern tag) text = None.
Proof.
  unfold raw_span. destruct (re_search _ text) as [m|] eqn:E; [|reflexivity].
  destruct (re_search_binds _ _ _ 1 E (span_pattern_binds tag)) as [g ->].
  discriminate.
Qed.

Lemma field_56_first (pre : list string) (x : string) (post : list string)
    (text g : str) (A : dict) :
  (forall y, In y pre -> raw_span (suffixed "56" y) text = None) ->
  raw_span (suffixed "56" x) text = Some g ->
  field_56 (pre ++ x :: post) text A =
  Ok (dict_set ("F56" ++ x)
        (VDict [(("F56" ++ x ++ "_Intermediary")%string, VStr (strip g))]) A).
Proof.
  intros Hpre Hx. induction pre as [|y pre IH]; simpl.
  - apply raw_span_Some in Hx. destruct Hx as (m & E & Hg).
    unfold suffixed in E; simpl in E. rewrite E. now apply set_stripped_Ok.
  - assert (E := raw_span_None _ _ (Hpre y (or_introl eq_refl))).
    unfold suffixed in E; simpl in E. rewrite E.
    apply IH. intros z Hz. apply Hpre. now right.
Qed.

Lemma field_57_first (pre : list string) (x : string) (post : list string)
    (text g : str) (A : dict) :
  (forall y, In y pre -> raw_span (suffixed "57" y) text = None) ->
  raw_span (suffixed "57" x) text = Some g ->
  field_57 (pre ++ x :: post) text A =
  Ok (dict_set ("F57" ++ x)
        (VDict [(("F57" ++ x ++ "_AccountWithInstitution")%string, VStr (strip g))]) A).
Proof.
  intros Hpre Hx. induction pre as [|y pre IH]; simpl.
  - apply raw_span_Some in Hx. destruct Hx as (m & E & Hg).
    unfold suffixed in E; simpl in E. rewrite E. now apply set_stripped_Ok.
  - assert (E := raw_span_None _ _ (Hpre y (or_introl eq_refl))).
    unfold suffixed in E; simpl in E. rewrite E.
    apply IH. intros z Hz. apply Hpre. now right.
Qed.

(** C3. Tag 50K is decoded only when the marker [:50F:] is nowhere in the
    body.  With the marker in the body no F50K key appears, whatever the
    body holds for 50K; without it F50K holds the stripped 50K span when
    there is one.  The marker alone decides: a body whose 50F marker has no
    value after it gets neither F50F nor F50K. *)
Theorem marker_50F_excludes_50K :
  (forall text : str,
     contains (txt ":50F:") text = true ->
     exists A, parse_text_block text = Ok [("A", VDict A)] /\
               dict_get "F50K" A = None) /\
  (forall text : str,
     contains (txt ":50F:") text = false ->
     exists A, parse_text_block text = Ok [("A", VDict A)] /\
               dict_get "F50K" A =
               option_map (fun g => VDict [("F50K_OrderingCustomer", VStr (strip g))])
                          (raw_span (Lit (txt ":50K:")) text)) /\
  raw_span (Lit (txt ":50K:")) marker_50F_without_value
    = Some (txt "/987654
TEST CUSTOMER
") /\
  raw_span (Lit (txt ":50F:")) marker_50F_without_value = None /\
  parse_text_block marker_50F_without_value = Ok [("A", VDict [])] /\
  parse_text_block both_50F_and_50K =
    Ok [("A", VDict [("F50F", VDict [ ("F50F_PartyIdentifier", VStr (txt "/123456"));
                                      ("F50F_NameAddr", VStr (txt "1/Customer Name")) ])])].
Proof.
  split; [|split; [|repeat split; vm_compute; reflexivity]].
  - intros text Hc.
    destruct (parse_text_block_focus text 9 (field_50K text) eq_refl)
      as (A0 & A1 & A & E1 & EA & F0 & F1).
    exists A. split; [exact EA|].
    unfold field_50K in E1. rewrite Hc in E1. simpl in E1. injection E1 as <-.
    rewrite F1 by absent_key. apply F0. absent_key.
  - intros text Hc.
    destruct (parse_text_block_focus text 9 (field_50K text) eq_refl)
      as (A0 & A1 & A & E1 & EA & F0 & F1).
    exists A. split; [exact EA|].
    rewrite F1 by absent_key.
    unfold field_50K in E1. rewrite Hc in E1. simpl in E1.
    unfold raw_span.
    destruct (re_search _ text) as [m|] eqn:E.
    + destruct (re_search_binds _ _ _ 1 E (span_pattern_binds _)) as [g Hg].
      rewrite (set_stripped_Ok _ _ _ _ _ Hg) in E1. injection E1 as <-.
      rewrite Hg. simpl. apply dict_get_set_same.
    + injection E1 as <-. simpl. apply F0. absent_key.
Qed.

Lemma marker_50F_excludes_50K_witness :
  contains (txt ":50F:") both_50F_and_50K = true /\
  exists A, parse_text_block both_50F_and_50K = Ok [("A", VDict A)] /\
            dict_get "F50K" A = None.
Proof.
  split; [reflexivity|].
  exact (proj1 marker_50F_excludes_50K both_50F_and_50K eq_refl).
Defined.

Lemma suffixes_56_split (pre : list string) (x : string) (post : list string) :
  ["A"; "C"; "D"] = pre ++ x :: post ->
  (pre = [] /\ x = "A" /\ post = ["C"; "D"]) \/
  (pre = ["A"] /\ x = "C" /\ post = ["D"]) \/
  (pre = ["A"; "C"] /\ x = "D" /\ post = []).
Proof.
  intros H.
  repeat (destruct pre as [|? pre]; simpl in H;
          [injection H; intros; subst; auto 10 | injection H as <- H]).
  destruct pre; discriminate.
Qed.

Lemma suffixes_57_split (pre : list string) (x : string) (post : list string) :
  ["A"; "B"; "C"; "D"] = pre ++ x :: post ->
  (pre = [] /\ x = "A" /\ post = ["B"; "C"; "D"]) \/
  (pre = ["A"] /\ x = "B" /\ post = ["C"; "D"]) \/
  (pre = ["A"; "B"] /\ x = "C" /\ post = ["D"]) \/
  (pre = ["A"; "B"; "C"] /\ x = "D" /\ post = []).
Proof.
  intros H.
  repeat (destruct pre as [|? pre]; simpl in H;
          [injection H; intros; subst; auto 10 | injection H as <- H]).
  destruct pre; discriminate.
Qed.

Ltac other_suffix F0 F1 :=
  match goal with
  | Hy : In _ _ |- _ =>
      simpl in Hy;
      repeat (destruct Hy as [<-|Hy];
              [rewrite F1 by absent_key;
               rewrite dict_get_set_other by discriminate; apply F0; absent_key|]);
      contradiction
  end.

(** C4. Suffix precedence.  The 56 family is tried in the order A, C, D and
    the 57 family in the order A, B, C, D: the first suffix of the order
    whose span is found gets its key, with the stripped span, and no other
    suffix of the family gets a key, whether its span is in the body or not.
    A body with both a 56D and a 56A span is decoded with 56A only. *)
Theorem first_suffix_wins :
  (forall text : str, exists A : dict,
     parse_text_block text = Ok [("A", VDict A)] /\
     (forall pre x post g,
        ["A"; "C"; "D"] = pre ++ x :: post ->
        (forall y, In y pre -> raw_span (suffixed "56" y) text = None) ->
        raw_span (suffixed "56" x) text = Some g ->
        dict_get ("F56" ++ x) A =
          Some (VDict [(("F56" ++ x ++ "_Intermediary")%string, VStr (strip g))]) /\
        forall y, In y (pre ++ post) -> dict_get ("F56" ++ y) A = None) /\
     (forall pre x post g,
        ["A"; "B"; "C"; "D"] = pre ++ x :: post ->
        (forall y, In y pre -> raw_span (suffixed "57" y) text = None) ->
        raw_span (suffixed "57" x) text = Some g ->
        dict_get ("F57" ++ x) A =
          Some (VDict [(("F57" ++ x ++ "_AccountWithInstitution")%string,
                        VStr (strip g))]) /\
        forall y, In y (pre ++ post) -> dict_get ("F57" ++ y) A = None)) /\
  raw_span (suffixed "56" "A") both_56A_and_56D = Some (txt "BANKDEFF
") /\
  raw_span (suffixed "56" "D") both_56A_and_56D = Some (txt "SOME BANK
SOME CITY
") /\
  parse_text_block both_56A_and_56D =
    Ok [("A", VDict [ ("F20", VDict [("F20_TRN", VStr (txt "REF"))]);
                      ("F56A", VDict [("F56A_Intermediary", VStr (txt "BANKDEFF"))]);
                      ("F71A", VDict [("F71A_ChargesCode", VStr (txt "SHA"))]) ])].
Proof.
  split; [|repeat split; vm_compute; reflexivity].
  intros text.
  destruct (parse_text_block_focus text 15 (field_56 ["A"; "C"; "D"] text) eq_refl)
    as (A0 & A1 & A & E1 & EA & F0 & F1).
  destruct (parse_text_block_focus text 16 (field_57 ["A"; "B"; "C"; "D"] text) eq_refl)
    as (B0 & B1 & B & E2 & EB & G0 & G1).
  rewrite EA in EB. injection EB as <-.
  exists A. split; [exact EA|]. split.
  - intros pre x post g Hsplit Hpre Hx.
    rewrite Hsplit in E1. rewrite (field_56_first _ _ _ _ _ _ Hpre Hx) in E1.
    injection E1 as <-.
    destruct (suffixes_56_split _ _ _ Hsplit) as [(-> & -> & ->)|[(-> & -> & ->)|(-> & -> & ->)]];
      (split; [rewrite F1 by absent_key; apply dict_get_set_same|]);
      intros y Hy; other_suffix F0 F1.
  - intros pre x post g Hsplit Hpre Hx.
    rewrite Hsplit in E2. rewrite (field_57_first _ _ _ _ _ _ Hpre Hx) in E2.
    injection E2 as <-.
    destruct (suffixes_57_split _ _ _ Hsplit)
      as [(-> & -> & ->)|[(-> & -> & ->)|[(-> & -> & ->)|(-> & -> & ->)]]];
      (split; [rewrite G1 by absent_key; apply dict_get_set_same|]);
      intros y Hy; other_suffix G0 G1.
Qed.

Lemma first_suffix_wins_witness :
  exists A : dict,
    parse_text_block both_56A_and_56D = Ok [("A", VDict A)] /\
    dict_get "F56A" A = Some (VDict [("F56A_Intermediary", VStr (txt "BANKDEFF"))]) /\
    dict_get "F56C" A = None /\ dict_get "F56D" A = None.
Proof.
  destruct (proj1 first_suffix_wins both_56A_and_56D) as (A & EA & H56 & _).
  exists A. split; [exact EA|].
  destruct (H56 [] "A" ["C"; "D"] (txt "BANKDEFF
") eq_refl) as [HA Hothers].
  - intros y [].
  - reflexivity.
  - split; [exact HA|].
    split; apply Hothers; simpl; auto.
Defined.

(** ** Blocks *)

Lemma block_pattern_capture (n : string) (message : str) (m : Match) :
  re_search (block_pattern n) message = Some m ->
  exists b, group m 1 = Some b /\ b <> [] /\ ~ In "}"%char b.
Proof.
  intros H. apply re_search_sound in H.
  destruct H as (pre & w & s' & c' & _ & Hm & ->).
  unfold block_pattern, plus in Hm. cbn [matches within] in Hm.
  break_matches. unfold group; simpl.
  eexists; split; [reflexivity|]. split.
  - intros ->. simpl in *. lia.
  - intros Hin.
    match goal with
    | Hf : forallb (is_not "}") _ = true |- _ =>
        rewrite forallb_forall in Hf; apply Hf in Hin
    end.
    discriminate Hin.
Qed.

Lemma sub_tag_needs_brace (tag : string) (header : str) (m : Match) :
  re_search (sub_tag_pattern tag) header = Some m -> In "}"%char header.
Proof.
  intros H. apply re_search_sound in H.
  destruct H as (pre & w & s' & c' & Hh & Hm & _).
  unfold sub_tag_pattern, plus in Hm. cbn [matches within] in Hm.
  break_matches.
  match goal with
  | Hw : _ ++ _ = _ ++ _ |- _ => rewrite Hw
  end.
  do 3 (apply in_or_app; right). apply in_or_app; left. simpl; auto.
Qed.

(** Without a closing brace in the header no sub-tag is found. *)
Lemma parse_user_header_no_brace (header : str) :
  ~ In "}"%char header -> parse_user_header header = [].
Proof.
  intros Hn. unfold parse_user_header, user_sub_tag.
  repeat match goal with
         | |- context [re_search (sub_tag_pattern ?t) header] =>
             let E := fresh "E" in
             destruct (re_search (sub_tag_pattern t) header) eqn:E;
             [apply sub_tag_needs_brace in E; contradiction|]
         end.
  reflexivity.
Qed.

Lemma block_3_identity (message : str) (doc : dict) : block_3 message doc = Ok doc.
Proof.
  unfold block_3. destruct (re_search _ message) as [m|] eqn:E; [|reflexivity].
  destruct (block_pattern_capture _ _ _ E) as (b & Hb & _ & Hn).
  unfold group_str. rewrite Hb. simpl.
  now rewrite (parse_user_header_no_brace b Hn).
Qed.

Lemma parse_basic_header_keys (header : str) (k : string) :
  In k (map fst (parse_basic_header header)) -> In k basic_header_keys.
Proof.
  unfold parse_basic_header. destruct (re_match _ header); simpl; tauto.
Qed.

Lemma parse_application_header_keys (header : str) (k : string) :
  In k (map fst (parse_application_header header)) -> In k application_header_keys.
Proof.
  unfold parse_application_header.
  destruct (startswith header (txt "I")); [destruct (re_match _ header); simpl; tauto|].
  destruct (startswith header (txt "O")); [destruct (re_match _ header); simpl; tauto|].
  simpl; tauto.
Qed.

Lemma block_1_frames (message : str) : frames basic_header_keys (block_1 message).
Proof.
  intros d. unfold block_1.
  destruct (re_search _ message) as [m|] eqn:E; [|eauto].
  destruct (block_pattern_capture _ _ _ E) as (b & Hb & _).
  unfold group_str. rewrite Hb. simpl. eexists; split; [reflexivity|].
  intros k Hk. apply dict_get_update_other.
  intros Hin. apply Hk. eapply parse_basic_header_keys; eauto.
Qed.

Lemma block_2_frames (message : str) : frames application_header_keys (block_2 message).
Proof.
  intros d. unfold block_2.
  destruct (re_search _ message) as [m|] eqn:E; [|eauto].
  destruct (block_pattern_capture _ _ _ E) as (b & Hb & _).
  unfold group_str. rewrite Hb. simpl. eexists; split; [reflexivity|].
  intros k Hk. apply dict_get_update_other.
  intros Hin. apply Hk. eapply parse_application_header_keys; eauto.
Qed.

Lemma block4_pattern_capture (message : str) (m : Match) :
  re_search block4_pattern message = Some m -> exists b, group m 1 = Some b.
Proof. intros H. now apply (re_search_binds _ _ _ 1 H). Qed.

Lemma block_4_frames (message : str) : frames ["A"] (block_4 message).
Proof.
  intros d. unfold block_4.
  destruct (re_search _ message) as [m|] eqn:E; [|eauto].
  destruct (block4_pattern_capture _ _ E) as (b & Hb).
  destruct (parse_text_block_total b) as [A HA].
  unfold group_str. rewrite Hb. simpl. rewrite HA. simpl.
  eexists; split; [reflexivity|].
  intros k Hk. apply dict_get_set_other. intros ->. apply Hk. now left.
Qed.

Lemma block_5_frames (message : str) : frames ["Trailer"] (block_5 message).
Proof.
  intros d. unfold block_5.
  destruct (re_search _ message) as [m|] eqn:E; [|eauto].
  eexists; split; [reflexivity|].
  intros k Hk. apply dict_get_set_other. intros ->. apply Hk. now left.
Qed.

(** The document is built block by block and the call always returns. *)
Lemma mt103_to_json_blocks (mt103_message : str) :
  exists d1 d2 d4 d5,
    block_1 (strip mt103_message) [] = Ok d1 /\
    block_2 (strip mt103_message) d1 = Ok d2 /\
    block_4 (strip mt103_message) d2 = Ok d4 /\
    block_5 (strip mt103_message) d4 = Ok d5 /\
    mt103_to_json mt103_message = Ok [("MT103", VDict d5)] /\
    (forall k, ~ In k basic_header_keys -> dict_get k d1 = None) /\
    (forall k, ~ In k application_header_keys -> dict_get k d2 = dict_get k d1) /\
    (forall k, k <> "A" -> dict_get k d4 = dict_get k d2) /\
    (forall k, k <> "Trailer" -> dict_get k d5 = dict_get k d4).
Proof.
  unfold mt103_to_json.
  destruct (block_1_frames (strip mt103_message) []) as (d1 & E1 & F1).
  destruct (block_2_frames (strip mt103_message) d1) as (d2 & E2 & F2).
  destruct (block_4_frames (strip mt103_message) d2) as (d4 & E4 & F4).
  destruct (block_5_frames (strip mt103_message) d4) as (d5 & E5 & F5).
  exists d1, d2, d4, d5.
  rewrite E1. simpl. rewrite E2. simpl. rewrite block_3_identity. simpl.
  rewrite E4. simpl. rewrite E5. simpl.
  repeat split; auto.
  - intros k Hk. apply F4. intros [H|[]]. now apply Hk.
  - intros k Hk. apply F5. intros [H|[]]. now apply Hk.
Qed.

(** No message gets a user header key: the content captured for block 3
    never holds the closing brace that every sub-tag search asks for. *)
Lemma user_header_never_decoded (mt103_message : str) (doc : dict) (k : string) :
  mt103_to_json mt103_message = Ok [("MT103", VDict doc)] ->
  In k user_header_keys -> dict_get k doc = None.
Proof.
  intros H Hk.
  destruct (mt103_to_json_blocks mt103_message)
    as (d1 & d2 & d4 & d5 & _ & _ & _ & _ & E & F1 & F2 & F4 & F5).
  rewrite E in H. injection H as <-.
  simpl in Hk.
  repeat (destruct Hk as [<-|Hk];
          [rewrite F5, F4, F2 by (try discriminate; absent_key);
           apply F1; absent_key|]).
  contradiction.
Qed.

(** C7. On a message whose block 3 nests two sub-tag groups the search for
    block 3 stops at the first closing brace: the content handed to the user
    header decoder is cut before it, no sub-tag is found in it and the
    document has no user header key, although the decoder finds both
    sub-tags in the full content.  The sample message of the test suite
    loses its MUR the same way. *)
Theorem nested_block3_cut_short :
  option_map (fun m => group m 1)
             (re_search (block_pattern "3") (strip nested_block3_message))
    = Some (Some (txt "{108:X")) /\
  parse_user_header (txt "{108:X") = [] /\
  mt103_to_json nested_block3_message = Ok [("MT103", VDict [])] /\
  parse_user_header (txt "{108:X}{121:Y}") =
    [ ("MUR", VStr (txt "X"));
      ("UniqueEndToEndTransactionReference_121", VStr (txt "Y")) ] /\
  (exists doc, mt103_to_json test_suite_message = Ok [("MT103", VDict doc)] /\
               dict_get "MUR" doc = None /\
               dict_get "UniqueEndToEndTransactionReference_121" doc = None /\
               dict_get "Service_Id" doc = Some (VStr (txt "01"))).
Proof.
  repeat split; try (vm_compute; reflexivity).
  eexists. split; [vm_compute; reflexivity|]. repeat split; vm_compute; reflexivity.
Qed.

(** ** Spans of multi-line tags *)

Lemma rep_ext {R} (g : bool) (p : ascii -> bool) (s : str) :
  forall (lo : nat) (hi : option nat) (k1 k2 : str -> option R),
    (forall s', k1 s' = k2 s') -> rep g p lo hi s k1 = rep g p lo hi s k2.
Proof.
  induction s as [|a s IH]; intros lo hi k1 k2 Hk.
  - destruct g, lo; simpl; rewrite ?Hk; reflexivity.
  - destruct g, lo; simpl; rewrite ?Hk;
      destruct (may_repeat hi && p a); simpl;
      rewrite ?(IH _ _ k1 k2 Hk); reflexivity.
Qed.

Lemma chr_eqb_sym (a b : ascii) : chr_eqb a b = chr_eqb b a.
Proof. apply Ascii.eqb_sym. Qed.

(** The tag delimiter pattern of the lookahead is the delimiter shape of the
    specification. *)
Lemma tag_delimiter_pattern (s : str) (c : caps) :
  rmatch (Lit (txt ":") >> exactly 2 is_digit >> opt is_upper >> Lit (txt ":"))
         s c (fun _ c' => Some c')
  = if tag_delimiter_at s then Some c else None.
Proof.
  unfold tag_delimiter_at.
  destruct s as [|c0 [|d1 [|d2 r]]];
    cbn -[is_digit is_upper chr_eqb]; try reflexivity;
    rewrite (chr_eqb_sym ":" c0); destruct (chr_eqb c0 ":");
    cbn -[is_digit is_upper chr_eqb]; try reflexivity.
  - destruct (is_digit d1); reflexivity.
  - destruct (is_digit d1); cbn -[is_digit is_upper chr_eqb]; [|reflexivity].
    destruct (is_digit d2); cbn -[is_digit is_upper chr_eqb]; [|reflexivity].
    destruct r as [|x [|y r]]; cbn -[is_digit is_upper chr_eqb]; try reflexivity.
    + destruct (is_upper x); cbn -[is_digit is_upper chr_eqb];
        rewrite ?(chr_eqb_sym ":" x); destruct (chr_eqb x ":"); reflexivity.
    + destruct (is_upper x); cbn -[is_digit is_upper chr_eqb];
        rewrite ?(chr_eqb_sym ":" x), ?(chr_eqb_sym ":" y);
        destruct (chr_eqb x ":"), (chr_eqb y ":"); reflexivity.
Qed.

(** The lookahead of the span patterns holds exactly at a boundary. *)
Lemma lookahead_boundary {R} (s : str) (c : caps) (k : str -> caps -> option R) :
  rmatch next_tag_or_end s c k = if boundary s then k s c else None.
Proof.
  unfold next_tag_or_end, boundary.
  change (rmatch (Ahead (Alt ?d Dollar)) s c k)
    with (match or_else (rmatch d s c (fun _ c' => Some c'))
                        (fun _ => if at_end s then Some c else None) with
          | Some c' => k s c'
          | None => None
          end).
  rewrite tag_delimiter_pattern.
  destruct (tag_delimiter_at s); simpl; [reflexivity|].
  destruct (at_end s); reflexivity.
Qed.

(** A lazy [.+?] in front of the lookahead stops at the first boundary after
    its first character. *)
Lemma lazy_to_boundary {R} (F : str -> R) (s : str) :
  rep false any_char 0 None s (fun s' => if boundary s' then Some (F s') else None)
  = Some (F (first_boundary s)).
Proof.
  induction s as [|a s IH].
  - reflexivity.
  - change (first_boundary (a :: s))
      with (if boundary (a :: s) then a :: s else first_boundary s).
    change (rep false any_char 0 None (a :: s)
              (fun s' => if boundary s' then Some (F s') else None))
      with (or_else (if boundary (a :: s) then Some (F (a :: s)) else None)
              (fun _ => rep false any_char 0 None s
                          (fun s' => if boundary s' then Some (F s') else None))).
    destruct (boundary (a :: s)); simpl; [reflexivity | exact IH].
Qed.

Lemma first_boundary_split (s : str) :
  exists w, s = w ++ first_boundary s /\
            boundary (first_boundary s) = true /\
            forall a b, w = a ++ b -> b <> [] -> boundary (b ++ first_boundary s) = false.
Proof.
  induction s as [|x s (w & Hs & Hb & Hmin)].
  - exists []. repeat split; auto.
    intros a b H Hne. destruct a, b; try discriminate. contradiction.
  - change (first_boundary (x :: s))
      with (if boundary (x :: s) then x :: s else first_boundary s).
    destruct (boundary (x :: s)) eqn:E.
    + exists []. repeat split; auto.
      intros a b H Hne. destruct a, b; try discriminate. contradiction.
    + exists (x :: w). split; [simpl; now rewrite <- Hs|]. split; [exact Hb|].
      intros a b H Hne. destruct a as [|y a]; simpl in H.
      * subst b. simpl. now rewrite <- Hs.
      * injection H as -> ->. now apply (Hmin a b).
Qed.

(** The span pattern tried at one offset. *)
Lemma span_match_here (tag : regex) (cut : str -> option str) (pos : nat) (s : str) :
  marker tag cut ->
  match_here (span_pattern tag) pos s =
  match cut s with
  | Some (c :: rest) =>
      Some (mkMatch pos (pos + (length s - length (first_boundary rest)))
              (cap_set 1 (firstn (length (c :: rest) - length (first_boundary rest))
                                 (c :: rest)) []))
  | _ => None
  end.
Proof.
  intros Hm. unfold match_here, span_pattern.
  change (rmatch (tag >> ?x) s [] ?k)
    with (rmatch tag s [] (fun s' c' => rmatch x s' c' k)).
  rewrite Hm. destruct (cut s) as [[|c rest]|]; [reflexivity| |reflexivity].
  change (rmatch (Grp 1 (lazy_plus any_char) >> next_tag_or_end) (c :: rest) [] ?k)
    with (rep false any_char 0 None rest
            (fun s' => rmatch next_tag_or_end s'
                         (cap_set 1 (firstn (length (c :: rest) - length s') (c :: rest)) [])
                         k)).
  erewrite rep_ext by (intros s'; apply lookahead_boundary).
  apply (lazy_to_boundary
           (fun s' => mkMatch pos (pos + (length s - length s'))
                        (cap_set 1 (firstn (length (c :: rest) - length s') (c :: rest)) []))).
Qed.

(** The search skips the offsets at which the pattern has no match. *)
Lemma search_from_skip (r : regex) (pre u : str) :
  forall pos,
    (forall p q, pre ++ u = p ++ q -> length p < length pre ->
                 match_here r (pos + length p) q = None) ->
    search_from r pos (pre ++ u) = search_from r (pos + length pre) u.
Proof.
  induction pre as [|a pre IH]; intros pos H; simpl.
  - now rewrite Nat.add_0_r.
  - assert (E := H [] (a :: pre ++ u) eq_refl). simpl in E.
    rewrite Nat.add_0_r in E. rewrite (E ltac:(lia)).
    rewrite IH; [f_equal; lia|].
    intros p q Hpq Hl. specialize (H (a :: p) q). simpl in H.
    rewrite Nat.add_succ_r in H. apply H; [now rewrite Hpq | lia].
Qed.

Lemma search_from_here (r : regex) (pos : nat) (s : str) (m : Match) :
  match_here r pos s = Some m -> search_from r pos s = Some m.
Proof. intros H. destruct s; simpl; now rewrite H. Qed.

Lemma marker_literal (l : str) : marker (Lit l) (strip_prefix l).
Proof. intros R s c k. reflexivity. Qed.

Lemma marker_59 : marker (Lit (txt ":59") >> opt (is_chr "A") >> Lit (txt ":")) cut_59.
Proof.
  intros R s c k. unfold cut_59, is_chr.
  destruct s as [|a [|b [|d [|e [|f r]]]]]; cbn -[chr_eqb];
    repeat match goal with
           | |- context [chr_eqb ?x ?y] =>
               lazymatch x with
               | y => fail
               | _ => first [ is_var x; rewrite (chr_eqb_sym x y)
                            | destruct (chr_eqb x y) eqn:?; cbn -[chr_eqb] ]
               end
           end;
    try reflexivity;
    try (match goal with |- context [or_else ?o _] => destruct o end; reflexivity);
    exfalso;
    repeat match goal with
           | H : chr_eqb _ _ = true |- _ => apply chr_eqb_eq in H
           end;
    congruence.
Qed.

Lemma multi_line_markers (tag : regex) (cut : str -> option str) :
  In (tag, cut) multi_line_tags -> marker tag cut.
Proof.
  unfold multi_line_tags, literal_tag. intros H. simpl in H.
  repeat (destruct H as [H|H];
          [injection H as <- <-; first [apply marker_literal | apply marker_59]|]).
  contradiction.
Qed.

Lemma spec_raw_value_app (sp post : str) :
  (forall a b, sp = a ++ b -> b <> [] -> tag_delimiter_at (b ++ post) = false) ->
  spec_raw_value (sp ++ post) = sp ++ spec_raw_value post.
Proof.
  induction sp as [|x sp IH]; intros H; [reflexivity|].
  change (spec_raw_value ((x :: sp) ++ post))
    with (if tag_delimiter_at ((x :: sp) ++ post) then []
          else x :: spec_raw_value (sp ++ post)).
  rewrite (H [] (x :: sp) eq_refl) by discriminate.
  rewrite IH; [reflexivity|].
  intros a b Hs Hb. apply (H (x :: a) b); [now rewrite Hs | exact Hb].
Qed.

Lemma boundary_cases (post : str) :
  boundary post = true ->
  post = [] \/ post = [nl] \/ (tag_delimiter_at post = true /\ exists r, post = ":"%char :: r).
Proof.
  unfold boundary. intros H. apply orb_true_iff in H. destruct H as [H|H].
  - right; right. split; [exact H|].
    destruct post as [|c0 [|d1 [|d2 r]]]; try discriminate H.
    simpl in H. destruct (chr_eqb c0 ":") eqn:E; [|discriminate H].
    apply chr_eqb_eq in E. subst. eauto.
  - destruct post as [|x [|y r]]; [now left| |discriminate H].
    right; left. simpl in H. apply chr_eqb_eq in H. now subst.
Qed.

(** C8, the code against the wording.  With no value between the marker of
    tag 70 and the next tag, the span found for 70 is the next tag itself
    and its value: a tag delimiter starts inside the span. *)
Lemma empty_value_swallows_next_tag :
  ~ stops_before_next_tag (txt ":70:") empty_70 /\
  raw_span (Lit (txt ":70:")) empty_70 = Some (txt ":71A:SHA") /\
  spec_span (txt ":70:") empty_70 = Some [] /\
  parse_text_block empty_70 =
    Ok [("A", VDict [ ("F70", VDict [("F70_PaymentDetails", VStr (txt ":71A:SHA"))]);
                      ("F71A", VDict [("F71A_ChargesCode", VStr (txt "SHA"))]) ])].
Proof.
  split; [|repeat split; vm_compute; reflexivity].
  intros H. destruct (H (txt ":71A:SHA") eq_refl) as (pre & post & _ & Hno).
  specialize (Hno [] (txt ":71A:SHA") eq_refl ltac:(discriminate)).
  discriminate Hno.
Qed.

(** C8, as the code has it.  Take any tag with a span pattern, its first
    marker in the body, and at least one character after it.  The raw span
    starts just after the marker and always holds that first character; it
    ends at a boundary (a tag delimiter, the end of the body, or the final
    line feed of the body) and no boundary lies between its second character
    and its end.  A line feed therefore ends the span only as the last
    character of the body, whatever the next line starts with, and all the
    line feeds before the boundary are part of the span.  When the value does
    not itself start with a tag delimiter, the span is the value described by
    the specification, up to that final line feed. *)
Theorem span_of_multi_line_tag :
  forall (tag : regex) (cut : str -> option str),
    In (tag, cut) multi_line_tags ->
    forall (text pre : str) (c : ascii) (rest : str),
      (forall p q, text = p ++ q -> length p < length pre -> cut q = None) ->
      (exists u, text = pre ++ u /\ cut u = Some (c :: rest)) ->
      exists sp post,
        raw_span tag text = Some sp /\
        c :: rest = sp ++ post /\
        (exists v, sp = c :: v) /\
        boundary post = true /\
        (forall a b, sp = a ++ b -> a <> [] -> b <> [] -> boundary (b ++ post) = false) /\
        (forall post', post = nl :: post' -> post' = []) /\
        (tag_delimiter_at (c :: rest) = false ->
         spec_raw_value (c :: rest) = sp \/ spec_raw_value (c :: rest) = sp ++ [nl]).
Proof.
  intros tag cut Hin text pre c rest Hfirst (u & -> & Hu).
  assert (Hm := multi_line_markers tag cut Hin).
  destruct (first_boundary_split rest) as (w & Hrest & Hb & Hmin).
  exists (c :: w), (first_boundary rest).
  assert (Hraw : raw_span tag (pre ++ u) = Some (c :: w)).
  { unfold raw_span, re_search.
    rewrite search_from_skip.
    - erewrite search_from_here.
      2:{ rewrite (span_match_here tag cut _ _ Hm), Hu. reflexivity. }
      change (Some (firstn (length (c :: rest) - length (first_boundary rest))
                           (c :: rest)) = Some (c :: w)).
      f_equal.
      assert (G : forall fb, rest = w ++ fb ->
                    firstn (length (c :: rest) - length fb) (c :: rest) = c :: w).
      { intros fb ->. apply (firstn_consumed (c :: w) fb). }
      apply G, Hrest.
    - intros p q Hpq Hl. rewrite (span_match_here tag cut _ _ Hm).
      now rewrite (Hfirst p q Hpq Hl). }
  assert (Hinner : forall a b, c :: w = a ++ b -> a <> [] -> b <> [] ->
                               boundary (b ++ first_boundary rest) = false).
  { intros a b Hs Ha Hne. destruct a as [|y a]; [contradiction|].
    injection Hs as _ Hs. now apply (Hmin a b). }
  split; [exact Hraw|]. split; [simpl; now rewrite <- Hrest|].
  split; [eauto|]. split; [exact Hb|]. split; [exact Hinner|]. split.
  - intros post' Hp. rewrite Hp in Hb.
    destruct (boundary_cases _ Hb) as [H|[H|(_ & r & H)]];
      [discriminate H | injection H as ->; reflexivity | discriminate H].
  - intros Hstart.
    assert (E : spec_raw_value (c :: rest) =
                (c :: w) ++ spec_raw_value (first_boundary rest)).
    { rewrite Hrest at 1. apply (spec_raw_value_app (c :: w)).
      intros a b Hs Hne. destruct a as [|y a].
      - simpl in Hs. subst b. simpl. rewrite <- Hrest. exact Hstart.
      - assert (Hf := Hinner (y :: a) b Hs ltac:(discriminate) Hne).
        unfold boundary in Hf. apply orb_false_iff in Hf. tauto. }
    rewrite E.
    destruct (boundary_cases _ Hb) as [H|[H|(Hd & r & H)]]; rewrite H in *.
    + left. simpl. now rewrite app_nil_r.
    + right. reflexivity.
    + left. change (spec_raw_value (":"%char :: r))
              with (if tag_delimiter_at (":"%char :: r) then []
                    else ":"%char :: spec_raw_value r).
      rewrite Hd. now rewrite app_nil_r.
Qed.

Lemma span_of_multi_line_tag_witness :
  exists sp post,
    raw_span (Lit (txt ":59") >> opt (is_chr "A") >> Lit (txt ":")) address_59 = Some sp /\
    skipn 12 address_59 = sp ++ post /\
    boundary post = true /\
    spec_raw_value (skipn 12 address_59) = sp.
Proof.
  destruct (span_of_multi_line_tag
              (Lit (txt ":59") >> opt (is_chr "A") >> Lit (txt ":")) cut_59
              ltac:(do 11 right; left; reflexivity)
              address_59 (firstn 8 address_59) "/"%char (skipn 13 address_59))
    as (sp & post & Hraw & Hsplit & _ & Hb & _ & _ & Hspec).
  - intros p q Hpq Hl. vm_compute in Hpq, Hl.
    do 8 (destruct p as [|? p];
          [simpl in Hpq; subst q; reflexivity
          |simpl in Hpq; injection Hpq as _ Hpq; apply PeanoNat.lt_S_n in Hl]).
    inversion Hl.
  - exists (skipn 8 address_59). split; reflexivity.
  - exists sp, post. split; [exact Hraw|]. split; [exact Hsplit|]. split; [exact Hb|].
    vm_compute in Hraw. injection Hraw as <-.
    reflexivity.
Defined.

(** ** Fixed-width headers *)

Lemma rmatch_first_letter {R} (a : ascii) (rest : regex) (s : str) (c : caps)
    (k : str -> caps -> option R) :
  rmatch (Lit [a] >> rest) s c k =
  if (1 <=? length s) && forallb (is_chr a) (firstn 1 s)
  then rmatch rest (skipn 1 s) c k else None.
Proof.
  destruct s as [|x s]; [reflexivity|].
  cbn -[chr_eqb]. unfold is_chr. rewrite (chr_eqb_sym x a).
  now destruct (chr_eqb a x).
Qed.

Lemma consumed_exactly (n : nat) (s : str) :
  n <= length s -> firstn (length s - length (skipn n s)) s = firstn n s.
Proof. intros H. rewrite length_skipn. f_equal. lia. Qed.

Lemma rmatch_fixed_group {R} (g n : nat) (p : ascii -> bool) (rest : regex) (s : str)
    (c : caps) (k : str -> caps -> option R) :
  rmatch (Grp g (exactly n p) >> rest) s c k =
  if (n <=? length s) && forallb p (firstn n s)
  then rmatch rest (skipn n s) (cap_set g (firstn n s) c) k else None.
Proof.
  change (rmatch (Grp g (exactly n p) >> rest) s c k)
    with (rep true p n (Some n) s
            (fun s' => rmatch rest s' (cap_set g (firstn (length s - length s') s) c) k)).
  rewrite rep_exactly.
  destruct (n <=? length s) eqn:E; [|reflexivity].
  apply Nat.leb_le in E. now rewrite consumed_exactly.
Qed.

Lemma rmatch_last_fixed_group {R} (g n : nat) (p : ascii -> bool) (s : str)
    (c : caps) (k : str -> caps -> option R) :
  rmatch (Grp g (exactly n p)) s c k =
  if (n <=? length s) && forallb p (firstn n s)
  then k (skipn n s) (cap_set g (firstn n s) c) else None.
Proof.
  change (rmatch (Grp g (exactly n p)) s c k)
    with (rep true p n (Some n) s
            (fun s' => k s' (cap_set g (firstn (length s - length s') s) c))).
  rewrite rep_exactly.
  destruct (n <=? length s) eqn:E; [|reflexivity].
  apply Nat.leb_le in E. now rewrite consumed_exactly.
Qed.

Lemma rmatch_last_letter_group {R} (g : nat) (p : ascii -> bool) (s : str)
    (c : caps) (k : str -> caps -> option R) :
  rmatch (Grp g (Cls p)) s c k =
  if (1 <=? length s) && forallb p (firstn 1 s)
  then k (skipn 1 s) (cap_set g (firstn 1 s) c) else None.
Proof.
  destruct s as [|x s]; [reflexivity|].
  change (rmatch (Grp g (Cls p)) (x :: s) c k)
    with (if p x
          then k s (cap_set g (firstn (length (x :: s) - length s) (x :: s)) c)
          else None).
  assert (E : length (x :: s) - length s = 1) by (cbn [length]; lia).
  rewrite E. cbn. now destruct (p x).
Qed.

Lemma startswith_letter (s : str) (a : ascii) :
  startswith s [a] = (1 <=? length s) && forallb (is_chr a) (firstn 1 s).
Proof.
  destruct s as [|x s]; [reflexivity|].
  unfold startswith. cbn -[chr_eqb]. unfold is_chr. rewrite (chr_eqb_sym x a).
  now destruct (chr_eqb a x).
Qed.

(** Block 1 is decoded exactly when it starts with the layout, and then by
    position. *)
Lemma parse_basic_header_layout (header : str) :
  parse_basic_header header =
  if basic_header_layout header
  then [ ("Application_Id", VStr (txt "F"));
         ("Service_Id", VStr (slice 1 3 header));
         ("LT_Address", VStr (slice 3 15 header));
         ("Session", VStr (slice 15 19 header));
         ("Sequence_No", VStr (slice 19 25 header)) ]
  else [].
Proof.
  unfold parse_basic_header, re_match, match_here, basic_header_pattern,
    basic_header_layout, basic_header_fields, slice.
  cbn [fixed_width txt list_ascii_of_string Nat.sub].
  rewrite rmatch_first_letter, !rmatch_fixed_group, rmatch_last_fixed_group.
  rewrite !skipn_skipn. cbn [Nat.add].
  repeat match goal with
         | |- context [(?n <=? length ?s) && forallb ?p (firstn ?n ?s)] =>
             destruct ((n <=? length s) && forallb p (firstn n s))
         end; reflexivity.
Qed.

Lemma first_letter_I_not_O (s : str) :
  (1 <=? length s) && forallb (is_chr "I") (firstn 1 s) = true ->
  (1 <=? length s) && forallb (is_chr "O") (firstn 1 s) = false.
Proof.
  destruct s as [|x s]; [discriminate|].
  cbn -[chr_eqb]. unfold is_chr. rewrite !andb_true_r.
  intros H. apply chr_eqb_eq in H. now subst x.
Qed.

(** Block 2 is decoded exactly when it starts with one of its two layouts. *)
Lemma parse_application_header_layout (header : str) :
  parse_application_header header =
  if fixed_width input_header_fields header
  then [ ("IO_ID", VStr (txt "I"));
         ("MT", VStr (slice 1 4 header));
         ("Recipient", VStr (slice 4 16 header));
         ("Message_Priority", VStr (slice 16 17 header)) ]
  else if fixed_width output_header_fields header
  then [ ("IO_ID", VStr (txt "O"));
         ("MT", VStr (slice 1 4 header));
         ("Input_Time", VStr (slice 4 14 header));
         ("MIR", VStr (slice 14 42 header));
         ("Message_Priority", VStr (slice 42 43 header)) ]
  else [].
Proof.
  unfold parse_application_header, re_match, match_here, input_header_pattern,
    output_header_pattern, input_header_fields, output_header_fields, slice.
  cbn [fixed_width txt list_ascii_of_string Nat.sub].
  rewrite !rmatch_first_letter, !rmatch_fixed_group, !rmatch_last_letter_group.
  rewrite !startswith_letter. rewrite !skipn_skipn. cbn [Nat.add].
  destruct ((1 <=? length header) && forallb (is_chr "I") (firstn 1 header)) eqn:EI.
  - rewrite (first_letter_I_not_O header EI).
    repeat match goal with
           | |- context [(?n <=? length ?s) && forallb ?p (firstn ?n ?s)] =>
               destruct ((n <=? length s) && forallb p (firstn n s))
           end; reflexivity.
  - repeat match goal with
           | |- context [(?n <=? length ?s) && forallb ?p (firstn ?n ?s)] =>
               destruct ((n <=? length s) && forallb p (firstn n s))
           end; reflexivity.
Qed.

Lemma fixed_width_length (fields : list (nat * (ascii -> bool))) :
  forall s, fixed_width fields s = true -> total_width fields <= length s.
Proof.
  induction fields as [|[n p] later IH]; intros s H; simpl in *; [lia|].
  apply andb_true_iff in H. destruct H as [H H3].
  apply andb_true_iff in H. destruct H as [H1 _].
  apply Nat.leb_le in H1. apply IH in H3. rewrite length_skipn in H3. lia.
Qed.

(** Only the characters of the layout are looked at. *)
Lemma fixed_width_firstn (fields : list (nat * (ascii -> bool))) :
  forall (m : nat) (s : str),
    total_width fields <= m -> fixed_width fields (firstn m s) = fixed_width fields s.
Proof.
  induction fields as [|[n p] later IH]; intros m s H; simpl in *; [reflexivity|].
  rewrite length_firstn, firstn_firstn, skipn_firstn_comm.
  rewrite (IH (m - n) (skipn n s)) by lia.
  replace (Nat.min n m) with n by lia.
  destruct (n <=? length s) eqn:E.
  - apply Nat.leb_le in E. replace (n <=? Nat.min m (length s)) with true; [reflexivity|].
    symmetry. apply Nat.leb_le. lia.
  - apply Nat.leb_gt in E. replace (n <=? Nat.min m (length s)) with false; [reflexivity|].
    symmetry. apply Nat.leb_gt. lia.
Qed.

Lemma slice_firstn (lo hi m : nat) (s : str) :
  hi <= m -> slice lo hi (firstn m s) = slice lo hi s.
Proof.
  intros H. unfold slice. rewrite skipn_firstn_comm, firstn_firstn.
  f_equal. lia.
Qed.

Lemma parse_basic_header_prefix (header : str) :
  parse_basic_header header = parse_basic_header (firstn 25 header).
Proof.
  rewrite !parse_basic_header_layout. unfold basic_header_layout.
  rewrite (fixed_width_firstn basic_header_fields 25) by (simpl; lia).
  now rewrite !slice_firstn by lia.
Qed.

Lemma parse_application_header_prefix (header : str) :
  parse_application_header header = parse_application_header (firstn 43 header).
Proof.
  rewrite !parse_application_header_layout.
  rewrite (fixed_width_firstn input_header_fields 43) by (simpl; lia).
  rewrite (fixed_width_firstn output_header_fields 43) by (simpl; lia).
  now rewrite !slice_firstn by lia.
Qed.

(** ** The document, block by block *)

Lemma dict_get_absent (k : string) (e : dict) :
  ~ In k (map fst e) -> dict_get k e = None.
Proof.
  induction e as [|[k' v'] e IH]; intros H; simpl; [reflexivity|].
  destruct (String.eqb k k') eqn:E.
  - apply String.eqb_eq in E. subst. exfalso. apply H. now left.
  - apply IH. intros Hin. apply H. now right.
Qed.

Lemma dict_get_update (k : string) (e : dict) :
  NoDup (map fst e) ->
  forall d, dict_get k (dict_update d e) =
            match dict_get k e with
            | Some v => Some v
            | None => dict_get k d
            end.
Proof.
  unfold dict_update.
  induction e as [|[k' v'] e IH]; intros Hnd d; simpl; [reflexivity|].
  inversion Hnd as [|? ? Hnotin Hnd']; subst.
  rewrite IH by assumption.
  destruct (String.eqb k k') eqn:E.
  - apply String.eqb_eq in E. subst k'.
    rewrite (dict_get_absent k e Hnotin). apply dict_get_set_same.
  - destruct (dict_get k e); [reflexivity|].
    apply dict_get_set_other. intros ->. now rewrite String.eqb_refl in E.
Qed.

Lemma parse_basic_header_NoDup (h : str) : NoDup (map fst (parse_basic_header h)).
Proof.
  rewrite parse_basic_header_layout.
  destruct (basic_header_layout h);
    cbn [map fst]; repeat (constructor; [absent_key|]); constructor.
Qed.

Lemma parse_application_header_NoDup (h : str) :
  NoDup (map fst (parse_application_header h)).
Proof.
  rewrite parse_application_header_layout.
  destruct (fixed_width input_header_fields h),
           (fixed_width output_header_fields h);
    cbn [map fst]; repeat (constructor; [absent_key|]); constructor.
Qed.

Lemma block_1_result (mt103_message : str) (d : dict) :
  block_1 (strip mt103_message) d =
  Ok match block_content "1" mt103_message with
     | Some h => dict_update d (parse_basic_header h)
     | None => d
     end.
Proof.
  unfold block_1, block_content.
  destruct (re_search _ (strip mt103_message)) as [m|] eqn:E; [|reflexivity].
  destruct (block_pattern_capture _ _ _ E) as (b & Hb & _).
  unfold group_str. now rewrite Hb.
Qed.

Lemma block_2_result (mt103_message : str) (d : dict) :
  block_2 (strip mt103_message) d =
  Ok match block_content "2" mt103_message with
     | Some h => dict_update d (parse_application_header h)
     | None => d
     end.
Proof.
  unfold block_2, block_content.
  destruct (re_search _ (strip mt103_message)) as [m|] eqn:E; [|reflexivity].
  destruct (block_pattern_capture _ _ _ E) as (b & Hb & _).
  unfold group_str. now rewrite Hb.
Qed.

Lemma block_4_result (mt103_message : str) (d : dict) :
  match block4_content mt103_message with
  | Some b => exists A, parse_text_block b = Ok [("A", VDict A)] /\
                        block_4 (strip mt103_message) d = Ok (dict_set "A" (VDict A) d)
  | None => block_4 (strip mt103_message) d = Ok d
  end.
Proof.
  unfold block_4, block4_content.
  destruct (re_search _ (strip mt103_message)) as [m|] eqn:E; [|reflexivity].
  destruct (block4_pattern_capture _ _ E) as (b & Hb).
  rewrite Hb. destruct (parse_text_block_total b) as [A HA].
  exists A. split; [exact HA|].
  unfold group_str. rewrite Hb. simpl. now rewrite HA.
Qed.

(** Each block's keys in the document come from that block alone. *)
Lemma document_by_block (mt103_message : str) :
  exists doc,
    mt103_to_json mt103_message = Ok [("MT103", VDict doc)] /\
    (forall k, In k basic_header_keys ->
       dict_get k doc =
       match block_content "1" mt103_message with
       | Some h => dict_get k (parse_basic_header h)
       | None => None
       end) /\
    (forall k, In k application_header_keys ->
       dict_get k doc =
       match block_content "2" mt103_message with
       | Some h => dict_get k (parse_application_header h)
       | None => None
       end) /\
    match block4_content mt103_message with
    | Some b => exists A, parse_text_block b = Ok [("A", VDict A)] /\
                          dict_get "A" doc = Some (VDict A)
    | None => dict_get "A" doc = None
    end.
Proof.
  destruct (mt103_to_json_blocks mt103_message)
    as (d1 & d2 & d4 & d5 & E1 & E2 & E4 & E5 & E & F1 & F2 & F4 & F5).
  exists d5. split; [exact E|].
  rewrite block_1_result in E1. injection E1 as E1.
  rewrite block_2_result in E2. injection E2 as E2.
  split; [|split].
  - intros k Hk.
    assert (Hd : dict_get k d5 = dict_get k d1).
    { simpl in Hk.
      repeat (destruct Hk as [<-|Hk];
              [rewrite F5, F4, F2 by (try discriminate; absent_key); reflexivity|]).
      contradiction. }
    rewrite Hd, <- E1.
    destruct (block_content "1" mt103_message) as [h|]; [|reflexivity].
    rewrite dict_get_update by apply parse_basic_header_NoDup.
    now destruct (dict_get k (parse_basic_header h)).
  - intros k Hk.
    assert (Hd : dict_get k d5 = dict_get k d2).
    { simpl in Hk.
      repeat (destruct Hk as [<-|Hk];
              [rewrite F5, F4 by discriminate; reflexivity|]).
      contradiction. }
    assert (H1 : dict_get k d1 = None).
    { apply F1. simpl in Hk.
      repeat (destruct Hk as [<-|Hk]; [absent_key|]). contradiction. }
    rewrite Hd, <- E2.
    destruct (block_content "2" mt103_message) as [h|]; [|exact H1].
    rewrite dict_get_update by apply parse_application_header_NoDup.
    rewrite H1. now destruct (dict_get k (parse_application_header h)).
  - assert (H2 : dict_get "A" d2 = None).
    { rewrite F2 by absent_key. apply F1. absent_key. }
    rewrite F5 by discriminate.
    assert (B := block_4_result mt103_message d2).
    destruct (block4_content mt103_message) as [b|].
    + destruct B as (A & HA & B). rewrite B in E4. injection E4 as <-.
      exists A. split; [exact HA | apply dict_get_set_same].
    + rewrite B in E4. injection E4 as <-. exact H2.
Qed.

(** The stanza at place [i] finds nothing: its key is not in the result. *)
Ltac key_absent text EA i f :=
  let A0 := fresh "A0" in
  let A1 := fresh "A1" in
  let A' := fresh "A'" in
  let E1 := fresh "E1" in
  let EA' := fresh "EA'" in
  let F0 := fresh "F0" in
  let F1 := fresh "F1" in
  destruct (parse_text_block_focus text i f eq_refl)
    as (A0 & A1 & A' & E1 & EA' & F0 & F1);
  rewrite EA in EA'; injection EA' as <-;
  cbv delta [field_20 field_23B field_23E field_26T field_32A field_33B field_36
             field_50F field_50K field_51A field_52D field_52A field_53B field_54A
             field_59 field_70 field_71A field_71G field_72 field_77B] in E1;
  cbv beta in E1;
  lazymatch goal with
  | Hn : re_search ?r text = None |- _ =>
      lazymatch type of E1 with
      | context [re_search ?r' text] =>
          change (re_search r' text) with (re_search r text) in E1;
          rewrite Hn in E1
      end
  end;
  cbv beta iota in E1;
  try match type of E1 with
      | context [negb ?b] => destruct b; cbv beta iota delta [negb] in E1
      end;
  injection E1 as <-;
  rewrite F1 by absent_key; apply F0; absent_key.

Lemma unmatched_grammar_no_key (text : str) (A : dict) :
  parse_text_block text = Ok [("A", VDict A)] ->
  forall key r, In (key, r) field_grammars ->
                re_search r text = None -> dict_get key A = None.
Proof.
  intros EA key r Hin Hn. unfold field_grammars in Hin. cbn [In] in Hin.
  destruct Hin as [H|Hin]; [injection H as <- <-; key_absent text EA 0 (field_20 text)|].
  destruct Hin as [H|Hin]; [injection H as <- <-; key_absent text EA 2 (field_23B text)|].
  destruct Hin as [H|Hin]; [injection H as <- <-; key_absent text EA 3 (field_23E text)|].
  destruct Hin as [H|Hin]; [injection H as <- <-; key_absent text EA 4 (field_26T text)|].
  destruct Hin as [H|Hin]; [injection H as <- <-; key_absent text EA 5 (field_32A text)|].
  destruct Hin as [H|Hin]; [injection H as <- <-; key_absent text EA 6 (field_33B text)|].
  destruct Hin as [H|Hin]; [injection H as <- <-; key_absent text EA 7 (field_36 text)|].
  destruct Hin as [H|Hin]; [injection H as <- <-; key_absent text EA 8 (field_50F text)|].
  destruct Hin as [H|Hin]; [injection H as <- <-; key_absent text EA 9 (field_50K text)|].
  destruct Hin as [H|Hin]; [injection H as <- <-; key_absent text EA 10 (field_51A text)|].
  destruct Hin as [H|Hin]; [injection H as <- <-; key_absent text EA 11 (field_52D text)|].
  destruct Hin as [H|Hin]; [injection H as <- <-; key_absent text EA 12 (field_52A text)|].
  destruct Hin as [H|Hin]; [injection H as <- <-; key_absent text EA 13 (field_53B text)|].
  destruct Hin as [H|Hin]; [injection H as <- <-; key_absent text EA 14 (field_54A text)|].
  destruct Hin as [H|Hin]; [injection H as <- <-; key_absent text EA 17 (field_59 text)|].
  destruct Hin as [H|Hin]; [injection H as <- <-; key_absent text EA 18 (field_70 text)|].
  destruct Hin as [H|Hin]; [injection H as <- <-; key_absent text EA 19 (field_71A text)|].
  destruct Hin as [H|Hin]; [injection H as <- <-; key_absent text EA 21 (field_71G text)|].
  destruct Hin as [H|Hin]; [injection H as <- <-; key_absent text EA 22 (field_72 text)|].
  destruct Hin as [H|Hin]; [injection H as <- <-; key_absent text EA 23 (field_77B text)|].
  contradiction.
Qed.

(** C9, the code against the wording.  A block 1 of 26 characters, one more
    than the layout, is of the wrong length, and the document still has the
    basic header keys, decoded from its first 25 characters. *)
Lemma overlong_header_still_decoded :
  ~ wrong_length_drops_header /\
  block_content "1" overlong_block1_message = Some (txt "F01TESTBANK0XXX0001000001X") /\
  length (txt "F01TESTBANK0XXX0001000001X") = 26 /\
  mt103_to_json overlong_block1_message =
    Ok [("MT103", VDict [ ("Application_Id", VStr (txt "F"));
                          ("Service_Id", VStr (txt "01"));
                          ("LT_Address", VStr (txt "TESTBANK0XXX"));
                          ("Session", VStr (txt "0001"));
                          ("Sequence_No", VStr (txt "000001")) ])].
Proof.
  split; [|repeat split; vm_compute; reflexivity].
  intros H.
  assert (E1 : block_content "1" overlong_block1_message
               = Some (txt "F01TESTBANK0XXX0001000001X")) by (vm_compute; reflexivity).
  assert (E2 : length (txt "F01TESTBANK0XXX0001000001X") <> 25)
    by (vm_compute; discriminate).
  assert (E3 : mt103_to_json overlong_block1_message =
               Ok [("MT103", VDict [ ("Application_Id", VStr (txt "F"));
                                     ("Service_Id", VStr (txt "01"));
                                     ("LT_Address", VStr (txt "TESTBANK0XXX"));
                                     ("Session", VStr (txt "0001"));
                                     ("Sequence_No", VStr (txt "000001")) ])])
    by (vm_compute; reflexivity).
  assert (E4 : In "Service_Id" basic_header_keys) by (simpl; tauto).
  specialize (H _ _ _ E1 E2 E3 "Service_Id" E4).
  discriminate H.
Qed.

(** C9, as the code has it.  [mt103_to_json] returns a document for every
    input and raises nothing.  In the document the keys of block 1, of block
    2 and of block 4 come from that block alone: they are absent when the
    block is not found and are otherwise what the block's decoder returns,
    whatever the other blocks hold.  The decoder of block 1 returns no key
    exactly when the content does not start with the 25 characters of the
    fixed-width layout, as when it is shorter or has a character outside its
    class; what follows the 25 characters is not looked at.  The same holds
    for block 2 with its two layouts of 17 and 43 characters.  In block 4
    the key of a tag is absent whenever the tag's grammar finds no match. *)
Theorem lenient_decoding :
  (forall mt103_message : str, exists doc,
     mt103_to_json mt103_message = Ok [("MT103", VDict doc)] /\
     (forall k, In k basic_header_keys ->
        dict_get k doc =
        match block_content "1" mt103_message with
        | Some h => dict_get k (parse_basic_header h)
        | None => None
        end) /\
     (forall k, In k application_header_keys ->
        dict_get k doc =
        match block_content "2" mt103_message with
        | Some h => dict_get k (parse_application_header h)
        | None => None
        end) /\
     match block4_content mt103_message with
     | Some b => exists A, parse_text_block b = Ok [("A", VDict A)] /\
                           dict_get "A" doc = Some (VDict A)
     | None => dict_get "A" doc = None
     end) /\
  (forall h : str,
     (length h < 25 -> parse_basic_header h = []) /\
     (basic_header_layout h = false -> parse_basic_header h = []) /\
     (basic_header_layout h = true -> parse_basic_header h <> []) /\
     parse_basic_header h = parse_basic_header (firstn 25 h)) /\
  (forall h : str,
     (length h < 17 -> parse_application_header h = []) /\
     (application_header_layout h = false -> parse_application_header h = []) /\
     (application_header_layout h = true -> parse_application_header h <> []) /\
     parse_application_header h = parse_application_header (firstn 43 h)) /\
  (forall text : str, exists A,
     parse_text_block text = Ok [("A", VDict A)] /\
     forall key r, In (key, r) field_grammars ->
                   re_search r text = None -> dict_get key A = None) /\
  mt103_to_json short_block1_message =
    Ok [("MT103", VDict [ ("IO_ID", VStr (txt "I"));
                          ("MT", VStr (txt "103"));
                          ("Recipient", VStr (txt "TESTBANK1XXX"));
                          ("Message_Priority", VStr (txt "N"));
                          ("A", VDict [("F20", VDict [("F20_TRN", VStr (txt "TEST-001"))])]) ])] /\
  mt103_to_json bad_block2_message =
    Ok [("MT103", VDict [ ("Application_Id", VStr (txt "F"));
                          ("Service_Id", VStr (txt "01"));
                          ("LT_Address", VStr (txt "TESTBANK0XXX"));
                          ("Session", VStr (txt "0001"));
                          ("Sequence_No", VStr (txt "000001"));
                          ("A", VDict [("F20", VDict [("F20_TRN", VStr (txt "TEST-001"))])]) ])].
Proof.
  split; [exact document_by_block|].
  split; [|split; [|split; [|split; vm_compute; reflexivity]]].
  - intros h.
    assert (Hfalse : basic_header_layout h = false -> parse_basic_header h = []).
    { intros E. rewrite parse_basic_header_layout. now rewrite E. }
    repeat split.
    + intros Hl. apply Hfalse.
      destruct (basic_header_layout h) eqn:E; [|reflexivity].
      apply fixed_width_length in E. cbv [total_width basic_header_fields fold_right fst] in E.
      lia.
    + exact Hfalse.
    + intros E. rewrite parse_basic_header_layout, E. discriminate.
    + apply parse_basic_header_prefix.
  - intros h.
    assert (Hfalse : application_header_layout h = false ->
                     parse_application_header h = []).
    { unfold application_header_layout. intros E.
      apply orb_false_iff in E. destruct E as [E1 E2].
      rewrite parse_application_header_layout. now rewrite E1, E2. }
    repeat split.
    + intros Hl. apply Hfalse. unfold application_header_layout.
      apply orb_false_iff. split.
      * destruct (fixed_width input_header_fields h) eqn:E; [|reflexivity].
        apply fixed_width_length in E. cbv [total_width input_header_fields fold_right fst] in E.
        lia.
      * destruct (fixed_width output_header_fields h) eqn:E; [|reflexivity].
        apply fixed_width_length in E. cbv [total_width output_header_fields fold_right fst] in E.
        lia.
    + exact Hfalse.
    + unfold application_header_layout. intros E.
      rewrite parse_application_header_layout.
      destruct (fixed_width input_header_fields h); [discriminate|].
      cbn [orb] in E. rewrite E. discriminate.
    + apply parse_application_header_prefix.
  - intros text. destruct (parse_text_block_total text) as [A EA].
    exists A. split; [exact EA|]. now apply unmatched_grammar_no_key.
Qed.

Lemma lenient_decoding_witness :
  length (txt "F01TESTBANK0XXX000100000") < 25 /\
  parse_basic_header (txt "F01TESTBANK0XXX000100000") = [] /\
  exists A, parse_text_block (txt ":20:TEST-001
:32A:24-01-01USD10000") = Ok [("A", VDict A)] /\ dict_get "F32A" A = None.
Proof.
  destruct lenient_decoding as (_ & Hbasic & _ & Hfields & _).
  split; [vm_compute; lia|].
  split; [apply (Hbasic (txt "F01TESTBANK0XXX000100000")); vm_compute; lia|].
  destruct (Hfields (txt ":20:TEST-001
:32A:24-01-01USD10000")) as (A & EA & Hkeys).
  exists A. split; [exact EA|].
  apply (Hkeys "F32A" field_32A_pattern); [|reflexivity].
  unfold field_grammars. do 4 right. left. reflexivity.
Defined.

(** C10.  [mt103_to_json] returns for every input string: its result is a
    dictionary whose only key is MT103, and it raises nothing.  When none of
    the five block searches finds a block, as for the empty string, the
    result is the dictionary with an empty MT103 entry. *)
Theorem mt103_to_json_total :
  (forall mt103_message : str, exists doc,
     mt103_to_json mt103_message = Ok [("MT103", VDict doc)] /\
     dict_mem "MT103" [("MT103", VDict doc)] = true) /\
  (forall mt103_message : str,
     (forall n, In n ["1"; "2"; "3"; "5"] ->
                re_search (block_pattern n) (strip mt103_message) = None) ->
     re_search block4_pattern (strip mt103_message) = None ->
     mt103_to_json mt103_message = Ok [("MT103", VDict [])]) /\
  mt103_to_json [] = Ok [("MT103", VDict [])] /\
  mt103_to_json (txt "no SWIFT block in this text: {9:x} :20:REF") =
    Ok [("MT103", VDict [])].
Proof.
  split; [|split; [|split; vm_compute; reflexivity]].
  - intros m. destruct (document_by_block m) as (doc & E & _).
    exists doc. split; [exact E | reflexivity].
  - intros m Hn H4.
    unfold mt103_to_json, block_1, block_2, block_3, block_4, block_5.
    rewrite (Hn "1"), (Hn "2"), (Hn "3"), (Hn "5"), H4 by (simpl; tauto).
    reflexivity.
Qed.

Lemma mt103_to_json_total_witness :
  mt103_to_json (txt "  plain text, no block  ") = Ok [("MT103", VDict [])].
Proof.
  apply (proj1 (proj2 mt103_to_json_total)).
  - intros n Hn. simpl in Hn.
    repeat (destruct Hn as [<-|Hn]; [vm_compute; reflexivity|]). contradiction.
  - vm_compute; reflexivity.
Defined.

(** * Further properties of the decoders *)

(** ** Headers, field by field *)

Lemma firstn_then_firstn {A} (a b : nat) (l : list A) :
  firstn a l ++ firstn b (skipn a l) = firstn (a + b) l.
Proof.
  revert l; induction a as [|a IH]; intros l; [reflexivity|].
  destruct l as [|x l]; simpl.
  - now rewrite firstn_nil.
  - now rewrite IH.
Qed.

Lemma slice_join (lo mid hi : nat) (s : str) :
  lo <= mid -> mid <= hi -> slice lo mid s ++ slice mid hi s = slice lo hi s.
Proof.
  intros H1 H2. unfold slice.
  replace (skipn mid s) with (skipn (mid - lo) (skipn lo s))
    by (rewrite skipn_skipn; f_equal; lia).
  rewrite firstn_then_firstn. f_equal. lia.
Qed.

Lemma slice_length (lo hi : nat) (s : str) :
  hi <= length s -> length (slice lo hi s) = hi - lo.
Proof. intros H. unfold slice. rewrite length_firstn, length_skipn. lia. Qed.

Lemma first_letter (a : ascii) (s : str) :
  (1 <=? length s) && forallb (is_chr a) (firstn 1 s) = true -> slice 0 1 s = [a].
Proof.
  destruct s as [|x s]; [discriminate|].
  cbn -[chr_eqb]. unfold is_chr. rewrite andb_true_r.
  intros H. apply chr_eqb_eq in H. now subst.
Qed.

Ltac split_layout H :=
  repeat match type of H with
         | _ && _ = true =>
             let H1 := fresh "L" in
             apply andb_true_iff in H; destruct H as [H H1]
         end;
  repeat match goal with
         | L : _ && _ = true |- _ =>
             let L1 := fresh "L" in
             apply andb_true_iff in L; destruct L as [L L1]
         end;
  repeat match goal with
         | L : (_ <=? _) = true |- _ => apply Nat.leb_le in L; rewrite ?length_skipn in L
         end.

(** X1. Block 1 decoded by position: the five values put end to end are the
    first 25 characters of the header, and each value has the width and the
    character class of its field. *)
Theorem basic_header_round_trip (header : str) :
  basic_header_layout header = true ->
  exists service lt_address session sequence,
    parse_basic_header header =
      [ ("Application_Id", VStr (txt "F")); ("Service_Id", VStr service);
        ("LT_Address", VStr lt_address); ("Session", VStr session);
        ("Sequence_No", VStr sequence) ] /\
    txt "F" ++ service ++ lt_address ++ session ++ sequence = firstn 25 header /\
    length service = 2 /\ forallb is_digit service = true /\
    length lt_address = 12 /\ forallb is_upper_or_digit lt_address = true /\
    length session = 4 /\ forallb is_digit session = true /\
    length sequence = 6 /\ forallb is_digit sequence = true.
Proof.
  intros H.
  exists (slice 1 3 header), (slice 3 15 header), (slice 15 19 header),
    (slice 19 25 header).
  split; [now rewrite parse_basic_header_layout, H|].
  unfold basic_header_layout, basic_header_fields in H.
  cbn [fixed_width] in H. rewrite !skipn_skipn in H. cbn [Nat.add] in H.
  rewrite !andb_true_r in H.
  apply andb_true_iff in H. destruct H as [HF H].
  apply first_letter in HF. split_layout H.
  split.
  - change (txt "F") with ["F"%char]. rewrite <- HF.
    rewrite !slice_join by lia. reflexivity.
  - rewrite !slice_length by lia. repeat split; assumption.
Qed.

Lemma basic_header_round_trip_witness :
  exists service lt_address session sequence,
    parse_basic_header (txt "F01PTSBCHSSAXXX0001000001") =
      [ ("Application_Id", VStr (txt "F")); ("Service_Id", VStr service);
        ("LT_Address", VStr lt_address); ("Session", VStr session);
        ("Sequence_No", VStr sequence) ] /\
    txt "F" ++ service ++ lt_address ++ session ++ sequence
      = txt "F01PTSBCHSSAXXX0001000001".
Proof.
  destruct (basic_header_round_trip (txt "F01PTSBCHSSAXXX0001000001") eq_refl)
    as (a & b & c & d & H1 & H2 & _).
  exists a, b, c, d. split; [exact H1 | exact H2].
Defined.

(** X2. Block 2 decoded by position, in its input and in its output layout: the
    values put end to end are the first 17 (input) or 43 (output) characters
    of the header, each with the width and class of its field; a header that
    starts with neither direction letter gives nothing. *)
Theorem application_header_round_trip (header : str) :
  (fixed_width input_header_fields header = true ->
   exists mt recipient priority,
     parse_application_header header =
       [ ("IO_ID", VStr (txt "I")); ("MT", VStr mt); ("Recipient", VStr recipient);
         ("Message_Priority", VStr priority) ] /\
     txt "I" ++ mt ++ recipient ++ priority = firstn 17 header /\
     length mt = 3 /\ forallb is_digit mt = true /\
     length recipient = 12 /\ forallb is_upper_or_digit recipient = true /\
     length priority = 1 /\ forallb is_upper priority = true) /\
  (fixed_width output_header_fields header = true ->
   exists mt input_time mir priority,
     parse_application_header header =
       [ ("IO_ID", VStr (txt "O")); ("MT", VStr mt); ("Input_Time", VStr input_time);
         ("MIR", VStr mir); ("Message_Priority", VStr priority) ] /\
     txt "O" ++ mt ++ input_time ++ mir ++ priority = firstn 43 header /\
     length mt = 3 /\ forallb is_digit mt = true /\
     length input_time = 10 /\ forallb is_digit input_time = true /\
     length mir = 28 /\ forallb is_upper_or_digit mir = true /\
     length priority = 1 /\ forallb is_upper priority = true) /\
  (startswith header (txt "I") = false -> startswith header (txt "O") = false ->
   parse_application_header header = []).
Proof.
  split; [|split].
  - intros H.
    exists (slice 1 4 header), (slice 4 16 header), (slice 16 17 header).
    split; [now rewrite parse_application_header_layout, H|].
    unfold input_header_fields in H.
    cbn [fixed_width] in H. rewrite !skipn_skipn in H. cbn [Nat.add] in H.
    rewrite !andb_true_r in H.
    apply andb_true_iff in H. destruct H as [HF H].
    apply first_letter in HF. split_layout H.
    split.
    + change (txt "I") with ["I"%char]. rewrite <- HF.
      rewrite !slice_join by lia. reflexivity.
    + rewrite !slice_length by lia. repeat split; assumption.
  - intros H.
    exists (slice 1 4 header), (slice 4 14 header), (slice 14 42 header),
      (slice 42 43 header).
    split.
    { rewrite parse_application_header_layout, H.
      destruct (fixed_width input_header_fields header) eqn:EI; [|reflexivity].
      exfalso. unfold input_header_fields, output_header_fields in *.
      cbn [fixed_width] in *.
      apply andb_true_iff in EI. destruct EI as [EI _].
      apply andb_true_iff in H. destruct H as [H _].
      rewrite (first_letter_I_not_O header EI) in H. discriminate H. }
    unfold output_header_fields in H.
    cbn [fixed_width] in H. rewrite !skipn_skipn in H. cbn [Nat.add] in H.
    rewrite !andb_true_r in H.
    apply andb_true_iff in H. destruct H as [HF H].
    apply first_letter in HF. split_layout H.
    split.
    + change (txt "O") with ["O"%char]. rewrite <- HF.
      rewrite !slice_join by lia. reflexivity.
    + rewrite !slice_length by lia. repeat split; assumption.
  - intros HI HO. unfold parse_application_header. now rewrite HI, HO.
Qed.

Lemma application_header_round_trip_witness :
  (exists mt recipient priority,
     parse_application_header (txt "I103PTSBCHSSXXXXN") =
       [ ("IO_ID", VStr (txt "I")); ("MT", VStr mt); ("Recipient", VStr recipient);
         ("Message_Priority", VStr priority) ] /\
     txt "I" ++ mt ++ recipient ++ priority = txt "I103PTSBCHSSXXXXN") /\
  (exists mt input_time mir priority,
     parse_application_header (txt "O1030919010321BBBBGRA0AXXX0057000171010321N") =
       [ ("IO_ID", VStr (txt "O")); ("MT", VStr mt); ("Input_Time", VStr input_time);
         ("MIR", VStr mir); ("Message_Priority", VStr priority) ] /\
     txt "O" ++ mt ++ input_time ++ mir ++ priority
       = txt "O1030919010321BBBBGRA0AXXX0057000171010321N") /\
  parse_application_header (txt "X103PTSBCHSSXXXXN") = [].
Proof.
  split; [|split].
  - destruct (proj1 (application_header_round_trip (txt "I103PTSBCHSSXXXXN")) eq_refl)
      as (a & b & c & H1 & H2 & _).
    exists a, b, c. split; [exact H1 | exact H2].
  - destruct (proj1 (proj2 (application_header_round_trip
                              (txt "O1030919010321BBBBGRA0AXXX0057000171010321N")))
                    eq_refl)
      as (a & b & c & d & H1 & H2 & _).
    exists a, b, c, d. split; [exact H1 | exact H2].
  - apply (proj2 (proj2 (application_header_round_trip (txt "X103PTSBCHSSXXXXN"))));
      reflexivity.
Defined.

(** ** Time indications *)

Lemma Forall2_Forall_r {A B} (R : A -> B -> Prop) (P : B -> Prop) (l : list A)
    (l' : list B) :
  Forall2 R l l' -> (forall x y, In x l -> R x y -> P y) -> Forall P l'.
Proof.
  induction 1 as [|x y l l' Hxy _ IH]; intros H; constructor.
  - apply (H x y); [now left | exact Hxy].
  - apply IH. intros a b Ha. apply H. now right.
Qed.

Lemma Forall2_length_eq {A B} (R : A -> B -> Prop) (l : list A) (l' : list B) :
  Forall2 R l l' -> length l' = length l.
Proof. induction 1; simpl; congruence. Qed.

Lemma firstn_consumed_one (x : ascii) (r : str) :
  firstn (length (x :: r) - length r) (x :: r) = [x].
Proof. exact (firstn_consumed [x] r). Qed.

Lemma time_indication_of_match (pos : nat) (u : str) (m : Match) (v : value) :
  match_here field_13c_pattern pos u = Some m ->
  time_indication m = Ok v -> time_indication_shape v.
Proof.
  intros H Hv. apply match_here_sound in H.
  destruct H as (w & s' & c' & _ & Hm & ->).
  unfold field_13c_pattern, exactly, plus in Hm. cbn [matches within] in Hm.
  break_matches.
  unfold time_indication, group_str, group_value, group in Hv.
  cbn [cap_get cap_set m_groups Nat.eqb bind] in Hv.
  rewrite firstn_consumed_one in Hv.
  injection Hv as <-.
  match goal with
  | Hc : forallb (is_not "/") ?code = true,
    Ht : forallb is_digit ?t = true,
    Hs : plus_or_minus ?sg = true,
    Ho : forallb is_digit ?o = true |- _ =>
      assert (Lt : length t = 4) by lia;
      assert (Lo : length o = 4) by lia;
      exists code, (firstn 2 t), (skipn 2 t), sg, (firstn 2 o), (skipn 2 o)
  end.
  unfold clock.
  rewrite !length_firstn, !length_skipn, !firstn_skipn.
  repeat split; try assumption; try lia.
  - intros ->. simpl in *. lia.
  - intros Hin.
    match goal with
    | Hc : forallb (is_not "/") _ = true |- _ =>
        rewrite forallb_forall in Hc; apply Hc in Hin
    end.
    discriminate Hin.
  - match goal with
    | Hs : plus_or_minus ?sg = true |- _ =>
        unfold plus_or_minus in Hs; apply orb_true_iff in Hs;
        destruct Hs as [Hs|Hs]; apply chr_eqb_eq in Hs; auto
    end.
Qed.

(** X3. Every element [parse_field_13c] returns has the shape above, and there
    is one element per match, for every text. *)
Theorem parse_field_13c_shape (text : str) :
  exists tis,
    parse_field_13c text = Ok tis /\
    length tis = length (re_finditer field_13c_pattern text) /\
    Forall time_indication_shape tis.
Proof.
  destruct (parse_field_13c_total text) as (tis & E & HF).
  exists tis. split; [exact E|]. split; [exact (Forall2_length_eq _ _ _ HF)|].
  apply (Forall2_Forall_r _ _ _ _ HF). intros m v Hin Hv.
  apply finditer_from_In in Hin. destruct Hin as (pos & u & Hm).
  exact (time_indication_of_match _ _ _ _ Hm Hv).
Qed.

(** ** Lines *)

Lemma split_lines_one (s : str) : ~ In nl s -> split_lines s = [s].
Proof.
  induction s as [|c s IH]; intros H; [reflexivity|].
  simpl. destruct (chr_eqb c nl) eqn:E.
  - apply chr_eqb_eq in E. subst. exfalso. apply H. now left.
  - rewrite IH; [reflexivity|]. intros Hin. apply H. now right.
Qed.

Lemma split_lines_cut (a b : str) :
  ~ In nl a -> split_lines (a ++ nl :: b) = a :: split_lines b.
Proof.
  induction a as [|c a IH]; intros H.
  - cbn -[chr_eqb nl]. now rewrite chr_eqb_refl.
  - simpl. destruct (chr_eqb c nl) eqn:E.
    + apply chr_eqb_eq in E. subst. exfalso. apply H. now left.
    + rewrite IH; [reflexivity|]. intros Hin. apply H. now right.
Qed.

Lemma split_first_line_one (s : str) : ~ In nl s -> split_first_line s = [s].
Proof.
  induction s as [|c s IH]; intros H; [reflexivity|].
  simpl. destruct (chr_eqb c nl) eqn:E.
  - apply chr_eqb_eq in E. subst. exfalso. apply H. now left.
  - rewrite IH; [reflexivity|]. intros Hin. apply H. now right.
Qed.

Lemma split_first_line_cut (a b : str) :
  ~ In nl a -> split_first_line (a ++ nl :: b) = [a; b].
Proof.
  induction a as [|c a IH]; intros H.
  - cbn -[chr_eqb nl]. now rewrite chr_eqb_refl.
  - simpl. destruct (chr_eqb c nl) eqn:E.
    + apply chr_eqb_eq in E. subst. exfalso. apply H. now left.
    + rewrite IH; [reflexivity|]. intros Hin. apply H. now right.
Qed.

(** Joining the lines of a string with line feeds gives the string back. *)
Lemma join_split_lines (s : str) : join_lines (split_lines s) = s.
Proof.
  induction s as [|c s IH]; [reflexivity|].
  simpl. destruct (split_lines s) as [|l ls] eqn:E.
  - destruct s; simpl in E; [discriminate|].
    destruct (chr_eqb a nl); [discriminate|]. destruct (split_lines s); discriminate.
  - destruct (chr_eqb c nl) eqn:Ec.
    + apply chr_eqb_eq in Ec. subst c.
      change (join_lines ([] :: l :: ls)) with (nl :: join_lines (l :: ls)).
      now rewrite IH.
    + destruct ls as [|l' ls'].
      * simpl in *. now rewrite IH.
      * change (join_lines ((c :: l) :: l' :: ls'))
          with (c :: (l ++ nl :: join_lines (l' :: ls'))).
        change (join_lines (l :: l' :: ls'))
          with (l ++ nl :: join_lines (l' :: ls')) in IH.
        now rewrite IH.
Qed.

(** X4. Field 50F cut at its first line feed: the party identifier is the first
    line of the stripped value, the name and address are all that follows
    the first line feed, kept as it is; a value of one line has no name and
    address key. *)
Theorem parse_field_50f_lines (value : str) :
  (~ In nl (strip value) ->
   parse_field_50f value = [("F50F_PartyIdentifier", VStr (strip value))]) /\
  (forall first others,
     strip value = first ++ nl :: others -> ~ In nl first ->
     parse_field_50f value =
       [ ("F50F_PartyIdentifier", VStr first); ("F50F_NameAddr", VStr others) ]).
Proof.
  unfold parse_field_50f. split.
  - intros H. now rewrite (split_lines_one _ H).
  - intros first others E H. rewrite E, (split_lines_cut _ _ H).
    destruct (split_lines others) as [|l ls] eqn:El.
    + exfalso. destruct others; simpl in El; [discriminate|].
      destruct (chr_eqb a nl); [discriminate|].
      destruct (split_lines others); discriminate.
    + rewrite <- El.
      change (skipn 1 (first :: split_lines others)) with (split_lines others).
      rewrite join_split_lines. rewrite El. reflexivity.
Qed.

Lemma parse_field_50f_lines_witness :
  parse_field_50f (txt "/123456
1/Name of customer
6/US/Issuer/123456
") =
    [ ("F50F_PartyIdentifier", VStr (txt "/123456"));
      ("F50F_NameAddr", VStr (txt "1/Name of customer
6/US/Issuer/123456")) ] /\
  parse_field_50f (txt " /123456 ") = [("F50F_PartyIdentifier", VStr (txt "/123456"))].
Proof.
  split.
  - apply (proj2 (parse_field_50f_lines _)); [reflexivity|].
    vm_compute. intros H. repeat (destruct H as [H|H]; [discriminate H|]). exact H.
  - apply (proj1 (parse_field_50f_lines (txt " /123456 "))).
    vm_compute. intros H. repeat (destruct H as [H|H]; [discriminate H|]). exact H.
Defined.

(** ** White space *)

Lemma lstrip_split (s : str) :
  exists a, s = a ++ lstrip s /\ forallb is_space a = true /\
            (lstrip s = [] \/ exists c r, lstrip s = c :: r /\ is_space c = false).
Proof.
  induction s as [|c s (a & Hs & Ha & Hl)].
  - exists []. auto.
  - simpl. destruct (is_space c) eqn:E.
    + exists (c :: a). simpl. rewrite E, Ha. rewrite <- Hs. auto.
    + exists []. repeat split; auto. right. eauto.
Qed.

Lemma lstrip_clean (c : ascii) (r : str) : is_space c = false -> lstrip (c :: r) = c :: r.
Proof. intros H. simpl. now rewrite H. Qed.

Lemma lstrip_spaces (a s : str) : forallb is_space a = true -> lstrip (a ++ s) = lstrip s.
Proof.
  induction a as [|c a IH]; intros H; [reflexivity|].
  simpl in *. apply andb_true_iff in H. destruct H as [Hc Ha].
  rewrite Hc. now apply IH.
Qed.

Lemma lstrip_idem (s : str) : lstrip (lstrip s) = lstrip s.
Proof.
  destruct (lstrip_split s) as (a & _ & _ & [E|(c & r & E & Hc)]); rewrite E.
  - reflexivity.
  - now apply lstrip_clean.
Qed.

Lemma rstrip_split (s : str) :
  exists b, s = rstrip s ++ b /\ forallb is_space b = true /\
            (rstrip s = [] \/ exists r c, rstrip s = r ++ [c] /\ is_space c = false).
Proof.
  unfold rstrip. destruct (lstrip_split (rev s)) as (a & Hs & Ha & Hl).
  exists (rev a). split; [|split].
  - rewrite <- rev_app_distr, <- Hs. now rewrite rev_involutive.
  - rewrite forallb_forall in *. intros x Hx. apply Ha. now apply in_rev.
  - destruct Hl as [E|(c & r & E & Hc)]; rewrite E.
    + now left.
    + right. exists (rev r), c. simpl. auto.
Qed.

Lemma rstrip_clean (r : str) (c : ascii) : is_space c = false -> rstrip (r ++ [c]) = r ++ [c].
Proof.
  intros H. unfold rstrip. rewrite rev_app_distr. simpl. rewrite H.
  simpl. now rewrite rev_involutive.
Qed.

Lemma rstrip_spaces (s b : str) : forallb is_space b = true -> rstrip (s ++ b) = rstrip s.
Proof.
  intros H. unfold rstrip. rewrite rev_app_distr. rewrite lstrip_spaces; [reflexivity|].
  rewrite forallb_forall in *. intros x Hx. apply H. now apply in_rev.
Qed.

Lemma rstrip_idem (s : str) : rstrip (rstrip s) = rstrip s.
Proof.
  destruct (rstrip_split s) as (b & _ & _ & [E|(r & c & E & Hc)]); rewrite E.
  - reflexivity.
  - now apply rstrip_clean.
Qed.

(** Stripping at the right keeps a clean left end. *)
Lemma lstrip_rstrip (s : str) : lstrip (rstrip (lstrip s)) = rstrip (lstrip s).
Proof.
  destruct (lstrip_split s) as (a & _ & _ & [E|(c & r & E & Hc)]); rewrite E.
  - reflexivity.
  - destruct (rstrip_split (c :: r)) as (b & Hb & Hsp & Hr).
    destruct (rstrip (c :: r)) as [|x y] eqn:Er; [reflexivity|].
    simpl in Hb. injection Hb as <- _. now apply lstrip_clean.
Qed.

Lemma strip_idem (s : str) : strip (strip s) = strip s.
Proof. unfold strip. now rewrite lstrip_rstrip, rstrip_idem. Qed.

(** [strip] removes a prefix and a suffix of white space and nothing else. *)
Lemma strip_split (s : str) :
  exists a b, s = a ++ strip s ++ b /\
              forallb is_space a = true /\ forallb is_space b = true.
Proof.
  unfold strip. destruct (lstrip_split s) as (a & Hs & Ha & _).
  destruct (rstrip_split (lstrip s)) as (b & Hb & Hsp & _).
  exists a, b. split; [|auto]. now rewrite <- Hb.
Qed.

Lemma lstrip_all_spaces (l : str) : forallb is_space l = true -> lstrip l = [].
Proof.
  intros H. rewrite <- (app_nil_r l). now rewrite lstrip_spaces.
Qed.

Lemma strip_padding (a s b : str) :
  forallb is_space a = true -> forallb is_space b = true ->
  strip (a ++ s ++ b) = strip s.
Proof.
  intros Ha Hb. unfold strip. rewrite (lstrip_spaces a _ Ha).
  destruct (lstrip_split s) as (a' & Hs & Ha' & [E|(c & r & E & Hc)]).
  - rewrite E. rewrite Hs at 1. rewrite E, app_nil_r.
    rewrite lstrip_all_spaces; [reflexivity|].
    rewrite forallb_app. now rewrite Ha', Hb.
  - rewrite Hs at 1. rewrite <- app_assoc, (lstrip_spaces a' _ Ha').
    rewrite E. simpl. rewrite Hc.
    change (c :: r ++ b) with ((c :: r) ++ b). now apply rstrip_spaces.
Qed.

(** A string without white space at its ends is left as it is. *)
Lemma strip_clean (s : str) :
  forallb (fun c => negb (is_space c)) s = true -> strip s = s.
Proof.
  intros H. destruct (strip_split s) as (a & b & Hs & Ha & Hb).
  assert (Hno : forall x l, forallb is_space l = true -> In x l -> In x s -> False).
  { intros x l Hl Hx Hxs. rewrite forallb_forall in H, Hl.
    specialize (H x Hxs). specialize (Hl x Hx). rewrite Hl in H. discriminate. }
  destruct a as [|x a].
  - destruct b as [|y b]; [now rewrite app_nil_r in Hs|].
    exfalso. apply (Hno y (y :: b) Hb); [now left|].
    rewrite Hs. apply in_or_app; right. apply in_or_app; right. now left.
  - exfalso. apply (Hno x (x :: a) Ha); [now left|]. rewrite Hs. now left.
Qed.

(** X5. Text before and after the message does not matter when it is white
    space: the module strips the message first. *)
Theorem surrounding_whitespace_ignored (before mt103_message after : str) :
  forallb is_space before = true -> forallb is_space after = true ->
  mt103_to_json (before ++ mt103_message ++ after) = mt103_to_json mt103_message.
Proof.
  intros Ha Hb. unfold mt103_to_json. now rewrite (strip_padding _ _ _ Ha Hb).
Qed.

Lemma surrounding_whitespace_ignored_witness :
  mt103_to_json (txt "
  " ++ scenario_message ++ txt "

") = Ok scenario_document.
Proof.
  rewrite surrounding_whitespace_ignored by reflexivity.
  vm_compute. reflexivity.
Defined.

(** ** Greedy quantifiers *)

Lemma take_drop_while (p : ascii -> bool) (s : str) :
  s = take_while p s ++ drop_while p s.
Proof.
  induction s as [|c s IH]; [reflexivity|].
  simpl. destruct (p c); simpl; [now rewrite <- IH | reflexivity].
Qed.

Lemma take_while_all (p : ascii -> bool) (s : str) : forallb p (take_while p s) = true.
Proof.
  induction s as [|c s IH]; [reflexivity|].
  simpl. destruct (p c) eqn:E; simpl; [now rewrite E | reflexivity].
Qed.

Lemma drop_while_head (p : ascii -> bool) (s : str) (c : ascii) (r : str) :
  drop_while p s = c :: r -> p c = false.
Proof.
  induction s as [|x s IH]; [discriminate|].
  simpl. destruct (p x) eqn:E; [exact IH|]. intros [= <- _]. exact E.
Qed.

(** A greedy quantifier at the end of a pattern takes the longest run. *)
Lemma greedy_final {R} (p : ascii -> bool) (F : str -> R) (s : str) :
  forall lo,
    rep true p lo None s (fun s' => Some (F s')) =
    if lo <=? length (take_while p s) then Some (F (drop_while p s)) else None.
Proof.
  induction s as [|x s IH]; intros lo.
  - destruct lo; reflexivity.
  - change (rep true p lo None (x :: s) (fun s' => Some (F s')))
      with (or_else (if p x then rep true p (pred lo) None s (fun s' => Some (F s'))
                     else None)
                    (fun _ => match lo with
                              | O => Some (F (x :: s))
                              | S _ => None
                              end)).
    rewrite IH. simpl. destruct (p x); simpl.
    + destruct lo; simpl; [reflexivity|].
      now destruct (lo <=? length (take_while p s)).
    + destruct lo; reflexivity.
Qed.


Lemma firstn_take_while (p : ascii -> bool) (s : str) :
  firstn (length s - length (drop_while p s)) s = take_while p s.
Proof.
  rewrite (take_drop_while p s) at 1 3. apply firstn_consumed.
Qed.

(** The pattern [<tag>(<class>+)] tried at one offset. *)
Lemma scalar_match_here (tag : string) (p : ascii -> bool) (pos : nat) (s : str) :
  match_here (scalar_pattern tag p) pos s =
  match strip_prefix (txt tag) s with
  | Some r =>
      if 1 <=? length (take_while p r)
      then Some (mkMatch pos (pos + (length s - length (drop_while p r)))
                   (cap_set 1 (take_while p r) []))
      else None
  | None => None
  end.
Proof.
  unfold match_here, scalar_pattern.
  change (rmatch (Lit (txt tag) >> Grp 1 (plus p)) s [] ?k)
    with (match strip_prefix (txt tag) s with
          | Some r =>
              rep true p 1 None r
                (fun s' => k s' (cap_set 1 (firstn (length r - length s') r) []))
          | None => None
          end).
  destruct (strip_prefix (txt tag) s) as [r|]; [|reflexivity].
  rewrite (greedy_final p
             (fun s' => mkMatch pos (pos + (length s - length s'))
                          (cap_set 1 (firstn (length r - length s') r) []))).
  now rewrite firstn_take_while.
Qed.

(** ** Scalar fields *)

(** What a stanza of the form "search, then store group 1 stripped" leaves
    under its key at the end of the run. *)
Lemma stripped_stanza_value (text : str) (i : nat) (f : dict -> result dict)
    (key sub : string) (r : regex) :
  nth_error (stanzas text) i = Some f ->
  (forall A, f A = match re_search r text with
                   | Some m => set_stripped key sub m A
                   | None => Ok A
                   end) ->
  ~ In key (concat (firstn i stanza_keys)) ->
  ~ In key (concat (skipn (S i) stanza_keys)) ->
  forall A, parse_text_block text = Ok [("A", VDict A)] ->
    dict_get key A =
    match re_search r text with
    | Some m => option_map (fun g => VDict [(sub, VStr (strip g))]) (group m 1)
    | None => None
    end.
Proof.
  intros Hn Hf Hpre Hpost A EA.
  destruct (parse_text_block_focus text i f Hn) as (A0 & A1 & A' & E1 & EA' & F0 & F1).
  rewrite EA in EA'. injection EA' as <-.
  rewrite (F1 key Hpost). rewrite Hf in E1.
  destruct (re_search r text) as [m|].
  - unfold set_stripped, group_str in E1.
    destruct (group m 1) as [g|]; [|discriminate E1].
    simpl in E1. injection E1 as <-. simpl. apply dict_get_set_same.
  - injection E1 as <-. exact (F0 key Hpre).
Qed.

Lemma scalar_field_value (text : str) (A : dict) :
  parse_text_block text = Ok [("A", VDict A)] ->
  forall key sub tag p, In (key, sub, tag, p) scalar_fields ->
    dict_get key A =
    match re_search (scalar_pattern tag p) text with
    | Some m => option_map (fun g => VDict [(sub, VStr (strip g))]) (group m 1)
    | None => None
    end.
Proof.
  intros EA key sub tag p Hin. unfold scalar_fields in Hin. cbn [In] in Hin.
  destruct Hin as [H|Hin];
    [injection H as <- <- <- <-;
     apply (stripped_stanza_value text 0 (field_20 text));
     [reflexivity | reflexivity | absent_key | absent_key | exact EA]|].
  destruct Hin as [H|Hin];
    [injection H as <- <- <- <-;
     apply (stripped_stanza_value text 2 (field_23B text));
     [reflexivity | reflexivity | absent_key | absent_key | exact EA]|].
  destruct Hin as [H|Hin];
    [injection H as <- <- <- <-;
     apply (stripped_stanza_value text 3 (field_23E text));
     [reflexivity | reflexivity | absent_key | absent_key | exact EA]|].
  destruct Hin as [H|Hin];
    [injection H as <- <- <- <-;
     apply (stripped_stanza_value text 4 (field_26T text));
     [reflexivity | reflexivity | absent_key | absent_key | exact EA]|].
  destruct Hin as [H|Hin];
    [injection H as <- <- <- <-;
     apply (stripped_stanza_value text 7 (field_36 text));
     [reflexivity | reflexivity | absent_key | absent_key | exact EA]|].
  destruct Hin as [H|Hin];
    [injection H as <- <- <- <-;
     apply (stripped_stanza_value text 10 (field_51A text));
     [reflexivity | reflexivity | absent_key | absent_key | exact EA]|].
  destruct Hin as [H|Hin];
    [injection H as <- <- <- <-;
     apply (stripped_stanza_value text 12 (field_52A text));
     [reflexivity | reflexivity | absent_key | absent_key | exact EA]|].
  destruct Hin as [H|Hin];
    [injection H as <- <- <- <-;
     apply (stripped_stanza_value text 13 (field_53B text));
     [reflexivity | reflexivity | absent_key | absent_key | exact EA]|].
  destruct Hin as [H|Hin];
    [injection H as <- <- <- <-;
     apply (stripped_stanza_value text 19 (field_71A text));
     [reflexivity | reflexivity | absent_key | absent_key | exact EA]|].
  destruct Hin as [H|Hin];
    [injection H as <- <- <- <-;
     apply (stripped_stanza_value text 21 (field_71G text));
     [reflexivity | reflexivity | absent_key | absent_key | exact EA]|].
  contradiction.
Qed.

Lemma strip_prefix_Some' (l r : str) : strip_prefix l (l ++ r) = Some r.
Proof. now apply strip_prefix_Some. Qed.

(** The search for a scalar pattern finds the first marker that is followed
    by a character of the class, and takes the longest run of the class. *)
Lemma scalar_search_first (tag : string) (p : ascii -> bool) (pre rest : str) :
  (forall a q, pre ++ txt tag ++ rest = a ++ q -> length a < length pre ->
               strip_prefix (txt tag) q = None) ->
  take_while p rest <> [] ->
  exists m, re_search (scalar_pattern tag p) (pre ++ txt tag ++ rest) = Some m /\
            group m 1 = Some (take_while p rest) /\ m_start m = length pre.
Proof.
  intros Hfirst Hne. unfold re_search.
  rewrite search_from_skip.
  - exists (mkMatch (0 + length pre)
              (0 + length pre +
               (length (txt tag ++ rest) - length (drop_while p rest)))
              (cap_set 1 (take_while p rest) [])).
    split; [|split; reflexivity].
    apply search_from_here. rewrite scalar_match_here, strip_prefix_Some'.
    destruct (take_while p rest); [contradiction | reflexivity].
  - intros a q Hq Hl. rewrite scalar_match_here.
    now rewrite (Hfirst a q Hq Hl).
Qed.

(** X6. A scalar field read off the body.  For each of the ten scalar tags: when
    the body holds the tag's marker, no marker of the tag starts before it,
    and a character of the tag's class follows it, the key of the tag holds
    the longest run of characters of the class after the marker, stripped.
    For the tags read up to the next colon the run goes over line ends. *)
Theorem scalar_field_decoded :
  forall key sub tag p, In (key, sub, tag, p) scalar_fields ->
  forall pre rest : str,
    (forall a q, pre ++ txt tag ++ rest = a ++ q -> length a < length pre ->
                 strip_prefix (txt tag) q = None) ->
    take_while p rest <> [] ->
    exists A,
      parse_text_block (pre ++ txt tag ++ rest) = Ok [("A", VDict A)] /\
      dict_get key A = Some (VDict [(sub, VStr (strip (take_while p rest)))]).
Proof.
  intros key sub tag p Hin pre rest Hfirst Hne.
  destruct (parse_text_block_total (pre ++ txt tag ++ rest)) as [A EA].
  exists A. split; [exact EA|].
  rewrite (scalar_field_value _ _ EA key sub tag p Hin).
  destruct (scalar_search_first tag p pre rest Hfirst Hne) as (m & -> & -> & _).
  reflexivity.
Qed.

Lemma scalar_field_decoded_witness :
  exists A,
    parse_text_block charges_after_reference = Ok [("A", VDict A)] /\
    dict_get "F71A" A = Some (VDict [("F71A_ChargesCode", VStr (txt "SHA"))]).
Proof.
  destruct (scalar_field_decoded "F71A" "F71A_ChargesCode" ":71A:" (is_not ":")
              ltac:(do 8 right; left; reflexivity)
              (firstn 6 charges_after_reference) (skipn 11 charges_after_reference))
    as (A & EA & Hv).
  - intros a q Hq Hl. vm_compute in Hq, Hl.
    do 6 (destruct a as [|? a];
          [simpl in Hq; subst q; reflexivity
          |simpl in Hq; injection Hq as _ Hq; apply PeanoNat.lt_S_n in Hl]).
    inversion Hl.
  - vm_compute. discriminate.
  - exists A. split; [exact EA | exact Hv].
Defined.

(** X7. Where scalar values come from.  Whatever the body, a value stored for a
    scalar tag is the stripped run of characters that follows one of the
    tag's markers in the body: the run is not empty, is made of characters
    of the tag's class only and is not followed by one, so the value holds
    no colon, and for tags 20 and 23B no white space either and is the run
    itself. *)
Theorem scalar_values_from_text (text : str) (A : dict) :
  parse_text_block text = Ok [("A", VDict A)] ->
  forall key sub tag p, In (key, sub, tag, p) scalar_fields ->
  forall v, dict_get key A = Some v ->
    exists pre run post,
      text = pre ++ txt tag ++ run ++ post /\
      run <> [] /\ forallb p run = true /\
      (post = [] \/ exists c r, post = c :: r /\ p c = false) /\
      v = VDict [(sub, VStr (strip run))] /\
      (forall c, In c (strip run) -> p c = true /\ c <> ":"%char) /\
      (forallb not_space_or_colon run = true -> strip run = run).
Proof.
  intros EA key sub tag p Hin v Hv.
  rewrite (scalar_field_value _ _ EA key sub tag p Hin) in Hv.
  destruct (re_search (scalar_pattern tag p) text) as [m|] eqn:E; [|discriminate Hv].
  apply search_from_sound in E. destruct E as (pre & u & -> & E).
  rewrite scalar_match_here in E.
  destruct (strip_prefix (txt tag) u) as [r|] eqn:Eu; [|discriminate E].
  apply strip_prefix_Some in Eu. subst u.
  destruct (1 <=? length (take_while p r)) eqn:El; [|discriminate E].
  injection E as <-. simpl in Hv. injection Hv as <-.
  apply Nat.leb_le in El.
  assert (Hcolon : forall c, p c = true -> c <> ":"%char).
  { intros c Hc ->. unfold scalar_fields in Hin. cbn [In] in Hin.
    repeat (destruct Hin as [H|Hin]; [injection H as _ _ _ <-; discriminate Hc|]).
    contradiction. }
  exists pre, (take_while p r), (drop_while p r).
  split; [now rewrite <- take_drop_while|].
  split; [intros H; rewrite H in El; simpl in El; lia|].
  split; [apply take_while_all|].
  split.
  { destruct (drop_while p r) as [|c r'] eqn:Ed; [now left|].
    right. exists c, r'. split; [reflexivity|]. exact (drop_while_head _ _ _ _ Ed). }
  split; [reflexivity|].
  split.
  - intros c Hc.
    assert (Hp : p c = true).
    { destruct (strip_split (take_while p r)) as (a & b & Hs & _).
      assert (Hall := take_while_all p r). rewrite forallb_forall in Hall.
      apply Hall. rewrite Hs. apply in_or_app; right. apply in_or_app; now left. }
    split; [exact Hp | exact (Hcolon c Hp)].
  - intros Hclean. apply strip_clean.
    rewrite forallb_forall in *. intros c Hc. specialize (Hclean c Hc).
    unfold not_space_or_colon in Hclean. apply negb_true_iff in Hclean.
    apply orb_false_iff in Hclean. destruct Hclean as [Hs _]. now rewrite Hs.
Qed.

Lemma scalar_values_from_text_witness :
  exists pre run post,
    txt ":20:TEST-001
:23B:CRED" = pre ++ txt ":20:" ++ run ++ post /\
    run <> [] /\ forallb not_space_or_colon run = true /\
    VDict [("F20_TRN", VStr (txt "TEST-001"))] = VDict [("F20_TRN", VStr (strip run))].
Proof.
  assert (E : parse_text_block (txt ":20:TEST-001
:23B:CRED") = Ok [("A", VDict [ ("F20", VDict [("F20_TRN", VStr (txt "TEST-001"))]);
                               ("F23B", VDict [("F23B_BankOpCode", VStr (txt "CRED"))]) ])])
    by (vm_compute; reflexivity).
  destruct (scalar_values_from_text _ _ E "F20" "F20_TRN" ":20:" not_space_or_colon
              ltac:(left; reflexivity) _ eq_refl)
    as (pre & run & post & Ht & Hne & Hp & _ & Hv & _).
  exists pre, run, post. auto.
Defined.

(** ** Value date, currency, amount *)


Lemma amount_digits_dots (amount : str) :
  forallb digit_or_comma amount = true ->
  forallb digit_or_dot (parse_amount amount) = true.
Proof.
  intros H. rewrite replace_comma. rewrite forallb_forall in *.
  intros c Hc. apply in_map_iff in Hc. destruct Hc as (x & <- & Hx).
  specialize (H x Hx). unfold digit_or_comma in H. unfold digit_or_dot.
  destruct (chr_eqb x ",") eqn:E.
  - reflexivity.
  - rewrite orb_false_r in H. now rewrite H.
Qed.




(** ** Keys of the text block *)

Lemma contains_here (p r : str) : contains p (p ++ r) = true.
Proof.
  assert (H : startswith (p ++ r) p = true)
    by (unfold startswith; now rewrite strip_prefix_Some').
  destruct (p ++ r); simpl; now rewrite H.
Qed.

Lemma contains_later (p pre r : str) : contains p (pre ++ p ++ r) = true.
Proof.
  induction pre as [|c pre IH]; [exact (contains_here p r)|].
  simpl. rewrite IH. apply orb_true_r.
Qed.

Lemma span_50F_needs_marker (text : str) (m : Match) :
  re_search (span_pattern (Lit (txt ":50F:"))) text = Some m ->
  contains (txt ":50F:") text = true.
Proof.
  intros H. apply re_search_sound in H.
  destruct H as (pre & w & s' & c' & -> & Hm & _).
  unfold span_pattern in Hm. cbn [matches] in Hm.
  destruct Hm as (s1 & c1 & (Hw & _) & _). rewrite Hw.
  apply contains_later.
Qed.

(** X9. The ordering customer is stored once: a result with the key F50F has the
    marker of 50F in its body and no key F50K, and a result with the key
    F50K has no marker of 50F in its body and no key F50F. *)
Theorem ordering_customer_stored_once (text : str) (A : dict) :
  parse_text_block text = Ok [("A", VDict A)] ->
  (dict_mem "F50F" A = true ->
   contains (txt ":50F:") text = true /\ dict_mem "F50K" A = false) /\
  (dict_mem "F50K" A = true ->
   contains (txt ":50F:") text = false /\ dict_mem "F50F" A = false).
Proof.
  intros EA.
  assert (H50F : contains (txt ":50F:") text = false -> dict_get "F50F" A = None).
  { intros Hc.
    apply (unmatched_grammar_no_key text A EA "F50F" (span_pattern (Lit (txt ":50F:")))).
    - unfold field_grammars. do 7 right. left. reflexivity.
    - destruct (re_search _ text) as [m|] eqn:E; [|reflexivity].
      apply span_50F_needs_marker in E. rewrite E in Hc. discriminate. }
  assert (H50K : contains (txt ":50F:") text = true -> dict_get "F50K" A = None).
  { intros Hc.
    destruct (parse_text_block_focus text 9 (field_50K text) eq_refl)
      as (A0 & A1 & A' & E1 & EA' & F0 & F1).
    rewrite EA in EA'. injection EA' as <-.
    unfold field_50K in E1. rewrite Hc in E1. simpl in E1. injection E1 as <-.
    rewrite F1 by absent_key. apply F0. absent_key. }
  unfold dict_mem. split; intros Hm.
  - destruct (contains (txt ":50F:") text) eqn:Hc.
    + split; [reflexivity|]. now rewrite H50K.
    + rewrite H50F in Hm by reflexivity. discriminate.
  - destruct (contains (txt ":50F:") text) eqn:Hc.
    + rewrite H50K in Hm by reflexivity. discriminate.
    + split; [reflexivity|]. now rewrite H50F.
Qed.

Lemma ordering_customer_stored_once_witness :
  contains (txt ":50F:") both_50F_and_50K = true /\
  dict_mem "F50K"
    [("F50F", VDict [ ("F50F_PartyIdentifier", VStr (txt "/123456"));
                      ("F50F_NameAddr", VStr (txt "1/Customer Name")) ])] = false.
Proof.
  apply (ordering_customer_stored_once both_50F_and_50K); [|reflexivity].
  vm_compute. reflexivity.
Defined.

(** One stanza writes at most one of its keys. *)
Lemma assigns_one_key (ks : list string) (f : dict -> result dict) (A A' : dict) :
  assigns ks f -> f A = Ok A' ->
  (forall k, In k ks -> dict_get k A = None) ->
  forall x y, In x ks -> In y ks -> x <> y ->
              dict_get x A' = None \/ dict_get y A' = None.
Proof.
  intros Hf E H0 x y Hx Hy Hne.
  destruct (Hf A) as [E'|(k & v & Hk & E')]; rewrite E' in E; injection E as <-.
  - left. now apply H0.
  - destruct (String.eqb x k) eqn:Ex.
    + apply String.eqb_eq in Ex. subst k. right.
      rewrite dict_get_set_other by (intros ->; now apply Hne). now apply H0.
    + left. rewrite dict_get_set_other; [now apply H0|].
      intros ->. now rewrite String.eqb_refl in Ex.
Qed.

(** X10. The keys of the text block.  Every key of [result["A"]] is one of the
    thirty keys of the stanzas, at most one key of the 56 family is there,
    and at most one of the 57 family. *)
Theorem text_block_keys (text : str) (A : dict) :
  parse_text_block text = Ok [("A", VDict A)] ->
  (forall k, dict_mem k A = true -> In k (concat stanza_keys)) /\
  (forall x y, In x ["F56A"; "F56C"; "F56D"] -> In y ["F56A"; "F56C"; "F56D"] ->
               x <> y -> dict_mem x A = false \/ dict_mem y A = false) /\
  (forall x y, In x ["F57A"; "F57B"; "F57C"; "F57D"] ->
               In y ["F57A"; "F57B"; "F57C"; "F57D"] ->
               x <> y -> dict_mem x A = false \/ dict_mem y A = false).
Proof.
  intros EA. split; [|split].
  - intros k Hk.
    destruct (in_dec string_dec k (concat stanza_keys)) as [Hin|Hn]; [exact Hin|].
    exfalso.
    destruct (run_steps_frame _ _ (stanzas_assign text) []) as (A' & E & F).
    unfold parse_text_block in EA. rewrite E in EA. injection EA as <-.
    unfold dict_mem in Hk. rewrite (F k Hn) in Hk. discriminate.
  - intros x y Hx Hy Hne.
    destruct (parse_text_block_focus text 15 (field_56 ["A"; "C"; "D"] text) eq_refl)
      as (A0 & A1 & A' & E1 & EA' & F0 & F1).
    rewrite EA in EA'. injection EA' as <-.
    assert (H := assigns_one_key _ _ A0 A1 (field_56_assigns ["A"; "C"; "D"] text) E1).
    unfold dict_mem.
    assert (Kx : dict_get x A = dict_get x A1).
    { apply F1. simpl in Hx. repeat (destruct Hx as [<-|Hx]; [absent_key|]). contradiction. }
    assert (Ky : dict_get y A = dict_get y A1).
    { apply F1. simpl in Hy. repeat (destruct Hy as [<-|Hy]; [absent_key|]). contradiction. }
    rewrite Kx, Ky.
    destruct (H ltac:(intros k Hk; apply F0; simpl in Hk;
                      repeat (destruct Hk as [<-|Hk]; [absent_key|]); contradiction)
                x y Hx Hy Hne) as [-> | ->]; auto.
  - intros x y Hx Hy Hne.
    destruct (parse_text_block_focus text 16 (field_57 ["A"; "B"; "C"; "D"] text) eq_refl)
      as (A0 & A1 & A' & E1 & EA' & F0 & F1).
    rewrite EA in EA'. injection EA' as <-.
    assert (H := assigns_one_key _ _ A0 A1 (field_57_assigns ["A"; "B"; "C"; "D"] text) E1).
    unfold dict_mem.
    assert (Kx : dict_get x A = dict_get x A1).
    { apply F1. simpl in Hx. repeat (destruct Hx as [<-|Hx]; [absent_key|]). contradiction. }
    assert (Ky : dict_get y A = dict_get y A1).
    { apply F1. simpl in Hy. repeat (destruct Hy as [<-|Hy]; [absent_key|]). contradiction. }
    rewrite Kx, Ky.
    destruct (H ltac:(intros k Hk; apply F0; simpl in Hk;
                      repeat (destruct Hk as [<-|Hk]; [absent_key|]); contradiction)
                x y Hx Hy Hne) as [-> | ->]; auto.
Qed.

Lemma text_block_keys_witness :
  In "F56A" (concat stanza_keys) /\
  (dict_mem "F56A"
     [ ("F20", VDict [("F20_TRN", VStr (txt "REF"))]);
       ("F56A", VDict [("F56A_Intermediary", VStr (txt "BANKDEFF"))]);
       ("F71A", VDict [("F71A_ChargesCode", VStr (txt "SHA"))]) ] = false \/
   dict_mem "F56D"
     [ ("F20", VDict [("F20_TRN", VStr (txt "REF"))]);
       ("F56A", VDict [("F56A_Intermediary", VStr (txt "BANKDEFF"))]);
       ("F71A", VDict [("F71A_ChargesCode", VStr (txt "SHA"))]) ] = false).
Proof.
  assert (E : parse_text_block both_56A_and_56D =
    Ok [("A", VDict [ ("F20", VDict [("F20_TRN", VStr (txt "REF"))]);
                      ("F56A", VDict [("F56A_Intermediary", VStr (txt "BANKDEFF"))]);
                      ("F71A", VDict [("F71A_ChargesCode", VStr (txt "SHA"))]) ])])
    by (vm_compute; reflexivity).
  destruct (text_block_keys _ _ E) as (Hkeys & H56 & _).
  split.
  - apply Hkeys. reflexivity.
  - apply H56; simpl; auto. discriminate.
Defined.

(** ** The trailer and the keys of the document *)

Lemma block_content_in_message (n : string) (mt103_message t : str) :
  block_content n mt103_message = Some t ->
  t <> [] /\ ~ In "}"%char t /\
  exists pre post,
    strip mt103_message = pre ++ txt ("{" ++ n ++ ":") ++ t ++ txt "}" ++ post.
Proof.
  unfold block_content.
  destruct (re_search _ (strip mt103_message)) as [m|] eqn:E; [|discriminate].
  intros Hg. apply re_search_sound in E.
  destruct E as (pre & w & s' & c' & Ht & Hm & ->).
  unfold block_pattern, plus in Hm. cbn [matches within] in Hm.
  break_matches. unfold group in Hg. simpl in Hg. injection Hg as <-.
  split; [intros ->; simpl in *; lia|]. split.
  - intros Hin.
    match goal with
    | Hf : forallb (is_not "}") _ = true |- _ =>
        rewrite forallb_forall in Hf; apply Hf in Hin
    end.
    discriminate Hin.
  - exists pre, s'. rewrite Ht.
    match goal with
    | Hw : w ++ s' = _ |- _ => now rewrite Hw
    end.
Qed.

(** X11. The trailer is block 5 as found: the key Trailer is there exactly when a
    block 5 is found, and holds its content unchanged, which is the non-empty
    text between the marker of block 5 and the first closing brace after
    it. *)
Theorem trailer_verbatim (mt103_message : str) :
  exists doc,
    mt103_to_json mt103_message = Ok [("MT103", VDict doc)] /\
    dict_get "Trailer" doc = option_map VStr (block_content "5" mt103_message) /\
    forall t, block_content "5" mt103_message = Some t ->
      t <> [] /\ ~ In "}"%char t /\
      exists pre post, strip mt103_message = pre ++ txt "{5:" ++ t ++ txt "}" ++ post.
Proof.
  destruct (mt103_to_json_blocks mt103_message)
    as (d1 & d2 & d4 & d5 & _ & _ & _ & E5 & E & F1 & F2 & F4 & _).
  exists d5. split; [exact E|]. split.
  - assert (H4 : dict_get "Trailer" d4 = None).
    { rewrite F4, F2 by (try discriminate; absent_key). apply F1. absent_key. }
    unfold block_5 in E5. unfold block_content.
    destruct (re_search _ (strip mt103_message)) as [m|] eqn:Es.
    + injection E5 as <-. rewrite dict_get_set_same.
      destruct (block_pattern_capture _ _ _ Es) as (b & Hb & _).
      unfold group_value. now rewrite Hb.
    + injection E5 as <-. exact H4.
  - intros t Ht. exact (block_content_in_message "5" _ _ Ht).
Qed.

Lemma trailer_verbatim_witness :
  exists doc,
    mt103_to_json (txt "{1:F01BANKBEBBAXXX0000000000}{5:{CHK:123456789ABC}}")
      = Ok [("MT103", VDict doc)] /\
    dict_get "Trailer" doc = Some (VStr (txt "{CHK:123456789ABC")) /\
    ~ In "}"%char (txt "{CHK:123456789ABC").
Proof.
  destruct (trailer_verbatim (txt "{1:F01BANKBEBBAXXX0000000000}{5:{CHK:123456789ABC}}"))
    as (doc & E & Ht & Hc).
  exists doc. split; [exact E|]. split.
  - rewrite Ht. vm_compute. reflexivity.
  - apply (Hc (txt "{CHK:123456789ABC")). vm_compute. reflexivity.
Defined.

(** X12. The keys of the document: the five of block 1, the six of block 2, A
    and Trailer, and no other; the keys of the user header are never
    there. *)
Theorem document_keys (mt103_message : str) (doc : dict) :
  mt103_to_json mt103_message = Ok [("MT103", VDict doc)] ->
  forall k, dict_mem k doc = true ->
    In k (basic_header_keys ++ application_header_keys ++ ["A"; "Trailer"]).
Proof.
  intros H k Hk.
  destruct (in_dec string_dec k
              (basic_header_keys ++ application_header_keys ++ ["A"; "Trailer"]))
    as [Hin|Hn]; [exact Hin|].
  exfalso.
  destruct (mt103_to_json_blocks mt103_message)
    as (d1 & d2 & d4 & d5 & _ & _ & _ & _ & E & F1 & F2 & F4 & F5).
  rewrite E in H. injection H as <-.
  unfold dict_mem in Hk.
  rewrite F5, F4, F2, F1 in Hk; try discriminate.
  - intros Hb. apply Hn. apply in_or_app. now left.
  - intros Ha. apply Hn. apply in_or_app. right. apply in_or_app. now left.
  - intros ->. apply Hn. apply in_or_app. right. apply in_or_app. right. simpl. auto.
  - intros ->. apply Hn. apply in_or_app. right. apply in_or_app. right. simpl. auto.
Qed.

Lemma document_keys_witness :
  In "Recipient" (basic_header_keys ++ application_header_keys ++ ["A"; "Trailer"]).
Proof.
  assert (E : mt103_to_json scenario_message = Ok scenario_document)
    by (vm_compute; reflexivity).
  exact (document_keys scenario_message _ E "Recipient" eq_refl).
Defined.

(** ** Amounts *)

(** X13. Decoding an amount twice changes nothing more, an amount without comma
    is kept, and the amount of a concatenation is the concatenation of the
    amounts. *)
Theorem parse_amount_stable (a b : str) :
  parse_amount (parse_amount a) = parse_amount a /\
  (~ In ","%char a -> parse_amount a = a) /\
  parse_amount (a ++ b) = parse_amount a ++ parse_amount b.
Proof.
  rewrite !replace_comma. split; [|split].
  - rewrite map_map. apply map_ext. intros c.
    destruct (chr_eqb c ",") eqn:E; [reflexivity | now rewrite E].
  - intros H. rewrite <- (map_id a) at 2. apply map_ext_in. intros c Hc.
    destruct (chr_eqb c ",") eqn:E; [|reflexivity].
    apply chr_eqb_eq in E. subst. contradiction.
  - apply map_app.
Qed.

Lemma parse_amount_stable_witness :
  parse_amount (txt "1500") = txt "1500".
Proof.
  apply (proj1 (proj2 (parse_amount_stable (txt "1500") []))).
  vm_compute. intros H. repeat (destruct H as [H|H]; [discriminate H|]). exact H.
Defined.

(** ** The user header, called on its own *)






(** ** Account lines *)

Lemma account_split_account_only (acc rest : string)
    (whole : str -> list str -> result str) (g : str) :
  startswith (strip g) (txt "/") = true -> ~ In nl (strip g) ->
  account_split acc rest whole g = Ok (dict_set acc (VStr (strip g)) []).
Proof.
  intros Hs Hn. unfold account_split.
  rewrite (split_first_line_one _ Hn). now rewrite Hs.
Qed.

Lemma startswith_first_line (a b p : str) :
  p <> [] -> ~ In nl p -> startswith (a ++ nl :: b) p = true -> ~ In nl a ->
  startswith a p = true.
Proof.
  unfold startswith. intros Hp Hnp H Ha.
  destruct (strip_prefix p (a ++ nl :: b)) as [r|] eqn:E; [|discriminate].
  clear H. apply strip_prefix_Some in E.
  revert p Hp Hnp E. induction a as [|x a IH]; intros p Hp Hnp E.
  - destruct p as [|y p]; [contradiction|].
    simpl in E. injection E as <- _. exfalso. apply Hnp. now left.
  - destruct p as [|y p]; [contradiction|].
    simpl in E. injection E as <- E. simpl. rewrite chr_eqb_refl.
    destruct p as [|z p]; [reflexivity|].
    apply IH; [intros Hin; apply Ha; now right | discriminate
              | intros Hin; apply Hnp; now right | exact E].
Qed.

Lemma account_split_account_and_name (acc rest : string)
    (whole : str -> list str -> result str) (g a b : str) :
  strip g = a ++ nl :: b -> ~ In nl a -> startswith (strip g) (txt "/") = true ->
  account_split acc rest whole g =
  Ok (dict_set rest (VStr b) (dict_set acc (VStr a) [])).
Proof.
  intros Hs Ha Hsl. unfold account_split.
  rewrite Hs, (split_first_line_cut _ _ Ha).
  rewrite Hs in Hsl.
  rewrite (startswith_first_line a b (txt "/") ltac:(discriminate)
             ltac:(vm_compute; intros [H|[]]; discriminate H) Hsl Ha).
  reflexivity.
Qed.

Lemma first_line_starts (s : str) :
  exists l ls, split_first_line s = l :: ls /\
               startswith l (txt "/") = startswith s (txt "/").
Proof.
  destruct s as [|c s]; [exists [], []; split; reflexivity|].
  simpl. destruct (chr_eqb c nl) eqn:E.
  - apply chr_eqb_eq in E. subst c. exists [], [s]. split; reflexivity.
  - destruct (split_first_line_cons s) as (l & ls & ->).
    exists (c :: l), ls. split; [reflexivity|].
    unfold startswith. cbn -[chr_eqb]. now destruct (chr_eqb "/" c).
Qed.

Lemma account_split_no_account (acc rest : string)
    (whole : str -> list str -> result str) (g : str) :
  startswith (strip g) (txt "/") = false ->
  account_split acc rest whole g =
  (w <- whole g (split_first_line (strip g)) ;; Ok (dict_set rest (VStr w) [])).
Proof.
  intros Hs. unfold account_split.
  destruct (first_line_starts (strip g)) as (l & ls & -> & Hl).
  now rewrite Hl, Hs.
Qed.

(** What an account stanza leaves under its key at the end of the run. *)
Lemma account_stanza_value (text : str) (i : nat) (f : dict -> result dict)
    (key acc rest : string) (whole : str -> list str -> result str) (tag : regex) :
  nth_error (stanzas text) i = Some f ->
  (forall A, f A = match re_search (span_pattern tag) text with
                   | Some m =>
                       g <- group_str AttributeError m 1 ;;
                       field_data <- account_split acc rest whole g ;;
                       Ok (dict_set key (VDict field_data) A)
                   | None => Ok A
                   end) ->
  ~ In key (concat (skipn (S i) stanza_keys)) ->
  forall A g, parse_text_block text = Ok [("A", VDict A)] ->
    raw_span tag text = Some g ->
    exists field_data,
      account_split acc rest whole g = Ok field_data /\
      dict_get key A = Some (VDict field_data).
Proof.
  intros Hn Hf Hpost A g EA Hg.
  destruct (parse_text_block_focus text i f Hn) as (A0 & A1 & A' & E1 & EA' & _ & F1).
  rewrite EA in EA'. injection EA' as <-.
  rewrite (F1 key Hpost). rewrite Hf in E1.
  apply raw_span_Some in Hg. destruct Hg as (m & Em & Hg).
  rewrite Em in E1. unfold group_str in E1. rewrite Hg in E1. cbn [bind] in E1.
  destruct (account_split acc rest whole g) as [fd|e]; [|discriminate E1].
  cbn [bind] in E1. injection E1 as <-.
  exists fd. split; [reflexivity | apply dict_get_set_same].
Qed.

Lemma account_field_value (text : str) (A : dict) :
  parse_text_block text = Ok [("A", VDict A)] ->
  forall key acc rest tag, In (key, acc, rest, tag) account_fields ->
  forall g, raw_span tag text = Some g ->
    exists field_data,
      account_split acc rest whole_stripped g = Ok field_data /\
      dict_get key A = Some (VDict field_data).
Proof.
  intros EA key acc rest tag Hin g Hg. unfold account_fields in Hin. cbn [In] in Hin.
  destruct Hin as [H|[H|[]]]; injection H as <- <- <- <-.
  - apply (account_stanza_value text 11 (field_52D text) "F52D" _ _ _ _
             eq_refl (fun _ => eq_refl) ltac:(absent_key) A g EA Hg).
  - apply (account_stanza_value text 17 (field_59 text) "F59" _ _ _ _
             eq_refl (fun _ => eq_refl) ltac:(absent_key) A g EA Hg).
Qed.

(** X15. Ordering institution (52D) and beneficiary (59).  With [s] the stripped
    span of the tag: when [s] starts with a slash, its first line is stored
    as the account and what follows the first line feed, if there is one, as
    the name and address, so that account, line feed and name put together
    are [s]; when [s] does not start with a slash, all of [s] is stored as
    the name and address. *)
Theorem account_and_name (text : str) (A : dict) :
  parse_text_block text = Ok [("A", VDict A)] ->
  forall key acc name tag, In (key, acc, name, tag) account_fields ->
  forall g, raw_span tag text = Some g ->
    (startswith (strip g) (txt "/") = true -> ~ In nl (strip g) ->
     dict_get key A = Some (VDict [(acc, VStr (strip g))])) /\
    (startswith (strip g) (txt "/") = true ->
     forall a b, strip g = a ++ nl :: b -> ~ In nl a ->
       dict_get key A = Some (VDict [(acc, VStr a); (name, VStr b)])) /\
    (startswith (strip g) (txt "/") = false ->
     dict_get key A = Some (VDict [(name, VStr (strip g))])).
Proof.
  intros EA key acc name tag Hin g Hg.
  destruct (account_field_value text A EA key acc name tag Hin g Hg) as (fd & Hfd & ->).
  unfold account_fields in Hin. cbn [In] in Hin.
  split; [|split].
  - intros Hs Hn. rewrite (account_split_account_only _ _ _ _ Hs Hn) in Hfd.
    injection Hfd as <-. reflexivity.
  - intros Hs a b Hab Ha.
    rewrite (account_split_account_and_name _ _ _ _ a b Hab Ha Hs) in Hfd.
    injection Hfd as <-.
    destruct Hin as [H|[H|[]]]; injection H as <- <- <- <-; reflexivity.
  - intros Hs. rewrite (account_split_no_account _ _ _ _ Hs) in Hfd.
    unfold whole_stripped in Hfd. cbn [bind] in Hfd. injection Hfd as <-. reflexivity.
Qed.

Lemma account_and_name_witness :
  exists A,
    parse_text_block beneficiary_body = Ok [("A", VDict A)] /\
    dict_get "F59" A =
      Some (VDict [ ("F59_ACC_ID_Party", VStr (txt "/123456"));
                    ("F59_Name_addr_Party", VStr (txt "JOHN DOE
1 MAIN STREET")) ]).
Proof.
  destruct (parse_text_block_total beneficiary_body) as [A EA].
  exists A. split; [exact EA|].
  assert (Hg : raw_span (Lit (txt ":59") >> opt (is_chr "A") >> Lit (txt ":"))
                 beneficiary_body = Some (txt "/123456
JOHN DOE
1 MAIN STREET
")) by (vm_compute; reflexivity).
  apply (proj1 (proj2 (account_and_name _ _ EA "F59" "F59_ACC_ID_Party"
                         "F59_Name_addr_Party" _ ltac:(right; left; reflexivity) _ Hg))).
  - reflexivity.
  - reflexivity.
  - vm_compute. intros H. repeat (destruct H as [H|H]; [discriminate H|]). exact H.
Defined.

(** X16. Receiver's correspondent (54A).  The account line is read as for 52D and
    59, with the line after it stored as the BIC; but when the stripped span
    does not start with a slash only its first line is stored: the lines
    after the first line feed are not in the result. *)
Theorem correspondent_first_line (text : str) (A : dict) (g : str) :
  parse_text_block text = Ok [("A", VDict A)] ->
  raw_span (Lit (txt ":54A:")) text = Some g ->
  (startswith (strip g) (txt "/") = true ->
   forall a b, strip g = a ++ nl :: b -> ~ In nl a ->
     dict_get "F54A" A = Some (VDict [("F54A_AccountId", VStr a); ("F54A_BIC", VStr b)])) /\
  (startswith (strip g) (txt "/") = false -> ~ In nl (strip g) ->
   dict_get "F54A" A = Some (VDict [("F54A_BIC", VStr (strip g))])) /\
  (startswith (strip g) (txt "/") = false ->
   forall a b, strip g = a ++ nl :: b -> ~ In nl a ->
     dict_get "F54A" A = Some (VDict [("F54A_BIC", VStr a)])).
Proof.
  intros EA Hg.
  destruct (account_stanza_value text 14 (field_54A text) "F54A" _ _ _ _
              eq_refl (fun _ => eq_refl) ltac:(absent_key) A g EA Hg)
    as (fd & Hfd & ->).
  split; [|split].
  - intros Hs a b Hab Ha.
    rewrite (account_split_account_and_name _ _ _ _ a b Hab Ha Hs) in Hfd.
    injection Hfd as <-. reflexivity.
  - intros Hs Hn. rewrite (account_split_no_account _ _ _ _ Hs) in Hfd.
    rewrite (split_first_line_one _ Hn) in Hfd.
    cbn [first_line bind] in Hfd. injection Hfd as <-. reflexivity.
  - intros Hs a b Hab Ha. rewrite (account_split_no_account _ _ _ _ Hs) in Hfd.
    rewrite Hab, (split_first_line_cut _ _ Ha) in Hfd.
    cbn [first_line bind] in Hfd. injection Hfd as <-. reflexivity.
Qed.

Lemma correspondent_first_line_witness :
  exists A,
    parse_text_block correspondent_body = Ok [("A", VDict A)] /\
    dict_get "F54A" A = Some (VDict [("F54A_BIC", VStr (txt "BANKDEFF"))]).
Proof.
  destruct (parse_text_block_total correspondent_body) as [A EA].
  exists A. split; [exact EA|].
  assert (Hg : raw_span (Lit (txt ":54A:")) correspondent_body = Some (txt "BANKDEFF
SECOND LINE
")) by (vm_compute; reflexivity).
  apply (proj2 (proj2 (correspondent_first_line _ _ _ EA Hg))
           eq_refl (txt "BANKDEFF") (txt "SECOND LINE")).
  - reflexivity.
  - vm_compute. intros H. repeat (destruct H as [H|H]; [discriminate H|]). exact H.
Defined.

(** ** Converting a file *)

Lemma same_path_eq (a b : str) : same_path a b = true <-> a = b.
Proof.
  revert b; induction a as [|x a IH]; intros [|y b]; simpl;
    try (split; [discriminate | discriminate]); [tauto|].
  rewrite andb_true_iff, chr_eqb_eq, IH.
  split; [intros [-> ->]; reflexivity | intros [= -> ->]; auto].
Qed.

Lemma same_path_refl (a : str) : same_path a a = true.
Proof. now apply same_path_eq. Qed.

Lemma startswith_self (s : str) : startswith s s = true.
Proof.
  unfold startswith. rewrite <- (app_nil_r s) at 2. now rewrite strip_prefix_Some'.
Qed.

Lemma endswith_app (stem suffix : str) : endswith (stem ++ suffix) suffix = true.
Proof.
  unfold endswith. rewrite length_app, Nat.add_sub.
  rewrite skipn_app, Nat.sub_diag, skipn_all. simpl. apply startswith_self.
Qed.

Lemma endswith_split (s suffix : str) :
  endswith s suffix = true ->
  s = firstn (length s - length suffix) s ++ suffix.
Proof.
  unfold endswith, startswith. intros H.
  destruct (strip_prefix suffix (skipn (length s - length suffix) s)) as [r|] eqn:E;
    [|discriminate].
  apply strip_prefix_Some in E.
  assert (Hl : length (skipn (length s - length suffix) s) = length suffix + length r)
    by (rewrite E; apply length_app).
  rewrite length_skipn in Hl.
  assert (r = []) by (destruct r; [reflexivity | simpl in Hl; lia]).
  subst r. rewrite app_nil_r in E.
  rewrite <- E at 2. symmetry. apply firstn_skipn.
Qed.

(** X17. Converting a file.  When the input file exists the call returns the
    output path and leaves the dumped document of the file's message under
    that path, every other file being as before.  Without an output path
    the path is the input path with a final [.txt] replaced by [.json], or
    with [.json] added: it ends in [.json] and is never the input path, so
    the input file is kept.  When the input file does not exist the call
    raises and writes nothing. *)
Theorem convert_file_writes_one_file (dump : dict -> str) (fs : files)
    (input_path : str) (output_path : option str) :
  (forall content, fs input_path = Some content ->
   exists (doc : dict) (out : str),
     mt103_to_json content = Ok doc /\
     convert_file dump fs input_path output_path
       = Returned (write_file out (dump doc) fs, out) /\
     write_file out (dump doc) fs out = Some (dump doc) /\
     (forall p, p <> out -> write_file out (dump doc) fs p = fs p) /\
     (forall given, output_path = Some given -> out = given) /\
     (output_path = None ->
      endswith out (txt ".json") = true /\ out <> input_path /\
      write_file out (dump doc) fs input_path = Some content /\
      (forall stem, input_path = stem ++ txt ".txt" -> out = stem ++ txt ".json") /\
      (endswith input_path (txt ".txt") = false -> out = input_path ++ txt ".json"))) /\
  (fs input_path = None ->
   convert_file dump fs input_path output_path = Failed FileNotFoundError).
Proof.
  split.
  - intros content Hc.
    destruct (document_by_block content) as (d & Ed & _).
    set (out := match output_path with
                | None =>
                    if endswith input_path (txt ".txt")
                    then firstn (length input_path - 4) input_path ++ txt ".json"
                    else input_path ++ txt ".json"
                | Some given => given
                end).
    exists [("MT103", VDict d)], out.
    split; [exact Ed|].
    split; [unfold convert_file; now rewrite Hc, Ed|].
    assert (Hother : forall p, p <> out ->
              write_file out (dump [("MT103", VDict d)]) fs p = fs p).
    { intros p Hp. unfold write_file.
      destruct (same_path p out) eqn:E; [|reflexivity].
      apply same_path_eq in E. contradiction. }
    split; [unfold write_file; now rewrite same_path_refl|].
    split; [exact Hother|].
    split; [intros given ->; reflexivity|].
    intros ->. unfold out.
    assert (Hne : (if endswith input_path (txt ".txt")
                   then firstn (length input_path - 4) input_path ++ txt ".json"
                   else input_path ++ txt ".json") <> input_path).
    { destruct (endswith input_path (txt ".txt")) eqn:E; intros H;
        apply (f_equal (@length ascii)) in H; rewrite length_app in H.
      - apply endswith_split in E. apply (f_equal (@length ascii)) in E.
        rewrite length_app in E. simpl in *. lia.
      - simpl in H. lia. }
    split; [destruct (endswith input_path (txt ".txt")); apply endswith_app|].
    split; [exact Hne|].
    split; [rewrite Hother by (intros H; now apply Hne); exact Hc|].
    split.
    + intros stem ->. rewrite endswith_app.
      rewrite length_app, Nat.add_sub.
      now rewrite firstn_app, Nat.sub_diag, firstn_all, app_nil_r.
    + intros ->. reflexivity.
  - intros Hn. unfold convert_file. now rewrite Hn.
Qed.

Lemma convert_file_writes_one_file_witness :
  let dump := fun _ : dict => txt "{}" in
  let fs := write_file (txt "in/test.txt") scenario_message (fun _ => None) in
  exists files_after,
    convert_file dump fs (txt "in/test.txt") None
      = Returned (files_after, txt "in/test.json") /\
    convert_file dump fs (txt "in/none.txt") None = Failed FileNotFoundError.
Proof.
  intros dump fs.
  destruct (convert_file_writes_one_file dump fs (txt "in/test.txt") None)
    as [Hok _].
  destruct (Hok scenario_message eq_refl) as (doc & out & _ & Hc & _ & _ & _ & Hd).
  destruct (Hd eq_refl) as (_ & _ & _ & Hstem & _).
  rewrite (Hstem (txt "in/test") eq_refl) in Hc.
  eexists. split; [exact Hc|].
  apply (proj2 (convert_file_writes_one_file dump fs (txt "in/none.txt") None)).
  reflexivity.
Defined.

(** ** Currency and amount of field 33B and of the sender's charges *)

Lemma currency_amount_of_match (tag : string) (pos : nat) (u : str) (m : Match) :
  match_here (currency_amount_pattern tag) pos u = Some m ->
  exists cur amount,
    group m 1 = Some cur /\ group m 2 = Some amount /\
    length cur = 3 /\ forallb is_upper cur = true /\
    amount <> [] /\ forallb digit_or_comma amount = true.
Proof.
  intros H. apply match_here_sound in H.
  destruct H as (w & s' & c' & _ & Hm & ->).
  unfold currency_amount_pattern, exactly, plus in Hm. cbn [matches within] in Hm.
  break_matches.
  match goal with
  | Hc : forallb is_upper ?c = true, Ha : forallb digit_or_comma ?a = true |- _ =>
      exists c, a
  end.
  unfold group; simpl.
  repeat split; try assumption; try lia.
  intros ->. simpl in *. lia.
Qed.

Lemma charge_shape (pos : nat) (u : str) (m : Match) (v : value) :
  match_here (currency_amount_pattern ":71F:") pos u = Some m ->
  charge m = Ok v -> currency_amount_shape "F71F_Curr" "F71F_Amount" v.
Proof.
  intros H Hv.
  destruct (currency_amount_of_match _ _ _ _ H)
    as (cur & amount & G1 & G2 & Lc & Hc & Ha & Ham).
  unfold charge, group_str, group_value in Hv. rewrite G1, G2 in Hv.
  injection Hv as <-. exists cur, (parse_amount amount).
  repeat split; try assumption.
  - intros E. apply (f_equal (@length ascii)) in E.
    rewrite replace_comma, length_map in E. destruct amount; [congruence | discriminate].
  - now apply amount_digits_dots.
Qed.

(** X18. Field 33B and the sender's charges as stored.  Whenever the key F33B is
    in the result, its currency is three capital letters and its amount a
    non-empty run of digits and dots; whenever the key A3 is there, it holds
    under F71F either one charge of that shape or a list of two or more
    charges, each of that shape. *)
Theorem currency_and_amount_stored (text : str) (A : dict) :
  parse_text_block text = Ok [("A", VDict A)] ->
  (forall v, dict_get "F33B" A = Some v ->
     currency_amount_shape "F33B_Curr" "F33B_Amount" v) /\
  (forall v, dict_get "A3" A = Some v ->
     exists charges,
       v = VDict [("F71F", charges)] /\
       (currency_amount_shape "F71F_Curr" "F71F_Amount" charges \/
        exists l, charges = VList l /\ 2 <= length l /\
                  Forall (currency_amount_shape "F71F_Curr" "F71F_Amount") l)).
Proof.
  intros EA. split; intros v Hv.
  - destruct (parse_text_block_focus text 6 (field_33B text) eq_refl)
      as (A0 & A1 & A' & E1 & EA' & F0 & F1).
    rewrite EA in EA'. injection EA' as <-.
    rewrite F1 in Hv by absent_key.
    unfold field_33B in E1.
    destruct (re_search (currency_amount_pattern ":33B:") text) as [m|] eqn:E.
    2:{ injection E1 as <-. rewrite F0 in Hv by absent_key. discriminate Hv. }
    apply search_from_sound in E. destruct E as (pre & u & _ & E).
    destruct (currency_amount_of_match _ _ _ _ E)
      as (cur & amount & G1 & G2 & Lc & Hc & Ha & Ham).
    unfold group_str, group_value in E1. rewrite G1, G2 in E1.
    cbn [bind] in E1. injection E1 as <-.
    rewrite dict_get_set_same in Hv. injection Hv as <-.
    exists cur, (parse_amount amount).
    repeat split; try assumption.
    + intros E'. apply (f_equal (@length ascii)) in E'.
      rewrite replace_comma, length_map in E'.
      destruct amount; [congruence | discriminate].
    + now apply amount_digits_dots.
  - destruct (parse_text_block_focus text 20 (field_71F text) eq_refl)
      as (A0 & A1 & A' & E1 & EA' & F0 & F1).
    rewrite EA in EA'. injection EA' as <-.
    rewrite F1 in Hv by absent_key.
    unfold field_71F in E1.
    destruct (charges_total text) as (chs & Ec & HF).
    rewrite Ec in E1. cbn [bind] in E1.
    assert (Hall : Forall (currency_amount_shape "F71F_Curr" "F71F_Amount") chs).
    { apply (Forall2_Forall_r _ _ _ _ HF). intros m c Hin Hc.
      apply finditer_from_In in Hin. destruct Hin as (pos & u & Hm).
      exact (charge_shape _ _ _ _ Hm Hc). }
    destruct chs as [|one [|two rest]]; injection E1 as <-.
    + rewrite F0 in Hv by absent_key. discriminate Hv.
    + rewrite dict_get_set_same in Hv. injection Hv as <-.
      eexists. split; [reflexivity|]. left. now inversion Hall.
    + rewrite dict_get_set_same in Hv. injection Hv as <-.
      eexists. split; [reflexivity|]. right.
      eexists. split; [reflexivity|]. split; [simpl; lia | exact Hall].
Qed.

Lemma currency_and_amount_stored_witness :
  exists A,
    parse_text_block instructed_and_charged = Ok [("A", VDict A)] /\
    currency_amount_shape "F33B_Curr" "F33B_Amount"
      (VDict [ ("F33B_Curr", VStr (txt "EUR")); ("F33B_Amount", VStr (txt "1000.50")) ]) /\
    exists charges,
      dict_get "A3" A = Some (VDict [("F71F", charges)]) /\
      (currency_amount_shape "F71F_Curr" "F71F_Amount" charges \/
       exists l, charges = VList l /\ 2 <= length l /\
                 Forall (currency_amount_shape "F71F_Curr" "F71F_Amount") l).
Proof.
  destruct (parse_text_block_total instructed_and_charged) as [A EA].
  exists A. split; [exact EA|].
  destruct (currency_and_amount_stored _ _ EA) as [H33 H71].
  split.
  - apply H33. revert EA. vm_compute. intros [= <-]. reflexivity.
  - assert (Hv : dict_get "A3" A = Some (VDict [("F71F",
        VList [ VDict [ ("F71F_Curr", VStr (txt "USD")); ("F71F_Amount", VStr (txt "10.")) ];
                VDict [ ("F71F_Curr", VStr (txt "EUR")); ("F71F_Amount", VStr (txt "5.25")) ] ])]))
      by (revert EA; vm_compute; intros [= <-]; reflexivity).
    destruct (H71 _ Hv) as (charges & [= <-] & Hs).
    eexists. split; [exact Hv | exact Hs].
Defined.

(** ** The text block in the message *)

Lemma block4_content_in_message (mt103_message b : str) :
  block4_content mt103_message = Some b ->
  b <> [] /\
  exists pre before after post,
    strip mt103_message
      = pre ++ txt "{4:" ++ before ++ b ++ after ++ txt "-}" ++ post /\
    forallb is_space before = true /\ forallb is_space after = true.
Proof.
  unfold block4_content.
  destruct (re_search _ (strip mt103_message)) as [m|] eqn:E; [|discriminate].
  intros Hg. apply re_search_sound in E.
  destruct E as (pre & w & s' & c' & Ht & Hm & ->).
  unfold block4_pattern, star, lazy_plus in Hm. cbn [matches within] in Hm.
  break_matches. unfold group in Hg. simpl in Hg. injection Hg as <-.
  split; [intros ->; simpl in *; lia|].
  match goal with
  | H1 : forallb is_space ?x = true, H2 : forallb is_space ?y = true,
    Hw : w ++ s' = _ |- _ =>
      exists pre, x, y, s'; rewrite Ht, Hw
  end.
  repeat split; try assumption.
Qed.

(** X19. The text block in the message.  The key A is in the document exactly
    when a block 4 is found; it then holds what [parse_text_block] makes of
    the body, and the body is a non-empty text that stands in the stripped
    message between the marker of block 4 and a closing [-}], with nothing
    but white space between the marker and the body and between the body and
    the closing. *)
Theorem text_block_delimited (mt103_message : str) :
  exists doc,
    mt103_to_json mt103_message = Ok [("MT103", VDict doc)] /\
    match block4_content mt103_message with
    | Some b =>
        b <> [] /\
        (exists pre before after post,
           strip mt103_message
             = pre ++ txt "{4:" ++ before ++ b ++ after ++ txt "-}" ++ post /\
           forallb is_space before = true /\ forallb is_space after = true) /\
        exists A, parse_text_block b = Ok [("A", VDict A)] /\
                  dict_get "A" doc = Some (VDict A)
    | None => dict_get "A" doc = None
    end.
Proof.
  destruct (document_by_block mt103_message) as (doc & E & _ & _ & H4).
  exists doc. split; [exact E|].
  destruct (block4_content mt103_message) as [b|] eqn:Eb; [|exact H4].
  destruct (block4_content_in_message _ _ Eb) as [Hne Hin].
  auto.
Qed.

(** ** Dates outside the six digits *)


